(** * Passkey authentication, sessions and private-message bodies

    A shallow embedding of the worker's route handlers
    ([worker/src/routes/auth.ts], the admin route file with
    [adminAuthMiddleware], the admin login and the thread operations,
    [worker/src/routes/messages.ts]), of the response helpers of
    [lib/api-utils], of [executeTransaction] of [lib/db-utils] and of the
    digest text of [lib/s3], together with the properties the specification
    states about them and further properties of the same code.

    Conventions of the embedding.
    - A JavaScript string is a Rocq [string]; [!s] on a [string | null]
      value is [negb (truthy s)]: [null], [undefined] and the empty string
      are falsy.  Where the [length] of a string is read (message bodies
      and object keys) it is the list of its UTF-16 code units.
    - The key-value namespace [KV_SESSIONS] is a finite map; the tables
      are lists of rows, in table order.
    - A number read from a query string is [NaN], an integer, or a value
      beyond the integers a Number holds exactly.
    - The passkey handlers run in a state monad over the two stores and a
      log of the store operations they perform, in program order; the
      message handlers pass the mailbox (tables and object store) along.
    - Values drawn at random ([crypto.randomUUID()], the nonce inside the
      options generated by the WebAuthn library) and the clock are explicit
      arguments.
    - A store call that fails (the "store unavailable" case) is not
      modelled: every [get], [put], [delete] and query returns, except the
      [INSERT], whose constraint violations are written out.
    - Logging has no effect on the stores and is left out. *)

From Stdlib Require Import String Ascii List ZArith Lia Bool DecimalString.
From stdpp Require Import gmap strings list.
Import ListNotations.
Open Scope string_scope.
Open Scope Z_scope.

(** ** JavaScript values used by the handlers *)

(** Truthiness of a [string | null | undefined] value. *)
Definition truthy (v : option string) : bool :=
  match v with
  | Some s => negb (String.eqb s "")
  | None => false
  end.

(** [a || b] on a string-or-undefined [a]. *)
Definition or_else (a : option string) (b : string) : string :=
  match a with
  | Some s => if String.eqb s "" then b else s
  | None => b
  end.

(** The outcome of a call that may throw an [Error]. *)
Inductive Try (A : Type) : Type :=
| Returned (a : A)
| Threw (message : string).
Arguments Returned {A} a.
Arguments Threw {A} message.

(** [s.split(' ')]: the pieces between single spaces, never empty. *)
Fixpoint split_space (s : string) : list string :=
  match s with
  | EmptyString => [EmptyString]
  | String c rest =>
      if Ascii.eqb c " "%char then EmptyString :: split_space rest
      else match split_space rest with
           | [] => [String c EmptyString]
           | piece :: pieces => String c piece :: pieces
           end
  end.

(** [s.includes(c)] for a one-character needle. *)
Fixpoint includes_char (c : ascii) (s : string) : bool :=
  match s with
  | EmptyString => false
  | String d rest => Ascii.eqb d c || includes_char c rest
  end.

(** [s.startsWith(p)]. *)
Definition startsWith (p s : string) : bool := String.prefix p s.

(** ** Numbers read from query strings *)

(** The value of [parseInt(text, 10)]: [NaN], an integer a Number holds
    exactly, or a value beyond [Number.MAX_SAFE_INTEGER] in magnitude (the
    nearest double, possibly an infinity), of which only the sign is kept. *)
Inductive JsNumber : Type :=
| NaN
| Int (z : Z)
| Beyond (negative : bool).

Definition MAX_SAFE_INTEGER : Z := 9007199254740991.

(** White space and line terminators, as code units. *)
Definition is_white_space (c : N) : bool :=
  existsb (N.eqb c)
    [9; 10; 11; 12; 13; 32; 160; 5760; 8232; 8233; 8239; 8287; 12288; 65279]%N
  || ((8192 <=? c) && (c <=? 8202))%N.

Definition is_digit (c : N) : bool := ((48 <=? c) && (c <=? 57))%N.

Fixpoint trim_start (text : list N) : list N :=
  match text with
  | [] => []
  | c :: rest => if is_white_space c then trim_start rest else text
  end.

Fixpoint leading_digits (text : list N) : list N :=
  match text with
  | [] => []
  | c :: rest => if is_digit c then c :: leading_digits rest else []
  end.

Definition digits_value (digits : list N) : Z :=
  fold_left (fun acc d => 10 * acc + (Z.of_N d - 48)) digits 0.

(** [parseInt(text, 10)] on the code units of [text]: leading white space
    is skipped, one sign is read, then the longest run of decimal digits;
    what follows is ignored, and no digit at all gives [NaN]. *)
Definition parseInt (text : list N) : JsNumber :=
  let trimmed := trim_start text in
  let negative :=
    match trimmed with
    | c :: _ => N.eqb c 45
    | [] => false
    end in
  let unsigned :=
    match trimmed with
    | c :: rest => if N.eqb c 45 || N.eqb c 43 then rest else trimmed
    | [] => []
    end in
  match leading_digits unsigned with
  | [] => NaN
  | digits =>
      let value := digits_value digits in
      if value <=? MAX_SAFE_INTEGER
      then Int (if negative then - value else value)
      else Beyond negative
  end.

Definition isNaN (x : JsNumber) : bool :=
  match x with
  | NaN => true
  | _ => false
  end.

(** [x < k] and [x > k], for an integer [k] within the safe range. *)
Definition js_lt (x : JsNumber) (k : Z) : bool :=
  match x with
  | NaN => false
  | Int z => z <? k
  | Beyond negative => negative
  end.

Definition js_gt (x : JsNumber) (k : Z) : bool :=
  match x with
  | NaN => false
  | Int z => z >? k
  | Beyond negative => negb negative
  end.

(** [x || d] on numbers: [NaN] and zero are falsy. *)
Definition number_or (x d : JsNumber) : JsNumber :=
  match x with
  | NaN => d
  | Int z => if z =? 0 then d else x
  | Beyond _ => x
  end.

(** [Math.min(x, k)], for an integer [k] within the safe range. *)
Definition Math_min (x : JsNumber) (k : Z) : JsNumber :=
  match x with
  | NaN => NaN
  | Int z => Int (Z.min z k)
  | Beyond true => Beyond true
  | Beyond false => Int k
  end.

(** ** lib/api-utils *)

Module ApiUtils.

Module HTTP_STATUS.
Definition OK : Z := 200.
Definition CREATED : Z := 201.
Definition NO_CONTENT : Z := 204.
Definition BAD_REQUEST : Z := 400.
Definition UNAUTHORIZED : Z := 401.
Definition FORBIDDEN : Z := 403.
Definition NOT_FOUND : Z := 404.
Definition CONFLICT : Z := 409.
Definition UNPROCESSABLE_ENTITY : Z := 422.
Definition INTERNAL_SERVER_ERROR : Z := 500.
End HTTP_STATUS.

Inductive ErrorCode : Set :=
| AUTH_UNAUTHORIZED | AUTH_FORBIDDEN | AUTH_INVALID_TOKEN | AUTH_SESSION_EXPIRED
| RESOURCE_NOT_FOUND | RESOURCE_ALREADY_EXISTS
| VALIDATION_ERROR | INVALID_INPUT
| PERMISSION_DENIED | INSUFFICIENT_LEVEL
| INTERNAL_ERROR | DATABASE_ERROR.

(** The [details] of a validation error: an object of field messages. *)
Definition Details : Type := list (string * string).

(** [SuccessResponse<T> | ErrorResponse], as serialised by [c.json]. *)
Inductive ApiResponse (T : Type) : Type :=
| Success (data : T) (message : option string)
| Failure (error : string) (code : ErrorCode) (details : option Details).
Arguments Success {T} data message.
Arguments Failure {T} error code details.

Record Response (T : Type) : Type := mkResponse {
  body : ApiResponse T;
  status : Z
}.
Arguments mkResponse {T} body status.
Arguments body {T} r.
Arguments status {T} r.

(** [...(message && { message })]: an empty message is dropped. *)
Definition successResponse {T} (data : T) (message : option string) (st : Z)
  : Response T :=
  mkResponse (Success data (if truthy message then message else None)) st.

(** [...(details && { details })]: an object is always truthy. *)
Definition errorResponse {T} (error : string) (code : ErrorCode) (st : Z)
    (details : option Details) : Response T :=
  mkResponse (Failure error code details) st.

Module errors.
Definition unauthorized {T} (message : string) : Response T :=
  errorResponse message AUTH_UNAUTHORIZED HTTP_STATUS.UNAUTHORIZED None.
Definition forbidden {T} (message : string) : Response T :=
  errorResponse message AUTH_FORBIDDEN HTTP_STATUS.FORBIDDEN None.
Definition notFound {T} (resource : string) : Response T :=
  errorResponse (resource +:+ "不存在") RESOURCE_NOT_FOUND HTTP_STATUS.NOT_FOUND None.
Definition conflict {T} (message : string) : Response T :=
  errorResponse message RESOURCE_ALREADY_EXISTS HTTP_STATUS.CONFLICT None.
Definition validation {T} (details : Details) : Response T :=
  errorResponse "输入验证失败" VALIDATION_ERROR HTTP_STATUS.UNPROCESSABLE_ENTITY
    (Some details).
Definition internal {T} (message : string) : Response T :=
  errorResponse message INTERNAL_ERROR HTTP_STATUS.INTERNAL_SERVER_ERROR None.
End errors.

(** The specification's result kinds, read off a response: the error
    code, and the status where one code serves two kinds. *)
Inductive Kind : Set :=
| Ok
| MalformedInput
| ChallengeExpiredOrUnknown
| CredentialNotFound
| CryptographicVerificationFailed
| Unauthorized
| Forbidden
| Conflict
| StoreUnavailable
| Other.

Definition kind {T} (r : Response T) : Kind :=
  match body r with
  | Success _ _ => Ok
  | Failure _ VALIDATION_ERROR _ => MalformedInput
  | Failure _ AUTH_SESSION_EXPIRED _ => ChallengeExpiredOrUnknown
  | Failure _ RESOURCE_NOT_FOUND _ => CredentialNotFound
  | Failure _ AUTH_UNAUTHORIZED _ =>
      if status r =? HTTP_STATUS.UNAUTHORIZED then Unauthorized
      else CryptographicVerificationFailed
  | Failure _ AUTH_FORBIDDEN _ => Forbidden
  | Failure _ RESOURCE_ALREADY_EXISTS _ => Conflict
  | Failure _ INTERNAL_ERROR _ => StoreUnavailable
  | Failure _ _ _ => Other
  end.

End ApiUtils.


(** ** The stores: KV namespace and D1 tables *)

(** A KV entry: the value and the [expirationTtl] it was put with.  No clock
    is modelled, so an entry stays until it is deleted or overwritten. *)
Record KvEntry : Type := mkKvEntry {
  kv_value : string;
  expirationTtl : Z
}.

(** A row of [Users] (docs/database-schema.sql). *)
Record User : Type := mkUser {
  user_id : string;
  username : string;
  email : string;
  user_created_at : Z;
  profile_bio : option string;
  avatar : option string;
  level : Z;
  role : string
}.

(** A row of [Passkeys]. *)
Record Passkey : Type := mkPasskey {
  passkey_id : string;
  passkey_user_id : string;
  pubkey_blob : string;
  sign_counter : Z;
  passkey_created_at : Z
}.

Record Database : Type := mkDatabase {
  Users : list User;
  Passkeys : list Passkey
}.

(** The store operations a handler performs, as they appear in its text. *)
Inductive Op : Type :=
| KvGet (key : string)
| KvPut (key value : string) (ttl : Z)
| KvDelete (key : string)
| SelectUserById (id : string)
| InsertPasskey (id owner : string)
| UpdateSignCounter (id : string) (counter : Z)
| CallGetUser (name mail : string)
| CallGetOrCreateUser (name mail : string)
| CallGetUserPasskeys (owner : string)
| CallGetPasskeyById (id : string).

Record World : Type := mkWorld {
  KV_SESSIONS : gmap string KvEntry;
  DB : Database;
  log : list Op
}.

(** Handlers: state passing over [World]. *)
Definition M (A : Type) : Type := World -> A * World.

Definition ret {A} (a : A) : M A := fun w => (a, w).

Definition bind {A B} (m : M A) (k : A -> M B) : M B :=
  fun w => let (a, w') := m w in k a w'.

Notation "'let*' x ':=' m 'in' k" := (bind m (fun x => k))
  (at level 10, x name, m at level 100, k at level 200).

Definition record (op : Op) (w : World) : World :=
  mkWorld (KV_SESSIONS w) (DB w) (log w ++ [op])%list.

Definition with_kv (f : gmap string KvEntry -> gmap string KvEntry) (w : World) : World :=
  mkWorld (f (KV_SESSIONS w)) (DB w) (log w).

Definition with_db (db : Database) (w : World) : World :=
  mkWorld (KV_SESSIONS w) db (log w).

(** [await kv.get(key)] *)
Definition kv_get (key : string) : M (option string) :=
  fun w => (kv_value <$> (KV_SESSIONS w !! key), record (KvGet key) w).

(** [await kv.put(key, value, { expirationTtl: ttl })] *)
Definition kv_put (key value : string) (ttl : Z) : M unit :=
  fun w => (tt, record (KvPut key value ttl)
                  (with_kv (insert key (mkKvEntry value ttl)) w)).

(** [await kv.delete(key)]: deleting an absent key is not an error. *)
Definition kv_delete (key : string) : M unit :=
  fun w => (tt, record (KvDelete key) (with_kv (delete key) w)).

(** [SELECT ... FROM Users WHERE id = ?] with [.first()] *)
Definition select_user_by_id (id : string) : M (option User) :=
  fun w => (find (fun u => String.eqb (user_id u) id) (Users (DB w)),
            record (SelectUserById id) w).

(** [UPDATE Passkeys SET sign_counter = ? WHERE id = ?] *)
Definition set_counter (id : string) (counter : Z) (p : Passkey) : Passkey :=
  if String.eqb (passkey_id p) id
  then mkPasskey (passkey_id p) (passkey_user_id p) (pubkey_blob p) counter
         (passkey_created_at p)
  else p.

Definition update_sign_counter (id : string) (counter : Z) : M unit :=
  fun w => (tt, record (UpdateSignCounter id counter)
                  (with_db (mkDatabase (Users (DB w))
                              (map (set_counter id counter) (Passkeys (DB w)))) w)).

(** [INSERT INTO Passkeys (id, user_id, pubkey_blob, sign_counter, created_at)]:
    the statement throws when the primary key is taken or when [user_id]
    references no row of [Users]; nothing is written then. *)
Definition insert_passkey (row : Passkey) : M (Try unit) :=
  fun w =>
    let db := DB w in
    let w' := record (InsertPasskey (passkey_id row) (passkey_user_id row)) w in
    if existsb (fun p => String.eqb (passkey_id p) (passkey_id row)) (Passkeys db)
    then (Threw "D1_ERROR: UNIQUE constraint failed: Passkeys.id", w')
    else if negb (existsb (fun u => String.eqb (user_id u) (passkey_user_id row)) (Users db))
    then (Threw "D1_ERROR: FOREIGN KEY constraint failed", w')
    else (Returned tt,
          with_db (mkDatabase (Users db) (Passkeys db ++ [row])%list) w').


(** ** Collaborators outside the route files *)

(** [clientDataJSON] is a base64url string on the wire; the extraction code
    also accepts an array of bytes. *)
Inductive ClientDataField : Type :=
| CdString (text : string)
| CdBytes (bytes : string).

(** [RegistrationResponseJSON] and [AuthenticationResponseJSON]: the fields
    the handlers read, and the rest of [response] kept opaque. *)
Record CredentialJSON : Type := mkCredentialJSON {
  id : string;
  rawId : string;
  clientDataJSON : ClientDataField;
  signed : string
}.
Definition RegistrationResponseJSON : Type := CredentialJSON.
Definition AuthenticationResponseJSON : Type := CredentialJSON.

(** Platform functions used by the challenge extraction. *)
Class Platform : Type := {
  (** [atob(s)]: the decoded bytes, or an exception on invalid input *)
  atob : string -> Try string;
  (** [new TextDecoder().decode(bytes)] *)
  text_decode : string -> string;
  (** [JSON.parse(text).challenge]: an exception when the text does not
      parse or parses to [null]; [None] when the property is absent *)
  parse_challenge : string -> Try (option string)
}.

(** @simplewebauthn/server *)
Record AuthenticatorDevice : Type := mkAuthenticatorDevice {
  credentialID : string;
  credentialPublicKey : string;
  counter : Z
}.

Record RegistrationInfo : Type := mkRegistrationInfo {
  reg_credentialPublicKey : string;
  reg_credentialID : string;
  reg_counter : Z
}.

Record VerifiedRegistrationResponse : Type := mkVerifiedRegistration {
  reg_verified : bool;
  registrationInfo : option RegistrationInfo
}.

Record VerifiedAuthenticationResponse : Type := mkVerifiedAuthentication {
  auth_verified : bool;
  newCounter : Z
}.

Class WebAuthn : Type := {
  (** [verifyRegistrationResponse({ response, expectedChallenge,
      expectedOrigin, expectedRPID, requireUserVerification })] *)
  verifyRegistrationResponse :
    RegistrationResponseJSON -> string -> string -> string -> bool ->
    Try VerifiedRegistrationResponse;
  (** [verifyAuthenticationResponse({ response, expectedChallenge,
      expectedOrigin, expectedRPID, authenticator, requireUserVerification })] *)
  verifyAuthenticationResponse :
    AuthenticationResponseJSON -> string -> string -> string ->
    AuthenticatorDevice -> bool -> Try VerifiedAuthenticationResponse
}.

(** [lib/passkeys]: the data-access helpers the route files import, whose
    text is not among the sources.  The handlers are written against this
    interface: the helpers read, and [getOrCreateUser] may write, the
    database; the last two arguments of [getOrCreateUser] are the fresh id
    and the clock it draws. *)
Class PasskeysLib : Type := {
  getUser : Database -> string -> string -> option User;
  getOrCreateUser : Database -> string -> string -> string -> Z -> Database * User;
  getUserPasskeys : Database -> string -> list Passkey;
  getPasskeyById : Database -> string -> option Passkey
}.

(** The environment bindings and the request URL.  The declaration of the
    bindings is not among the sources: a binding the handlers test for
    truth is taken to be absent, a boolean or a string. *)
Inductive EnvValue : Type :=
| EnvUnset
| EnvBool (b : bool)
| EnvString (s : string).

(** [!v] is [negb (env_truthy v)]. *)
Definition env_truthy (v : EnvValue) : bool :=
  match v with
  | EnvUnset => false
  | EnvBool b => b
  | EnvString s => negb (String.eqb s "")
  end.

Record Env : Type := mkEnv {
  RP_ID : option string;
  ORIGIN : option string;
  RP_NAME : string;
  REGISTER_ENABLED : EnvValue;
  url_hostname : string;
  url_origin : string
}.

(** [v] when it is truthy: [if (v)] and [if (!v)] branch on this. *)
Definition as_truthy (v : option string) : option string :=
  match v with
  | Some s => if String.eqb s "" then None else Some s
  | None => None
  end.

(** The logged calls into [lib/passkeys]. *)
Section PasskeysCalls.
Context `{PasskeysLib}.

Definition call_getUser (name mail : string) : M (option User) :=
  fun w => (getUser (DB w) name mail, record (CallGetUser name mail) w).

Definition call_getOrCreateUser (name mail fresh : string) (now : Z) : M User :=
  fun w => let (db, user) := getOrCreateUser (DB w) name mail fresh now in
           (user, record (CallGetOrCreateUser name mail) (with_db db w)).

Definition call_getUserPasskeys (owner : string) : M (list Passkey) :=
  fun w => (getUserPasskeys (DB w) owner, record (CallGetUserPasskeys owner) w).

Definition call_getPasskeyById (id : string) : M (option Passkey) :=
  fun w => (getPasskeyById (DB w) id, record (CallGetPasskeyById id) w).

End PasskeysCalls.

(** The request body as the verify handlers see it: [c.req.json()] threw,
    the value they need is falsy, or it is there. *)
Inductive Body (A : Type) : Type :=
| InvalidJson
| Missing
| Present (a : A).
Arguments InvalidJson {A}.
Arguments Missing {A}.
Arguments Present {A} a.

(** The columns [GET /session] selects. *)
Record SessionUser : Type := mkSessionUser {
  su_id : string;
  su_username : string;
  su_email : string;
  su_role : string;
  su_level : Z;
  su_avatar : option string
}.

Definition session_user (u : User) : SessionUser :=
  mkSessionUser (user_id u) (username u) (email u) (role u) (level u) (avatar u).

(** The options the WebAuthn library generates; [opt_challenge] is the
    nonce it draws. *)
Record RegistrationOptions : Type := mkRegistrationOptions {
  opt_challenge : string;
  opt_rpName : string;
  opt_rpID : string;
  opt_userID : string;
  opt_userName : string;
  opt_excludeCredentials : list string
}.

Record AuthenticationOptions : Type := mkAuthenticationOptions {
  aopt_challenge : string;
  aopt_rpID : string
}.

(** The [data] of the success responses. *)
Inductive Payload : Type :=
| Null
| RegistrationOptionsData (options : RegistrationOptions)
| AuthenticationOptionsData (options : AuthenticationOptions)
| VerifiedData (token : string)
| SessionData (valid : bool) (user : option SessionUser).

(** [s.replace(/-/g, '+').replace(/_/g, '/')] *)
Fixpoint base64url_to_base64 (s : string) : string :=
  match s with
  | EmptyString => EmptyString
  | String c rest =>
      String (if Ascii.eqb c "-"%char then "+"%char
              else if Ascii.eqb c "_"%char then "/"%char else c)
             (base64url_to_base64 rest)
  end.

(** The token of a header that passed [startsWith('Bearer ')]:
    [authHeader.split(' ')[1]]. *)
Definition bearer_token (authHeader : string) : string :=
  nth 1 (split_space authHeader) "".


(** ** worker/src/routes/auth.ts *)

Module AuthRoute.
Import ApiUtils.

Definition CHALLENGE_TTL : Z := 300.
Definition SESSION_TTL : Z := 86400.

Section Handlers.
Context `{Platform} `{WebAuthn} `{PasskeysLib}.

Definition getRpID (env : Env) : string := or_else (RP_ID env) (url_hostname env).

Definition getOrigin (env : Env) : string := or_else (ORIGIN env) (url_origin env).

(** Any exception inside the [try] makes the result [null]. *)
Definition extractChallengeFromClientData (response : CredentialJSON) : option string :=
  let bytes :=
    match clientDataJSON response with
    | CdString text => atob (base64url_to_base64 text)
    | CdBytes raw => Returned raw
    end in
  match bytes with
  | Threw _ => None
  | Returned raw =>
      match parse_challenge (text_decode raw) with
      | Threw _ => None
      | Returned challenge => challenge
      end
  end.

(** [sessionToken] is the [crypto.randomUUID()] drawn by the call. *)
Definition createSession (userId : string) (ttl : Z) (sessionToken : string) : M string :=
  let* _ := kv_put ("session:" +:+ sessionToken) userId ttl in
  ret sessionToken.

Definition storeChallenge (challenge value : string) (ttl : Z) : M unit :=
  kv_put ("challenge:" +:+ challenge) value ttl.

Definition getAndDeleteChallenge (challenge : string) : M (option string) :=
  let key := "challenge:" +:+ challenge in
  let* value := kv_get key in
  if truthy value
  then let* _ := kv_delete key in ret value
  else ret value.

(** [generateRegistrationOptions]: the handler reads only the nonce. *)
Definition generateRegistrationOptions (rpName rpID userID userName : string)
    (excludeCredentials : list string) (nonce : string) : RegistrationOptions :=
  mkRegistrationOptions nonce rpName rpID userID userName excludeCredentials.

Definition generateAuthenticationOptions (rpID nonce : string) : AuthenticationOptions :=
  mkAuthenticationOptions nonce rpID.

(** [POST /register/challenge], on the input the schema validator passed.
    [nonce] is the challenge the library draws, [fresh] and [now] the id and
    the clock [getOrCreateUser] draws. *)
Definition registerChallenge (env : Env) (name mail : string)
    (nonce fresh : string) (now : Z) : M (Response Payload) :=
  if negb (env_truthy (REGISTER_ENABLED env))
  then ret (errors.forbidden "注册功能已禁用")
  else
    let rpID := getRpID env in
    let* existingUser := call_getUser name mail in
    match existingUser with
    | Some _ => ret (errors.conflict "用户名或邮箱已被注册")
    | None =>
        let* user := call_getOrCreateUser name mail fresh now in
        let* userPasskeys := call_getUserPasskeys (user_id user) in
        let options :=
          generateRegistrationOptions (RP_NAME env) rpID (user_id user) (username user)
            (map passkey_id userPasskeys) nonce in
        let* _ := storeChallenge (opt_challenge options) (user_id user) CHALLENGE_TTL in
        ret (successResponse (RegistrationOptionsData options) None HTTP_STATUS.OK)
    end.

(** The [try] block of [POST /register/verify], after the challenge was
    consumed: verification, the new [Passkeys] row, the session. *)
Definition registerVerify_try (env : Env) (response : RegistrationResponseJSON)
    (expectedChallenge userId sessionToken : string) (now : Z) : M (Response Payload) :=
  match verifyRegistrationResponse response expectedChallenge (getOrigin env)
          (getRpID env) false with
  | Threw message =>
      ret (errorResponse message AUTH_UNAUTHORIZED HTTP_STATUS.BAD_REQUEST None)
  | Returned verification =>
      match reg_verified verification, registrationInfo verification with
      | true, Some info =>
          let* inserted :=
            insert_passkey (mkPasskey (reg_credentialID info) userId
                              (reg_credentialPublicKey info) (reg_counter info) now) in
          match inserted with
          | Threw message =>
              ret (errorResponse message AUTH_UNAUTHORIZED HTTP_STATUS.BAD_REQUEST None)
          | Returned _ =>
              let* token := createSession userId SESSION_TTL sessionToken in
              ret (successResponse (VerifiedData token) None HTTP_STATUS.OK)
          end
      | _, _ =>
          ret (errorResponse "验证失败" AUTH_UNAUTHORIZED HTTP_STATUS.BAD_REQUEST None)
      end
  end.

(** [POST /register/verify] *)
Definition registerVerify (env : Env) (body : Body RegistrationResponseJSON)
    (sessionToken : string) (now : Z) : M (Response Payload) :=
  match body with
  | InvalidJson => ret (errors.validation [("body", "无效的请求体")])
  | Missing => ret (errors.validation [("response", "缺少响应数据")])
  | Present response =>
      match as_truthy (extractChallengeFromClientData response) with
      | None => ret (errors.validation [("challenge", "无法从响应中提取 challenge")])
      | Some expectedChallenge =>
          let* stored := getAndDeleteChallenge expectedChallenge in
          match as_truthy stored with
          | None =>
              ret (errorResponse "挑战已过期或不存在，请重新尝试" AUTH_SESSION_EXPIRED
                     HTTP_STATUS.BAD_REQUEST None)
          | Some userId =>
              registerVerify_try env response expectedChallenge userId sessionToken now
          end
      end
  end.

(** [POST /login/challenge] *)
Definition loginChallenge (env : Env) (nonce : string) : M (Response Payload) :=
  let options := generateAuthenticationOptions (getRpID env) nonce in
  let* _ := storeChallenge (aopt_challenge options) "true" CHALLENGE_TTL in
  ret (successResponse (AuthenticationOptionsData options) None HTTP_STATUS.OK).

(** The [try] block of [POST /login/verify]: verification against the stored
    credential, the counter update, the session. *)
Definition loginVerify_try (env : Env) (response : AuthenticationResponseJSON)
    (challenge : string) (passkey : Passkey) (sessionToken : string)
    : M (Response Payload) :=
  match verifyAuthenticationResponse response challenge (getOrigin env) (getRpID env)
          (mkAuthenticatorDevice (passkey_id passkey) (pubkey_blob passkey)
             (sign_counter passkey)) false with
  | Threw message =>
      ret (errorResponse message AUTH_UNAUTHORIZED HTTP_STATUS.BAD_REQUEST None)
  | Returned verification =>
      if negb (auth_verified verification)
      then ret (errorResponse "验证失败" AUTH_UNAUTHORIZED HTTP_STATUS.BAD_REQUEST None)
      else
        let* _ := update_sign_counter (passkey_id passkey) (newCounter verification) in
        let* token := createSession (passkey_user_id passkey) SESSION_TTL sessionToken in
        ret (successResponse (VerifiedData token) None HTTP_STATUS.OK)
  end.

(** [POST /login/verify] *)
Definition loginVerify (env : Env) (body : Body AuthenticationResponseJSON)
    (sessionToken : string) : M (Response Payload) :=
  match body with
  | InvalidJson => ret (errors.validation [("body", "无效的请求体")])
  | Missing => ret (errors.validation [("response", "缺少响应数据")])
  | Present response =>
      match as_truthy (extractChallengeFromClientData response) with
      | None => ret (errors.validation [("challenge", "无法从响应中提取 challenge")])
      | Some challenge =>
          let* expectedChallenge := getAndDeleteChallenge challenge in
          match as_truthy expectedChallenge with
          | None =>
              ret (errorResponse "挑战已过期或不存在" AUTH_SESSION_EXPIRED
                     HTTP_STATUS.BAD_REQUEST None)
          | Some _ =>
              let* passkey := call_getPasskeyById (id response) in
              match passkey with
              | None => ret (errors.notFound "凭证")
              | Some passkey => loginVerify_try env response challenge passkey sessionToken
              end
          end
      end
  end.

(** [POST /logout] *)
Definition logout (authHeader : option string) : M (Response Payload) :=
  match authHeader with
  | None => ret (errors.unauthorized "缺少有效的认证令牌")
  | Some header =>
      if negb (startsWith "Bearer " header)
      then ret (errors.unauthorized "缺少有效的认证令牌")
      else
        let token := bearer_token header in
        let* _ := kv_delete ("session:" +:+ token) in
        ret (successResponse Null (Some "退出登录成功") HTTP_STATUS.OK)
  end.

(** [GET /session] *)
Definition session (authHeader : option string) : M (Response Payload) :=
  match authHeader with
  | None => ret (successResponse (SessionData false None) None HTTP_STATUS.OK)
  | Some header =>
      if negb (startsWith "Bearer " header)
      then ret (successResponse (SessionData false None) None HTTP_STATUS.OK)
      else
        let token := bearer_token header in
        let* userId := kv_get ("session:" +:+ token) in
        match as_truthy userId with
        | None => ret (successResponse (SessionData false None) None HTTP_STATUS.OK)
        | Some userId =>
            let* user := select_user_by_id userId in
            match user with
            | None =>
                let* _ := kv_delete ("session:" +:+ token) in
                ret (successResponse (SessionData false None) None HTTP_STATUS.OK)
            | Some user =>
                ret (successResponse (SessionData true (Some (session_user user))) None
                       HTTP_STATUS.OK)
            end
        end
  end.

End Handlers.
End AuthRoute.


(** ** The admin route file: [adminAuthMiddleware] and the admin login *)

Module AdminRoute.
Import ApiUtils.

Definition ADMIN_SESSION_TTL : Z := 86400.
Definition CHALLENGE_TTL : Z := 300.

(** What a middleware does with a request: answer it, or call [next()]
    with the user it attached to the context. *)
Inductive Middleware : Type :=
| Rejected (response : Response Payload)
| Next (user : User).

(** [user.role !== 'admin' && user.username !== 'admin'] *)
Definition not_admin (user : User) : bool :=
  negb (String.eqb (role user) "admin") && negb (String.eqb (username user) "admin").

Section Handlers.
Context `{Platform} `{WebAuthn} `{PasskeysLib}.

Definition adminAuthMiddleware (authHeader : option string) : M Middleware :=
  match as_truthy authHeader with
  | None => ret (Rejected (errors.unauthorized "缺少 Authorization 请求头"))
  | Some header =>
      let parts := split_space header in
      if negb (Nat.eqb (List.length parts) 2) || negb (String.eqb (nth 0 parts "") "Bearer")
      then ret (Rejected (errors.unauthorized "Authorization 格式无效，应为 Bearer <token>"))
      else
        let token := nth 1 parts "" in
        if String.eqb token ""
        then ret (Rejected (errors.unauthorized "缺少认证令牌"))
        else
          let* userId := kv_get ("session:" +:+ token) in
          match as_truthy userId with
          | None => ret (Rejected (errors.unauthorized "会话已过期或无效"))
          | Some userId =>
              let* user := select_user_by_id userId in
              match user with
              | None =>
                  let* _ := kv_delete ("session:" +:+ token) in
                  ret (Rejected (errors.unauthorized "用户不存在"))
              | Some user =>
                  if not_admin user
                  then ret (Rejected (errors.forbidden "需要管理员权限"))
                  else ret (Next user)
              end
          end
  end.

Definition getRpID (env : Env) : string := or_else (RP_ID env) (url_hostname env).

Definition getOrigin (env : Env) : string := or_else (ORIGIN env) (url_origin env).

Definition extractChallenge (response : AuthenticationResponseJSON) : option string :=
  let bytes :=
    match clientDataJSON response with
    | CdString text => atob (base64url_to_base64 text)
    | CdBytes raw => Returned raw
    end in
  match bytes with
  | Threw _ => None
  | Returned raw =>
      match parse_challenge (text_decode raw) with
      | Threw _ => None
      | Returned challenge => challenge
      end
  end.

(** The paging of the admin lists ([GET /users], [GET /threads], [GET
    /replies]): [const { page = '1', limit = '20' } = c.req.query()],
    [pageNum = parseInt(page, 10) || 1] and
    [limitNum = Math.min(parseInt(limit, 10) || 20, 100)]. *)
Definition pageNum (page : option (list N)) : JsNumber :=
  number_or (parseInt (default [49%N] page)) (Int 1).

Definition limitNum (limit : option (list N)) : JsNumber :=
  Math_min (number_or (parseInt (default [50%N; 48%N] limit)) (Int 20)) 100.

(** [POST /admin/login/challenge] *)
Definition loginChallenge (env : Env) (nonce : string) : M (Response Payload) :=
  let options := mkAuthenticationOptions nonce (getRpID env) in
  let* _ := kv_put ("challenge:" +:+ aopt_challenge options) "true" CHALLENGE_TTL in
  ret (successResponse (AuthenticationOptionsData options) None HTTP_STATUS.OK).

(** The [try] block of [POST /admin/login/verify]. *)
Definition loginVerify_try (env : Env) (response : AuthenticationResponseJSON)
    (challenge : string) (passkey : Passkey) (token : string) : M (Response Payload) :=
  match verifyAuthenticationResponse response challenge (getOrigin env) (getRpID env)
          (mkAuthenticatorDevice (passkey_id passkey) (pubkey_blob passkey)
             (sign_counter passkey)) false with
  | Threw message =>
      ret (errorResponse message AUTH_UNAUTHORIZED HTTP_STATUS.BAD_REQUEST None)
  | Returned verification =>
      if negb (auth_verified verification)
      then ret (errorResponse "验证失败" AUTH_UNAUTHORIZED HTTP_STATUS.BAD_REQUEST None)
      else
        let* user := select_user_by_id (passkey_user_id passkey) in
        match user with
        | None => ret (errors.forbidden "需要管理员权限")
        | Some user =>
            if not_admin user
            then ret (errors.forbidden "需要管理员权限")
            else
              let* _ := update_sign_counter (passkey_id passkey) (newCounter verification) in
              let* _ := kv_delete ("challenge:" +:+ challenge) in
              let* _ := kv_put ("session:" +:+ token) (user_id user) ADMIN_SESSION_TTL in
              ret (successResponse (VerifiedData token) None HTTP_STATUS.OK)
        end
  end.

(** [POST /admin/login/verify]: the challenge is read here and deleted only
    at the end of a successful login. *)
Definition loginVerify (env : Env) (body : Body AuthenticationResponseJSON)
    (token : string) : M (Response Payload) :=
  match body with
  | InvalidJson => ret (errors.validation [("body", "无效的请求体")])
  | Missing => ret (errors.validation [("response", "缺少响应数据")])
  | Present response =>
      match as_truthy (extractChallenge response) with
      | None => ret (errors.validation [("challenge", "无法提取 challenge")])
      | Some challenge =>
          let* expectedChallenge := kv_get ("challenge:" +:+ challenge) in
          match as_truthy expectedChallenge with
          | None =>
              ret (errorResponse "挑战已过期或不存在" AUTH_SESSION_EXPIRED
                     HTTP_STATUS.BAD_REQUEST None)
          | Some _ =>
              let* passkey := call_getPasskeyById (id response) in
              match passkey with
              | None => ret (errors.notFound "凭证")
              | Some passkey => loginVerify_try env response challenge passkey token
              end
          end
      end
  end.

End Handlers.
End AdminRoute.


(** ** Instances of the collaborators, for running the handlers *)

(** Modelled from the spec: [lib/passkeys] is not among the sources.  Its
    four helpers follow the credential lookup adapter of the specification
    ([getCredentialById(id) -> Credential | None],
    [listCredentialsForUser(userId) -> []Credential]), the uniqueness of
    user names and e-mail addresses, and the helpers' names: [getUser]
    finds a user by name or e-mail, [getOrCreateUser] returns the user of
    that name and inserts an ordinary level-1 user when there is none. *)
Definition d1_getUser (db : Database) (name mail : string) : option User :=
  find (fun u => String.eqb (username u) name || String.eqb (email u) mail) (Users db).

Definition d1_getOrCreateUser (db : Database) (name mail fresh : string) (now : Z)
    : Database * User :=
  match find (fun u => String.eqb (username u) name) (Users db) with
  | Some u => (db, u)
  | None =>
      let u := mkUser fresh name mail now None None 1 "user" in
      (mkDatabase (Users db ++ [u])%list (Passkeys db), u)
  end.

Definition d1_getUserPasskeys (db : Database) (owner : string) : list Passkey :=
  filter (fun p => String.eqb (passkey_user_id p) owner) (Passkeys db).

Definition d1_getPasskeyById (db : Database) (id : string) : option Passkey :=
  find (fun p => String.eqb (passkey_id p) id) (Passkeys db).

Definition D1Passkeys : PasskeysLib :=
  Build_PasskeysLib d1_getUser d1_getOrCreateUser d1_getUserPasskeys d1_getPasskeyById.

(** A platform for examples: the client data is carried in the clear, so
    the extracted challenge is the [clientDataJSON] text itself. *)
Definition PlainPlatform : Platform :=
  Build_Platform (fun s => Returned s) (fun raw => raw) (fun text => Returned (Some text)).

(** The signature counter an authenticator reports is part of the signed
    authenticator data; in the examples it is the length of [signed]. *)
Definition signed_length (response : CredentialJSON) : Z :=
  Z.of_nat (String.length (signed response)).

(** A WebAuthn library for examples.  It accepts every attestation, and
    every assertion whose counter passes the library's counter check:
    [(counter > 0 || authenticator.counter > 0) && counter <= authenticator.counter]
    throws. *)
Definition CounterOnlyWebAuthn : WebAuthn :=
  Build_WebAuthn
    (fun response _ _ _ _ =>
       Returned (mkVerifiedRegistration true
                   (Some (mkRegistrationInfo (signed response) (id response) 0))))
    (fun response _ _ _ device _ =>
       let reported := signed_length response in
       if ((reported >? 0) || (counter device >? 0)) && (reported <=? counter device)
       then Threw "Response counter value was lower than expected"
       else Returned (mkVerifiedAuthentication true reported)).


(** ** Two verifications in flight *)

(** A handler is suspended at each [await] on a store; between two
    suspensions it runs alone.  [getAndDeleteChallenge] has two such points:
    before [kv.get] and, when the value is truthy, before [kv.delete]. *)
Inductive Consumer : Type :=
| AtGet
| AtDelete (value : option string)
| Consumed (value : option string).

Section Interleaving.
Context `{Platform} `{WebAuthn} `{PasskeysLib}.

(** One step of [getAndDeleteChallenge], up to its next suspension. *)
Definition consumer_step (nonce : string) (c : Consumer) : M Consumer :=
  let key := "challenge:" +:+ nonce in
  match c with
  | AtGet =>
      let* value := kv_get key in
      ret (if truthy value then AtDelete value else Consumed value)
  | AtDelete value =>
      let* _ := kv_delete key in
      ret (Consumed value)
  | Consumed value => ret (Consumed value)
  end.

(** A [POST /register/verify] request whose body carried a response with
    the nonce [presented], and the values it draws. *)
Record VerifyRequest : Type := mkVerifyRequest {
  presented : string;
  attested : RegistrationResponseJSON;
  drawn_token : string;
  arrival : Z
}.

Inductive Thread : Type :=
| Consuming (c : Consumer)
| Finished (response : ApiUtils.Response Payload).

(** One step of the handler.  What follows the consumption of the
    challenge is taken in a single step: its own suspensions give other
    requests more, not fewer, chances to run in between. *)
Definition thread_step (env : Env) (request : VerifyRequest) (t : Thread) : M Thread :=
  match t with
  | Consuming (Consumed stored) =>
      match as_truthy stored with
      | None =>
          ret (Finished (ApiUtils.errorResponse "挑战已过期或不存在，请重新尝试"
                           ApiUtils.AUTH_SESSION_EXPIRED ApiUtils.HTTP_STATUS.BAD_REQUEST None))
      | Some userId =>
          let* response :=
            AuthRoute.registerVerify_try env (attested request) (presented request) userId
              (drawn_token request) (arrival request) in
          ret (Finished response)
      end
  | Consuming c =>
      let* c' := consumer_step (presented request) c in
      ret (Consuming c')
  | Finished response => ret (Finished response)
  end.

(** Two requests under a schedule: [true] lets the first one step, [false]
    the second. *)
Fixpoint interleave (env : Env) (first second : VerifyRequest) (schedule : list bool)
    (t1 t2 : Thread) : M (Thread * Thread) :=
  match schedule with
  | [] => ret (t1, t2)
  | true :: rest =>
      let* t1' := thread_step env first t1 in
      interleave env first second rest t1' t2
  | false :: rest =>
      let* t2' := thread_step env second t2 in
      interleave env first second rest t1 t2'
  end.

(** A request running alone, to the end. *)
Definition alone (env : Env) (request : VerifyRequest) : M Thread :=
  let* t1 := thread_step env request (Consuming AtGet) in
  let* t2 := thread_step env request t1 in
  thread_step env request t2.

End Interleaving.

(** The two stores, without the log. *)
Definition stores (w : World) : gmap string KvEntry * Database := (KV_SESSIONS w, DB w).


(** ** worker/src/routes/messages.ts *)

Module MessagesRoute.
Import ApiUtils.

Definition DEFAULT_PAGE_SIZE : Z := 20.
Definition MAX_PAGE_SIZE : Z := 100.

(** The text of a message, and the keys of the object store: the UTF-16
    code units of the JavaScript string, so that [length] is its [length]. *)
Definition JsString : Type := list N.

(** The code units of an ASCII literal. *)
Definition units (s : string) : JsString := map N_of_ascii (list_ascii_of_string s).

Definition Bytes : Type := list Byte.byte.

(** *** Text and bytes

    [TextEncoder] and [TextDecoder] are the UTF-8 encoder and decoder of
    the Encoding standard, written from its text: the encoder reads the
    string as scalar values, the decoder is the state machine with its
    lower and upper boundary for the next byte. *)

Section Encoding.
Local Open Scope N_scope.

(** A leading surrogate (U+D800 to U+DBFF), a trailing one (U+DC00 to U+DFFF). *)
Definition is_leading (u : N) : bool := (55296 <=? u) && (u <=? 56319).
Definition is_trailing (u : N) : bool := (56320 <=? u) && (u <=? 57343).

(** The scalar values of a string: a surrogate pair is one code point, a
    surrogate that is not part of a pair becomes U+FFFD. *)
Fixpoint code_points (text : JsString) : list N :=
  match text with
  | [] => []
  | u :: rest =>
      if is_leading u
      then match rest with
           | l :: rest' =>
               if is_trailing l
               then (65536 + (u - 55296) * 1024 + (l - 56320)) :: code_points rest'
               else 65533 :: code_points rest
           | [] => [65533]
           end
      else if is_trailing u then 65533 :: code_points rest
      else u :: code_points rest
  end.

(** The code units of a code point. *)
Definition utf16 (cp : N) : JsString :=
  if cp <=? 65535 then [cp]
  else [55296 + N.shiftr (cp - 65536) 10; 56320 + N.land (cp - 65536) 1023].

(** The continuation bytes of the UTF-8 encoder: [0x80 | ((cp >> 6k) & 0x3F)]
    for [k] from [count - 1] down to 0. *)
Fixpoint continuation (cp : N) (count : nat) : list N :=
  match count with
  | O => []
  | S k => N.lor 128 (N.land (N.shiftr cp (6 * N.of_nat k)) 63) :: continuation cp k
  end.

(** The UTF-8 encoder of the Encoding standard, on one scalar value. *)
Definition utf8 (cp : N) : list N :=
  if cp <=? 127 then [cp]
  else if cp <=? 2047 then (N.shiftr cp 6 + 192) :: continuation cp 1
  else if cp <=? 65535 then (N.shiftr cp 12 + 224) :: continuation cp 2
  else (N.shiftr cp 18 + 240) :: continuation cp 3.

(** The state of the UTF-8 decoder of the Encoding standard. *)
Record Utf8Decoder : Type := mkUtf8Decoder {
  code_point : N;
  bytes_seen : N;
  bytes_needed : N;
  lower_boundary : N;
  upper_boundary : N
}.

Definition utf8_reset : Utf8Decoder := mkUtf8Decoder 0 0 0 128 191.

(** A byte read when no bytes are needed: the code points it completes and
    the next state. *)
Definition utf8_lead (b : N) : list N * Utf8Decoder :=
  if b <=? 127 then ([b], utf8_reset)
  else if (194 <=? b) && (b <=? 223)
  then ([], mkUtf8Decoder (N.land b 31) 0 1 128 191)
  else if (224 <=? b) && (b <=? 239)
  then ([], mkUtf8Decoder (N.land b 15) 0 2
              (if b =? 224 then 160 else 128) (if b =? 237 then 159 else 191))
  else if (240 <=? b) && (b <=? 244)
  then ([], mkUtf8Decoder (N.land b 7) 0 3
              (if b =? 240 then 144 else 128) (if b =? 244 then 143 else 191))
  else ([65533], utf8_reset).

(** The decoder run over the bytes; at the end of the stream an unfinished
    sequence gives U+FFFD, and so does a byte out of its boundaries, which
    is then read again as a first byte. *)
Fixpoint utf8_decode (st : Utf8Decoder) (bytes : list N) : list N :=
  match bytes with
  | [] => if bytes_needed st =? 0 then [] else [65533]
  | b :: rest =>
      if bytes_needed st =? 0
      then fst (utf8_lead b) ++ utf8_decode (snd (utf8_lead b)) rest
      else if (b <? lower_boundary st) || (upper_boundary st <? b)
      then 65533 :: fst (utf8_lead b) ++ utf8_decode (snd (utf8_lead b)) rest
      else
        let cp := N.lor (N.shiftl (code_point st) 6) (N.land b 63) in
        if bytes_seen st + 1 =? bytes_needed st
        then cp :: utf8_decode utf8_reset rest
        else utf8_decode (mkUtf8Decoder cp (bytes_seen st + 1) (bytes_needed st) 128 191) rest
  end.

(** The byte of a number below 256. *)
Definition byte_of (n : N) : Byte.byte :=
  match Byte.of_N n with
  | Some b => b
  | None => Byte.x00
  end.

(** [new TextEncoder().encode(text)] *)
Definition TextEncoder_encode (text : JsString) : Bytes :=
  map byte_of (flat_map utf8 (code_points text)).

(** A byte order mark at the start of the input is not part of the text. *)
Definition strip_bom (bytes : list N) : list N :=
  match bytes with
  | b1 :: b2 :: b3 :: rest =>
      if (b1 =? 239) && (b2 =? 187) && (b3 =? 191) then rest else bytes
  | _ => bytes
  end.

(** [new TextDecoder().decode(bytes)]: UTF-8, not fatal, the byte order
    mark not kept. *)
Definition TextDecoder_decode (bytes : Bytes) : JsString :=
  flat_map utf16 (utf8_decode utf8_reset (strip_bom (map Byte.to_N bytes))).

(** [text.toWellFormed()]: every surrogate that is not part of a pair is
    replaced by U+FFFD.  It is what a TEXT column holds of a bound string,
    which is stored in UTF-8. *)
Fixpoint to_well_formed (text : JsString) : JsString :=
  match text with
  | [] => []
  | u :: rest =>
      if is_leading u
      then match rest with
           | l :: rest' =>
               if is_trailing l then u :: l :: to_well_formed rest'
               else 65533 :: to_well_formed rest
           | [] => [65533]
           end
      else if is_trailing u then 65533 :: to_well_formed rest
      else u :: to_well_formed rest
  end.

End Encoding.

(** The [page] and [pageSize] transforms of [listConversationsSchema] and
    [listMessagesSchema]; the two schemas are the same text. *)
Definition page_transform (val : JsString) : JsNumber :=
  let num := parseInt val in
  if isNaN num || js_lt num 1 then Int 1 else num.

Definition pageSize_transform (val : JsString) : JsNumber :=
  let num := parseInt val in
  if isNaN num || js_lt num 1 || js_gt num MAX_PAGE_SIZE then Int DEFAULT_PAGE_SIZE
  else num.

(** [z.string().transform(...).default(...)] on a query parameter that is
    a string or absent: an absent one is parsed as the default text, ['1']
    and [String(DEFAULT_PAGE_SIZE)]. *)
Definition listMessagesSchema (page pageSize : option JsString) : JsNumber * JsNumber :=
  (page_transform (default (units "1") page),
   pageSize_transform (default (units "20") pageSize)).

Definition listConversationsSchema (page pageSize : option JsString)
    : JsNumber * JsNumber :=
  (page_transform (default (units "1") page),
   pageSize_transform (default (units "20") pageSize)).

(** The platform of the listing: the chunks in which the body stream of a
    fetched object delivers its content. *)
Class MessagePlatform : Type := {
  body_chunks : Bytes -> list Bytes
}.

(** A row of [Conversations]. *)
Record Conversation : Type := mkConversation {
  conv_id : Z;
  user1_id : string;
  user2_id : string;
  conv_created_at : Z;
  last_message_at : Z;
  last_message_excerpt : option JsString;
  user1_unread_count : Z;
  user2_unread_count : Z
}.

(** A row of [PrivateMessages]; [pm_body] holds the object-store key, or
    the text itself in rows written before the keys were introduced. *)
Record PrivateMessage : Type := mkPrivateMessage {
  pm_id : Z;
  pm_conversation_id : Z;
  pm_author_id : string;
  pm_body : JsString;
  pm_created_at : Z
}.

Record Mail : Type := mkMail {
  mail_users : list User;
  conversations : list Conversation;
  messages : list PrivateMessage;
  bucket : gmap JsString Bytes
}.

(** What the two handlers answer. *)
Record Sent : Type := mkSent {
  sent_message : string;
  sent_conversationId : Z
}.

Record MessageView : Type := mkMessageView {
  view_id : Z;
  view_body : JsString;
  view_created_at : Z;
  view_author_username : string
}.

Record Pagination : Type := mkPagination {
  page_number : Z;
  page_size : Z;
  total : Z;
  totalPages : Z
}.

Record Listing : Type := mkListing {
  listing_data : list MessageView;
  pagination : Pagination
}.

(** [AUTOINCREMENT]: one more than the largest id of the table. *)
Definition next_id (ids : list Z) : Z := 1 + fold_right Z.max 0 ids.

Definition user_exists (m : Mail) (id : string) : bool :=
  existsb (fun u => String.eqb (user_id u) id) (mail_users m).

(** [[a, b].sort()] *)
Definition sort_pair (a b : string) : string * string :=
  if String.ltb b a then (b, a) else (a, b).

(** [text.replace(/<[^>]*>?/gm, '')]: from each [<], everything up to and
    including the next [>], or up to the end, is dropped. *)
Fixpoint strip_tags (inside : bool) (text : JsString) : JsString :=
  match text with
  | [] => []
  | c :: rest =>
      if inside
      then strip_tags (negb (N.eqb c 62)) rest
      else if N.eqb c 60 then strip_tags true rest
      else c :: strip_tags false rest
  end.

(** [array.set(chunk, offset)] on a typed array: the chunk is written in
    place; a chunk that does not fit throws. *)
Definition array_set (target chunk : Bytes) (offset : nat) : Try Bytes :=
  if (offset + List.length chunk <=? List.length target)%nat
  then Returned
         (firstn offset target ++ chunk ++ skipn (offset + List.length chunk) target)%list
  else Threw "RangeError: offset is out of bounds".

(** [chunks.reduce((acc, chunk) => acc + chunk.length, 0)] *)
Definition total_length (chunks : list Bytes) : nat :=
  fold_left (fun acc chunk => (acc + List.length chunk)%nat) chunks 0%nat.

(** [for (const chunk of chunks) { result.set(chunk, offset); offset += chunk.length }] *)
Fixpoint copy_chunks (chunks : list Bytes) (result : Bytes) (offset : nat) : Try Bytes :=
  match chunks with
  | [] => Returned result
  | chunk :: rest =>
      match array_set result chunk offset with
      | Threw message => Threw message
      | Returned written => copy_chunks rest written (offset + List.length chunk)%nat
      end
  end.

(** Reading the stream to its end and joining the chunks in a new array of
    their total length. *)
Definition read_all (chunks : list Bytes) : Try Bytes :=
  copy_chunks chunks (repeat Byte.x00 (total_length chunks)) 0%nat.

(** [ORDER BY created_at ASC]; rows of equal time keep their table order. *)
Fixpoint insert_by_time (m : MessageView) (sorted : list MessageView) : list MessageView :=
  match sorted with
  | [] => [m]
  | x :: rest =>
      if view_created_at x <? view_created_at m
      then x :: insert_by_time m rest
      else m :: sorted
  end.

Definition order_by_created_at (rows : list MessageView) : list MessageView :=
  fold_right insert_by_time [] rows.

Section Handlers.
Context `{MessagePlatform}.

(** [s3.put(key, body, 'text/plain')] *)
Definition s3_put (key : JsString) (content : Bytes) (m : Mail) : Mail :=
  mkMail (mail_users m) (conversations m) (messages m) (<[key := content]> (bucket m)).

(** [s3.get(key)]: [null] on 404, else the object, whose body is a stream. *)
Definition s3_get (key : JsString) (m : Mail) : option (list Bytes) :=
  body_chunks <$> (bucket m !! key).

(** [INSERT INTO Conversations (user1_id, user2_id, created_at, last_message_at)];
    both ids must reference [Users]. *)
Definition insert_conversation (a b : string) (now : Z) (m : Mail) : Try (Z * Mail) :=
  if user_exists m a && user_exists m b
  then
    let new_id := next_id (map conv_id (conversations m)) in
    Returned (new_id,
              mkMail (mail_users m)
                (conversations m ++ [mkConversation new_id a b now now None 0 0])%list
                (messages m) (bucket m))
  else Threw "D1_ERROR: FOREIGN KEY constraint failed".

(** [INSERT INTO PrivateMessages (conversation_id, author_id, body, created_at)] *)
Definition insert_message (conversation : Z) (author : string) (body : JsString)
    (now : Z) (m : Mail) : Try Mail :=
  if user_exists m author
     && existsb (fun c => conv_id c =? conversation) (conversations m)
  then
    Returned (mkMail (mail_users m) (conversations m)
                (messages m ++
                   [mkPrivateMessage (next_id (map pm_id (messages m))) conversation author
                      body now])%list
                (bucket m))
  else Threw "D1_ERROR: FOREIGN KEY constraint failed".

(** [UPDATE Conversations SET last_message_at = ?, last_message_excerpt = ?,
    <field> = <field> + 1 WHERE id = ?]; the TEXT column holds the excerpt
    in UTF-8, that is, its well-formed version. *)
Definition touch_conversation (conversation : Z) (now : Z) (excerpt : JsString)
    (increment_user2 : bool) (c : Conversation) : Conversation :=
  if conv_id c =? conversation
  then mkConversation (conv_id c) (user1_id c) (user2_id c) (conv_created_at c) now
         (Some (to_well_formed excerpt))
         (if increment_user2 then user1_unread_count c else user1_unread_count c + 1)
         (if increment_user2 then user2_unread_count c + 1 else user2_unread_count c)
  else c.

(** [UPDATE Conversations SET <field> = 0 WHERE id = ?] *)
Definition clear_unread (conversation : Z) (clear_user1 : bool) (c : Conversation)
    : Conversation :=
  if conv_id c =? conversation
  then mkConversation (conv_id c) (user1_id c) (user2_id c) (conv_created_at c)
         (last_message_at c) (last_message_excerpt c)
         (if clear_user1 then 0 else user1_unread_count c)
         (if clear_user1 then user2_unread_count c else 0)
  else c.

Definition with_conversations (rows : list Conversation) (m : Mail) : Mail :=
  mkMail (mail_users m) rows (messages m) (bucket m).

(** [POST /], on the input the schema validator passed; [uuid] is the
    [crypto.randomUUID()] of the key, [now] the clock in seconds.  An
    exception inside the [try] is answered by [errors.internal]; what was
    written before it stays written. *)
Definition send (user : User) (recipientUsername : string) (body : JsString)
    (uuid : JsString) (now : Z) (m : Mail) : Response Sent * Mail :=
  match find (fun u => String.eqb (username u) recipientUsername) (mail_users m) with
  | None => (errors.notFound "收件人用户", m)
  | Some recipient =>
      if String.eqb (user_id recipient) (user_id user)
      then (errors.validation [("recipient", "不能给自己发送消息")], m)
      else
        let (first_id, second_id) := sort_pair (user_id user) (user_id recipient) in
        let found :=
          match find (fun c => String.eqb (user1_id c) first_id
                               && String.eqb (user2_id c) second_id) (conversations m) with
          | Some conversation => Returned (conv_id conversation, m)
          | None => insert_conversation first_id second_id now m
          end in
        match found with
        | Threw _ => (errors.internal "发送消息失败", m)
        | Returned (conversationId, m1) =>
            let bodyS3Key := (units "pm-body/" ++ uuid)%list in
            let m2 := s3_put bodyS3Key (TextEncoder_encode body) m1 in
            match insert_message conversationId (user_id user) bodyS3Key now m2 with
            | Threw _ => (errors.internal "发送消息失败", m2)
            | Returned m3 =>
                let excerpt := firstn 50 (strip_tags false body) in
                let m4 :=
                  with_conversations
                    (map (touch_conversation conversationId now excerpt
                            (String.eqb first_id (user_id user)))
                       (conversations m3)) m3 in
                (successResponse (mkSent "消息已发送" conversationId) None HTTP_STATUS.CREATED,
                 m4)
            end
        end
  end.

(** ['[消息加载失败]'], the body shown when loading throws. *)
Definition load_failed : JsString := [91; 28040; 24687; 21152; 36733; 22833; 36133; 93]%N.

(** The body of the callback mapped over the rows of a page: a stored
    value shorter than 100 units that contains [/] is taken for a key and
    replaced by the decoded object, when the store has one; an exception
    on the way is caught and the row shown with a fixed text. *)
Definition load_body (m : Mail) (msg : MessageView) : MessageView :=
  let isS3Key :=
    (Z.of_nat (List.length (view_body msg)) <? 100) && existsb (N.eqb 47) (view_body msg) in
  if isS3Key
  then
    match s3_get (view_body msg) m with
    | Some stream =>
        match read_all stream with
        | Returned result =>
            mkMessageView (view_id msg) (TextDecoder_decode result)
              (view_created_at msg) (view_author_username msg)
        | Threw _ =>
            mkMessageView (view_id msg) load_failed
              (view_created_at msg) (view_author_username msg)
        end
    | None => msg
    end
  else msg.

(** [SELECT pm.id, pm.body, pm.created_at, u.username ... JOIN Users u ON
    pm.author_id = u.id WHERE pm.conversation_id = ?] *)
Definition joined_rows (conversation : Z) (m : Mail) : list MessageView :=
  flat_map
    (fun pm =>
       if pm_conversation_id pm =? conversation
       then match find (fun u => String.eqb (user_id u) (pm_author_id pm)) (mail_users m) with
            | Some author =>
                [mkMessageView (pm_id pm) (pm_body pm) (pm_created_at pm) (username author)]
            | None => []
            end
       else [])
    (messages m).

(** [Math.ceil(total / pageSize)] for a positive page size *)
Definition ceil_div (a b : Z) : Z := (a + b - 1) / b.

(** [GET /:conversationId], on validated paging parameters. *)
Definition list_messages (user : User) (conversationId : Z) (page pageSize : Z) (m : Mail)
    : Response Listing * Mail :=
  let offset := (page - 1) * pageSize in
  match find (fun c => conv_id c =? conversationId) (conversations m) with
  | None => (errors.forbidden "您无权查看此会话", m)
  | Some convCheck =>
      if negb (String.eqb (user1_id convCheck) (user_id user))
         && negb (String.eqb (user2_id convCheck) (user_id user))
      then (errors.forbidden "您无权查看此会话", m)
      else
        let rows :=
          firstn (Z.to_nat pageSize)
            (skipn (Z.to_nat offset) (order_by_created_at (joined_rows conversationId m))) in
        let count :=
          Z.of_nat (List.length (filter (fun pm => pm_conversation_id pm =? conversationId)
                                   (messages m))) in
        let messagesWithBody := map (load_body m) rows in
        let m' :=
          with_conversations
            (map (clear_unread conversationId
                    (String.eqb (user1_id convCheck) (user_id user)))
               (conversations m)) m in
        (successResponse
           (mkListing messagesWithBody
              (mkPagination page pageSize count (ceil_div count pageSize)))
           None HTTP_STATUS.OK,
         m')
  end.

End Handlers.

(** A row of the answer of [GET /]: the conversation as its viewer sees it. *)
Record ConversationView : Type := mkConversationView {
  cv_id : Z;
  cv_last_message_at : Z;
  cv_last_message_excerpt : option JsString;
  partner_username : string;
  partner_avatar : option string;
  unread_count : Z
}.

Record ConversationListing : Type := mkConversationListing {
  conversation_data : list ConversationView;
  conversation_pagination : Pagination
}.

(** The SELECT list of [GET /] for the viewer [me], on a row of
    [Conversations] joined with its two users: the three [CASE WHEN
    c.user1_id = ?1] columns pick the partner and the viewer's own counter. *)
Definition conversation_view (me : string) (c : Conversation) (u1 u2 : User)
    : ConversationView :=
  let first := String.eqb (user1_id c) me in
  mkConversationView (conv_id c) (last_message_at c) (last_message_excerpt c)
    (if first then username u2 else username u1)
    (if first then avatar u2 else avatar u1)
    (if first then user1_unread_count c else user2_unread_count c).

(** [WHERE c.user1_id = ?1 OR c.user2_id = ?1] *)
Definition takes_part (me : string) (c : Conversation) : bool :=
  String.eqb (user1_id c) me || String.eqb (user2_id c) me.

(** [FROM Conversations c JOIN Users u1 ON c.user1_id = u1.id
    JOIN Users u2 ON c.user2_id = u2.id WHERE ...] *)
Definition joined_conversations (me : string) (m : Mail) : list ConversationView :=
  flat_map
    (fun c =>
       if takes_part me c
       then match find (fun u => String.eqb (user_id u) (user1_id c)) (mail_users m),
                  find (fun u => String.eqb (user_id u) (user2_id c)) (mail_users m) with
            | Some u1, Some u2 => [conversation_view me c u1 u2]
            | _, _ => []
            end
       else [])
    (conversations m).

(** [ORDER BY c.last_message_at DESC]; rows of equal time keep their table
    order. *)
Fixpoint insert_by_last_message (v : ConversationView) (sorted : list ConversationView)
    : list ConversationView :=
  match sorted with
  | [] => [v]
  | x :: rest =>
      if cv_last_message_at v <? cv_last_message_at x
      then x :: insert_by_last_message v rest
      else v :: sorted
  end.

Definition order_by_last_message (rows : list ConversationView) : list ConversationView :=
  fold_right insert_by_last_message [] rows.

(** [GET /], on validated paging parameters.  The handler only reads. *)
Definition list_conversations (user : User) (page pageSize : Z) (m : Mail)
    : Response ConversationListing :=
  let offset := (page - 1) * pageSize in
  let rows :=
    firstn (Z.to_nat pageSize)
      (skipn (Z.to_nat offset) (order_by_last_message (joined_conversations (user_id user) m))) in
  let count :=
    Z.of_nat (List.length (List.filter (takes_part (user_id user)) (conversations m))) in
  successResponse
    (mkConversationListing rows (mkPagination page pageSize count (ceil_div count pageSize)))
    None HTTP_STATUS.OK.

End MessagesRoute.

(** ** The admin route file: pinning, moving and deleting threads *)

Module AdminThreads.
Import ApiUtils.

(** Rows of [Nodes] and [Threads] (docs/database-schema.sql): the columns
    the three handlers read or write.  The counters hold integers. *)
Record Node : Type := mkNode {
  node_id : Z;
  thread_count : Z;
  node_reply_count : Z
}.

Record Thread : Type := mkThread {
  thread_id : Z;
  thread_node_id : Z;
  reply_count : Z;
  is_pinned : bool
}.

Record Forum : Type := mkForum {
  Nodes : list Node;
  Threads : list Thread
}.

(** [id IN (?, ?, ...)] *)
Definition id_in (ids : list Z) (id : Z) : bool := existsb (Z.eqb id) ids.

(** The prepared statements of the handlers. *)
Inductive Statement : Type :=
| DecrementNode (thread_decrement reply_decrement nodeId : Z)
| IncrementNode (thread_increment reply_increment nodeId : Z)
| MoveThreads (targetNodeId : Z) (ids : list Z)
| DeleteThreads (ids : list Z)
| SetPinned (isPinned : bool) (ids : list Z).

Definition add_to_node (nodeId threads replies : Z) (n : Node) : Node :=
  if node_id n =? nodeId
  then mkNode (node_id n) (thread_count n + threads) (node_reply_count n + replies)
  else n.

Definition with_nodes (rows : list Node) (db : Forum) : Forum := mkForum rows (Threads db).
Definition with_threads (rows : list Thread) (db : Forum) : Forum := mkForum (Nodes db) rows.

(** One statement, on tables that satisfy their foreign keys.  [UPDATE
    Threads SET node_id = ?] throws when it changes a row and the new
    [node_id] references no row of [Nodes]. *)
Definition run (statement : Statement) (db : Forum) : Try Forum :=
  match statement with
  | DecrementNode threads replies nodeId =>
      Returned (with_nodes (map (add_to_node nodeId (- threads) (- replies)) (Nodes db)) db)
  | IncrementNode threads replies nodeId =>
      Returned (with_nodes (map (add_to_node nodeId threads replies) (Nodes db)) db)
  | MoveThreads targetNodeId ids =>
      if existsb (fun t => id_in ids (thread_id t)) (Threads db)
         && negb (existsb (fun n => node_id n =? targetNodeId) (Nodes db))
      then Threw "D1_ERROR: FOREIGN KEY constraint failed"
      else
        Returned
          (with_threads
             (map (fun t =>
                     if id_in ids (thread_id t)
                     then mkThread (thread_id t) targetNodeId (reply_count t) (is_pinned t)
                     else t)
                (Threads db)) db)
  | DeleteThreads ids =>
      Returned
        (with_threads (List.filter (fun t => negb (id_in ids (thread_id t))) (Threads db)) db)
  | SetPinned isPinned ids =>
      Returned
        (with_threads
           (map (fun t =>
                   if id_in ids (thread_id t)
                   then mkThread (thread_id t) (thread_node_id t) (reply_count t) isPinned
                   else t)
              (Threads db)) db)
  end.

(** [db.batch(statements)]: the statements in order, in one transaction;
    when one throws nothing is kept. *)
Fixpoint batch (statements : list Statement) (db : Forum) : Try Forum :=
  match statements with
  | [] => Returned db
  | statement :: rest =>
      match run statement db with
      | Threw message => Threw message
      | Returned db' => batch rest db'
      end
  end.

(** [executeTransaction] of [lib/db-utils] *)
Definition executeTransaction (statements : list Statement) (db : Forum) : Try Forum :=
  if (List.length statements =? 0)%nat then Returned db else batch statements db.

(** [Map<number, { thread_decrement, reply_decrement }>]: the entries in
    the order their keys were first set. *)
Record SourceStats : Type := mkSourceStats {
  thread_decrement : Z;
  reply_decrement : Z
}.

Definition StatsMap : Type := list (Z * SourceStats).

Fixpoint Map_get (m : StatsMap) (key : Z) : option SourceStats :=
  match m with
  | [] => None
  | (k, v) :: rest => if k =? key then Some v else Map_get rest key
  end.

Fixpoint Map_set (m : StatsMap) (key : Z) (value : SourceStats) : StatsMap :=
  match m with
  | [] => [(key, value)]
  | (k, v) :: rest => if k =? key then (k, value) :: rest else (k, v) :: Map_set rest key value
  end.

(** [`${n}`] for a length *)
Definition decimal (n : nat) : string := NilEmpty.string_of_uint (Nat.to_uint n).

(** The [SELECT ... FROM Threads WHERE id IN (...)] of the move and the
    delete, in table order. *)
Definition selected (ids : list Z) (db : Forum) : list Thread :=
  List.filter (fun t => id_in ids (thread_id t)) (Threads db).

(** The body of the loop over [threadsToMove]. *)
Definition move_tally (targetNodeId : Z) (state : StatsMap * Z * Z) (thread : Thread)
    : StatsMap * Z * Z :=
  let '(sourceNodeUpdates, targetThreadIncrement, targetReplyIncrement) := state in
  if negb (thread_node_id thread =? targetNodeId)
  then
    let sourceStats :=
      default (mkSourceStats 0 0) (Map_get sourceNodeUpdates (thread_node_id thread)) in
    (Map_set sourceNodeUpdates (thread_node_id thread)
       (mkSourceStats (thread_decrement sourceStats + 1)
          (reply_decrement sourceStats + reply_count thread)),
     targetThreadIncrement + 1,
     targetReplyIncrement + reply_count thread)
  else state.

Definition decrements (updates : StatsMap) : list Statement :=
  map (fun entry =>
         DecrementNode (thread_decrement (snd entry)) (reply_decrement (snd entry))
           (fst entry))
    updates.

(** [PUT /threads/move], on the input the schema validator passed. *)
Definition moveThreads (ids : list Z) (targetNodeId : Z) (db : Forum)
    : Response Payload * Forum :=
  let threadsToMove := selected ids db in
  if (List.length threadsToMove =? 0)%nat
  then (errors.notFound "帖子", db)
  else
    let '(sourceNodeUpdates, targetThreadIncrement, targetReplyIncrement) :=
      fold_left (move_tally targetNodeId) threadsToMove ([], 0, 0) in
    let batchStatements :=
      (decrements sourceNodeUpdates
       ++ (if targetThreadIncrement >? 0
           then [IncrementNode targetThreadIncrement targetReplyIncrement targetNodeId]
           else [])
       ++ [MoveThreads targetNodeId ids])%list in
    match executeTransaction batchStatements db with
    | Threw _ => (errors.internal "移动帖子失败", db)
    | Returned db' =>
        (successResponse Null
           (Some ("成功移动 " +:+ decimal (List.length ids) +:+ " 个帖子"))
           HTTP_STATUS.OK,
         db')
    end.

(** The body of the loop over [threadsToDelete]. *)
Definition delete_tally (nodeStatUpdates : StatsMap) (thread : Thread) : StatsMap :=
  let stats :=
    default (mkSourceStats 0 0) (Map_get nodeStatUpdates (thread_node_id thread)) in
  Map_set nodeStatUpdates (thread_node_id thread)
    (mkSourceStats (thread_decrement stats + 1) (reply_decrement stats + reply_count thread)).

(** [DELETE /threads] *)
Definition deleteThreads (ids : list Z) (db : Forum) : Response Payload * Forum :=
  let threadsToDelete := selected ids db in
  if (List.length threadsToDelete =? 0)%nat
  then (errors.notFound "帖子", db)
  else
    let nodeStatUpdates := fold_left delete_tally threadsToDelete [] in
    let batchStatements := (decrements nodeStatUpdates ++ [DeleteThreads ids])%list in
    match executeTransaction batchStatements db with
    | Threw _ => (errors.internal "删除帖子失败", db)
    | Returned db' =>
        (successResponse Null
           (Some ("成功删除 " +:+ decimal (List.length ids) +:+ " 个帖子及其所有回复"))
           HTTP_STATUS.OK,
         db')
    end.

(** [PUT /threads/pin] *)
Definition pinThreads (ids : list Z) (isPinned : bool) (db : Forum)
    : Response Payload * Forum :=
  match run (SetPinned isPinned ids) db with
  | Threw _ => (errors.internal "更新帖子置顶状态失败", db)
  | Returned db' =>
      let action := if isPinned then "置顶" else "取消置顶" in
      (successResponse Null
         (Some ("成功" +:+ action +:+ " " +:+ decimal (List.length ids) +:+ " 个帖子"))
         HTTP_STATUS.OK,
       db')
  end.

End AdminThreads.

(** ** lib/s3: the text of a digest *)

Module S3Client.

(** [b.toString(16)] for an element of a [Uint8Array] *)
Definition hex_digit (n : N) : ascii :=
  nth (N.to_nat n) (list_ascii_of_string "0123456789abcdef") "0"%char.

Definition toString16 (b : Byte.byte) : string :=
  let n := Byte.to_N b in
  if (n <? 16)%N then String (hex_digit n) EmptyString
  else String (hex_digit (n / 16)) (String (hex_digit (n mod 16)) EmptyString).

(** [s.padStart(targetLength, pad)] for a one-character [pad] *)
Definition padStart (targetLength : nat) (pad : ascii) (s : string) : string :=
  string_of_list_ascii (repeat pad (targetLength - String.length s)) +:+ s.

(** [Array.from(new Uint8Array(buffer)).map(b => b.toString(16).padStart(2, '0')).join('')]:
    what [sha256] and [hmacHex] return for the bytes of the digest. *)
Definition hex (bytes : list Byte.byte) : string :=
  String.concat "" (map (fun b => padStart 2 "0"%char (toString16 b)) bytes).

End S3Client.


(** ** Vocabulary of the properties *)

(** The stored value of a challenge, as a verification sees it. *)
Definition stored_challenge (w : World) (nonce : string) : option string :=
  kv_value <$> (KV_SESSIONS w !! ("challenge:" +:+ nonce)).

(** The user id a session token is bound to. *)
Definition stored_session (w : World) (token : string) : option string :=
  kv_value <$> (KV_SESSIONS w !! ("session:" +:+ token)).

(** The row of [Users] with a given id. *)
Definition user_row (w : World) (id : string) : option User :=
  find (fun u => String.eqb (user_id u) id) (Users (DB w)).

(** Worlds and requests for the examples. *)
Definition example_env : Env :=
  mkEnv (Some "forum.example") (Some "https://forum.example") "Forum"
    (EnvBool true) "forum.example" "https://forum.example".

Definition alice : User :=
  mkUser "u-alice" "alice" "alice@example.com" 1700000000 None None 1 "user".

Definition root : User :=
  mkUser "u-root" "root" "root@example.com" 1700000000 None None 9 "admin".

(** An ordinary user who registered the name "admin". *)
Definition mallory : User :=
  mkUser "u-mallory" "admin" "mallory@example.com" 1700000000 None None 1 "user".

Definition alice_key : Passkey := mkPasskey "cred-alice" "u-alice" "pk-a" 5 1700000001.
Definition root_key : Passkey := mkPasskey "cred-root" "u-root" "pk-r" 0 1700000001.
Definition mallory_key : Passkey := mkPasskey "cred-mallory" "u-mallory" "pk-m" 0 1700000001.

Definition example_db : Database :=
  mkDatabase [alice; root; mallory] [alice_key; root_key; mallory_key].

(** A world in which the login challenge [nonce1] was just issued. *)
Definition issued_world : World :=
  mkWorld (<["challenge:nonce1" := mkKvEntry "true" 300]> ∅) example_db [].

(** An assertion for credential [cred] over the nonce [nonce], reporting
    the counter [length signed]. *)
Definition assertion (cred nonce signed : string) : AuthenticationResponseJSON :=
  mkCredentialJSON cred cred (CdString nonce) signed.

(** The anti-clone condition of the specification: the reported counter is
    not strictly greater than the stored one, and they are not both zero. *)
Definition counter_regressed (reported stored : Z) : Prop :=
  reported <= stored /\ ~ (reported = 0 /\ stored = 0).

(** The contract of the WebAuthn library the handlers rely on for that
    condition: an assertion whose reported counter regressed is never
    returned as verified ([reported] reads the counter from the signed
    authenticator data). *)
Definition enforces_counter (L : WebAuthn)
    (reported : AuthenticationResponseJSON -> Z) : Prop :=
  forall response challenge origin rpID device userVerification,
    counter_regressed (reported response) (counter device) ->
    match @verifyAuthenticationResponse L response challenge origin rpID device
            userVerification with
    | Returned verification => auth_verified verification = false
    | Threw _ => True
    end.

(** The answer of [GET /session] for a session that does not resolve. *)
Definition invalid_session : ApiUtils.Response Payload :=
  ApiUtils.successResponse (SessionData false None) None ApiUtils.HTTP_STATUS.OK.

(** A world with a session [tok-ghost] bound to a user that has no row. *)
Definition dangling_world : World :=
  mkWorld (<["session:tok-ghost" := mkKvEntry "u-ghost" 86400]> ∅) example_db [].

(** A world with live sessions for alice and for mallory. *)
Definition logged_in_world : World :=
  mkWorld (<["session:tok-alice" := mkKvEntry "u-alice" 86400]>
           (<["session:tok-mallory" := mkKvEntry "u-mallory" 86400]>
            (<["challenge:nonce1" := mkKvEntry "true" 300]> ∅)))
    example_db [].

(** A world with no user, no credential and no key. *)
Definition empty_world : World := mkWorld ∅ (mkDatabase [] []) [].

(** An attestation for a new credential [cred] over the nonce [nonce]. *)
Definition attestation (cred nonce : string) : RegistrationResponseJSON :=
  mkCredentialJSON cred cred (CdString nonce) "pk-new".

Definition carol : User :=
  mkUser "u-carol" "carol" "carol@example.com" 1700000100 None None 1 "user".

(** The answer of [POST /register/verify] to a nonce it does not find. *)
Definition challenge_expired : ApiUtils.Response Payload :=
  ApiUtils.errorResponse "挑战已过期或不存在，请重新尝试" ApiUtils.AUTH_SESSION_EXPIRED
    ApiUtils.HTTP_STATUS.BAD_REQUEST None.

(** The world right after a registration challenge was issued to carol. *)
Definition carol_issued : World :=
  snd (@AuthRoute.registerChallenge D1Passkeys example_env "carol" "carol@example.com"
         "nonce2" "u-carol" 1700000100 empty_world).

(** Two attestations over that one nonce, from two authenticators. *)
Definition first_request : VerifyRequest :=
  mkVerifyRequest "nonce2" (attestation "cred-1" "nonce2") "tok-1" 1700000200.
Definition second_request : VerifyRequest :=
  mkVerifyRequest "nonce2" (attestation "cred-2" "nonce2") "tok-2" 1700000200.




(** The key [send] stores a body under. *)
Definition body_key (uuid : MessagesRoute.JsString) : MessagesRoute.JsString :=
  (MessagesRoute.units "pm-body/" ++ uuid)%list.

(** A scalar value: a code point that is not a surrogate. *)
Definition is_scalar (cp : N) : bool :=
  ((cp <? 55296) || ((57344 <=? cp) && (cp <=? 1114111)))%N.

(** A well-formed string: 16-bit code units in which every surrogate is
    half of a pair, a leading one followed by a trailing one. *)
Fixpoint well_formed (text : MessagesRoute.JsString) : bool :=
  match text with
  | [] => true
  | u :: rest =>
      if MessagesRoute.is_leading u
      then match rest with
           | l :: rest' => MessagesRoute.is_trailing l && well_formed rest'
           | [] => false
           end
      else negb (MessagesRoute.is_trailing u) && (u <=? 65535)%N && well_formed rest
  end.


(** A platform for examples: a body stream that delivers its content in
    chunks of at most three bytes. *)
Fixpoint chunks_of_three (fuel : nat) (content : MessagesRoute.Bytes)
    : list MessagesRoute.Bytes :=
  match fuel, content with
  | _, [] => []
  | O, _ => [content]
  | S fuel', _ => firstn 3 content :: chunks_of_three fuel' (skipn 3 content)
  end.

Definition ChunkedPlatform : MessagesRoute.MessagePlatform :=
  MessagesRoute.Build_MessagePlatform
    (fun content => chunks_of_three (List.length content) content).

(** The rows a listing response carries. *)
Definition listed (r : ApiUtils.Response MessagesRoute.Listing) : list MessagesRoute.MessageView :=
  match ApiUtils.body r with
  | ApiUtils.Success data _ => MessagesRoute.listing_data data
  | ApiUtils.Failure _ _ _ => []
  end.

(** A mailbox for the examples: alice writes to root for the first time. *)
Definition example_mail : MessagesRoute.Mail :=
  MessagesRoute.mkMail [alice; root; mallory] [] [] ∅.

Definition example_uuid : MessagesRoute.JsString :=
  MessagesRoute.units "123e4567-e89b-42d3-a456-426614174000".

Definition example_text : MessagesRoute.JsString :=
  MessagesRoute.units "see you at 5 / <b>sharp</b>".



(** The example mailbox after alice's message and a listing by root. *)
Definition example_later : MessagesRoute.Mail :=
  snd (@MessagesRoute.list_messages ChunkedPlatform root 1 1 20
         (snd (MessagesRoute.send alice "root" example_text example_uuid 1700000300
                 example_mail))).

Section MailHistory.
Context `{MessagesRoute.MessagePlatform}.
Import MessagesRoute.



End MailHistory.

(** ** Vocabulary for the mailbox properties *)

Section MailVocabulary.
Import MessagesRoute.

(** The unread counter [GET /] shows the viewer [me] for a conversation
    (looked up in the whole, unpaged result). *)
Definition shown_unread (me : string) (m : Mail) (conversationId : Z) : option Z :=
  unread_count <$> find (fun v => cv_id v =? conversationId) (joined_conversations me m).

(** The conversation id an answer of [POST /] carries. *)
Definition sent_to (r : ApiUtils.Response Sent) : option Z :=
  match ApiUtils.body r with
  | ApiUtils.Success data _ => Some (sent_conversationId data)
  | ApiUtils.Failure _ _ _ => None
  end.

(** The rows an answer of [GET /] carries. *)
Definition listed_conversations (r : ApiUtils.Response ConversationListing)
    : list ConversationView :=
  match ApiUtils.body r with
  | ApiUtils.Success data _ => conversation_data data
  | ApiUtils.Failure _ _ _ => []
  end.

End MailVocabulary.

(** ** Vocabulary for the thread counters of the nodes *)

Section ForumVocabulary.
Import AdminThreads.

(** The sum of [weight] over the threads that satisfy [p]. *)
Definition tally (weight : Thread -> Z) (p : Thread -> bool) (threads : list Thread) : Z :=
  fold_right (fun t acc => (if p t then weight t else 0) + acc) 0 threads.

Definition in_node (nodeId : Z) (t : Thread) : bool := thread_node_id t =? nodeId.

(** The counters of every node say what its threads are: [thread_count] is
    the number of threads of the node, [reply_count] the sum of their reply
    counters. *)
Definition counters_consistent (db : Forum) : Prop :=
  forall n, In n (Nodes db) ->
    thread_count n = tally (fun _ => 1) (in_node (node_id n)) (Threads db) /\
    node_reply_count n = tally reply_count (in_node (node_id n)) (Threads db).

(** The foreign key of [Threads.node_id]. *)
Definition references_hold (db : Forum) : Prop :=
  forall t, In t (Threads db) ->
    existsb (fun n => node_id n =? thread_node_id t) (Nodes db) = true.

(** A forum of two nodes and three threads. *)
Definition example_forum : Forum :=
  mkForum [mkNode 1 2 7; mkNode 2 1 4]
    [mkThread 10 1 3 false; mkThread 11 1 4 false; mkThread 12 2 4 true].

End ForumVocabulary.

Section ForumTallies.
Import AdminThreads.

(** The entry of a node in a map of decrements; zero when it has none. *)
Definition stats_of (m : StatsMap) (key : Z) : SourceStats :=
  default (mkSourceStats 0 0) (Map_get m key).

(** What the [UPDATE] of a move does to a thread. *)
Definition moved_to (targetNodeId : Z) (ids : list Z) (t : Thread) : Thread :=
  if id_in ids (thread_id t)
  then mkThread (thread_id t) targetNodeId (reply_count t) (is_pinned t)
  else t.

End ForumTallies.

Section ForumMoves.
Import AdminThreads.

(** The row of a node after the threads [ids] went to [target]: what left
    the node is taken off, and what arrived is added at the target. *)
Definition after_move (target : Z) (ids : list Z) (threads : list Thread) (n : Node) : Node :=
  let leaving (t : Thread) :=
    id_in ids (thread_id t) && (negb (in_node target t) && in_node (node_id n) t) in
  let arriving (t : Thread) := id_in ids (thread_id t) && negb (in_node target t) in
  mkNode (node_id n)
    (thread_count n - tally (fun _ => 1) leaving threads
     + (if node_id n =? target then tally (fun _ => 1) arriving threads else 0))
    (node_reply_count n - tally reply_count leaving threads
     + (if node_id n =? target then tally reply_count arriving threads else 0)).

(** The row of a node after the threads [ids] were deleted. *)
Definition after_delete (ids : list Z) (threads : list Thread) (n : Node) : Node :=
  let leaving (t : Thread) := id_in ids (thread_id t) && in_node (node_id n) t in
  mkNode (node_id n)
    (thread_count n - tally (fun _ => 1) leaving threads)
    (node_reply_count n - tally reply_count leaving threads).

End ForumMoves.

(** ** Reading a hexadecimal text back *)

Definition is_lower_hex (c : ascii) : bool :=
  let n := N_of_ascii c in
  ((48 <=? n) && (n <=? 57) || (97 <=? n) && (n <=? 102))%N.

Definition unhex_digit (c : ascii) : option N :=
  let n := N_of_ascii c in
  if ((48 <=? n) && (n <=? 57))%N then Some (n - 48)%N
  else if ((97 <=? n) && (n <=? 102))%N then Some (n - 87)%N
  else None.

Fixpoint unhex (text : string) : option (list Byte.byte) :=
  match text with
  | EmptyString => Some []
  | String high (String low rest) =>
      match unhex_digit high, unhex_digit low, unhex rest with
      | Some h, Some l, Some bytes =>
          match Byte.of_N (16 * h + l) with
          | Some b => Some (b :: bytes)
          | None => None
          end
      | _, _, _ => None
      end
  | String _ EmptyString => None
  end.


(** * Properties *)

(** ** Running the monad *)

Lemma session_key_not_challenge_key (token challenge : string) :
  "session:" +:+ token <> "challenge:" +:+ challenge.
Proof. simpl. intros E. discriminate E. Qed.

Lemma as_truthy_truthy (v : option string) (s : string) :
  as_truthy v = Some s -> v = Some s /\ truthy v = true.
Proof.
  destruct v as [t|]; simpl; [|discriminate].
  destruct (String.eqb t "") eqn:E; [discriminate|].
  intros [= ->]. split; reflexivity.
Qed.

Lemma as_truthy_None_falsy (v : option string) :
  as_truthy v = None -> truthy v = false.
Proof.
  destruct v as [t|]; simpl; [|reflexivity].
  destruct (String.eqb t ""); [reflexivity|discriminate].
Qed.

Ltac run :=
  unfold bind, ret, kv_get, kv_put, kv_delete, select_user_by_id,
    update_sign_counter, insert_passkey, call_getPasskeyById, call_getUser,
    call_getOrCreateUser, call_getUserPasskeys, record, with_kv, with_db; simpl.

Section AuthChallenge.
Context `{Platform} `{WebAuthn} `{PasskeysLib}.
Import ApiUtils.

(** Consuming a live challenge deletes its record. *)
Lemma getAndDeleteChallenge_live (nonce value : string) (w : World) :
  as_truthy (stored_challenge w nonce) = Some value ->
  AuthRoute.getAndDeleteChallenge nonce w =
    (Some value,
     record (KvDelete ("challenge:" +:+ nonce))
       (with_kv (delete ("challenge:" +:+ nonce))
          (record (KvGet ("challenge:" +:+ nonce)) w))).
Proof.
  intros Hv. apply as_truthy_truthy in Hv as [Hs Ht].
  unfold AuthRoute.getAndDeleteChallenge, bind, kv_get.
  unfold stored_challenge in Hs, Ht. rewrite Ht, Hs. reflexivity.
Qed.

(** A challenge that is absent (or holds the empty string) is reported as
    such and the store is only read. *)
Lemma getAndDeleteChallenge_dead (nonce : string) (w : World) :
  as_truthy (stored_challenge w nonce) = None ->
  AuthRoute.getAndDeleteChallenge nonce w =
    (stored_challenge w nonce, record (KvGet ("challenge:" +:+ nonce)) w).
Proof.
  intros Hv. apply as_truthy_None_falsy in Hv.
  unfold AuthRoute.getAndDeleteChallenge, bind, kv_get.
  unfold stored_challenge in *. rewrite Hv. reflexivity.
Qed.


(** Nothing in the [try] block of registration touches a challenge record. *)
Lemma registerVerify_try_challenges env response expected userId token now w nonce :
  stored_challenge (snd (AuthRoute.registerVerify_try env response expected userId token now w)) nonce
  = stored_challenge w nonce.
Proof.
  unfold AuthRoute.registerVerify_try, AuthRoute.createSession, stored_challenge.
  destruct (verifyRegistrationResponse _ _ _ _ _) as [v|msg]; [|reflexivity].
  destruct (reg_verified v); [|reflexivity].
  destruct (registrationInfo v) as [info|]; [|reflexivity].
  run.
  destruct (existsb _ (Passkeys (DB w))); [reflexivity|].
  destruct (negb _); [reflexivity|]. simpl.
  rewrite lookup_insert_ne; [reflexivity|apply session_key_not_challenge_key].
Qed.

(** Neither does the [try] block of authentication. *)
Lemma loginVerify_try_challenges env response challenge passkey token w nonce :
  stored_challenge (snd (AuthRoute.loginVerify_try env response challenge passkey token w)) nonce
  = stored_challenge w nonce.
Proof.
  unfold AuthRoute.loginVerify_try, AuthRoute.createSession, stored_challenge.
  destruct (verifyAuthenticationResponse _ _ _ _ _ _) as [v|msg]; [|reflexivity].
  destruct (auth_verified v); [|reflexivity].
  run.
  rewrite lookup_insert_ne; [reflexivity|apply session_key_not_challenge_key].
Qed.

Lemma stored_challenge_deleted (nonce : string) (w : World) (op : Op) :
  stored_challenge (record op (with_kv (delete ("challenge:" +:+ nonce)) w)) nonce = None.
Proof. unfold stored_challenge. simpl. rewrite lookup_delete_eq. reflexivity. Qed.

(** Registration: a verification that finds the challenge live deletes its
    record whatever the outcome, and the next verification presenting the
    nonce is answered "expired or unknown". *)
Lemma registerVerify_single_use env r1 r2 nonce value tok1 tok2 now1 now2 (w : World) :
  as_truthy (AuthRoute.extractChallengeFromClientData r1) = Some nonce ->
  as_truthy (AuthRoute.extractChallengeFromClientData r2) = Some nonce ->
  as_truthy (stored_challenge w nonce) = Some value ->
  let w1 := snd (AuthRoute.registerVerify env (Present r1) tok1 now1 w) in
  KV_SESSIONS w1 !! ("challenge:" +:+ nonce) = None /\
  kind (fst (AuthRoute.registerVerify env (Present r2) tok2 now2 w1))
    = ChallengeExpiredOrUnknown.
Proof.
  intros E1 E2 Hlive w1.
  assert (Hdead : stored_challenge w1 nonce = None).
  { subst w1. unfold AuthRoute.registerVerify. rewrite E1. unfold bind at 1.
    rewrite (getAndDeleteChallenge_live _ _ _ Hlive).
    apply as_truthy_truthy in Hlive as [-> _]. simpl.
    destruct (String.eqb value "") eqn:Ev.
    - apply stored_challenge_deleted.
    - rewrite registerVerify_try_challenges. apply stored_challenge_deleted. }
  split.
  - unfold stored_challenge in Hdead.
    destruct (KV_SESSIONS w1 !! _); [discriminate|reflexivity].
  - unfold AuthRoute.registerVerify. rewrite E2. unfold bind at 1.
    rewrite getAndDeleteChallenge_dead by (rewrite Hdead; reflexivity).
    rewrite Hdead. reflexivity.
Qed.

(** Authentication: the same, also when the credential is unknown. *)
Lemma loginVerify_single_use env r1 r2 nonce value tok1 tok2 (w : World) :
  as_truthy (AuthRoute.extractChallengeFromClientData r1) = Some nonce ->
  as_truthy (AuthRoute.extractChallengeFromClientData r2) = Some nonce ->
  as_truthy (stored_challenge w nonce) = Some value ->
  let w1 := snd (AuthRoute.loginVerify env (Present r1) tok1 w) in
  KV_SESSIONS w1 !! ("challenge:" +:+ nonce) = None /\
  kind (fst (AuthRoute.loginVerify env (Present r2) tok2 w1))
    = ChallengeExpiredOrUnknown.
Proof.
  intros E1 E2 Hlive w1.
  assert (Hdead : stored_challenge w1 nonce = None).
  { subst w1. unfold AuthRoute.loginVerify. rewrite E1. unfold bind at 1.
    rewrite (getAndDeleteChallenge_live _ _ _ Hlive).
    apply as_truthy_truthy in Hlive as [-> _]. simpl.
    destruct (String.eqb value "") eqn:Ev; [apply stored_challenge_deleted|].
    unfold bind at 1, call_getPasskeyById. simpl.
    destruct (getPasskeyById _ _) as [pk|].
    - rewrite loginVerify_try_challenges. apply stored_challenge_deleted.
    - apply stored_challenge_deleted. }
  split.
  - unfold stored_challenge in Hdead.
    destruct (KV_SESSIONS w1 !! _); [discriminate|reflexivity].
  - unfold AuthRoute.loginVerify. rewrite E2. unfold bind at 1.
    rewrite getAndDeleteChallenge_dead by (rewrite Hdead; reflexivity).
    rewrite Hdead. reflexivity.
Qed.

End AuthChallenge.

Lemma registerVerify_single_use_witness :
  let w1 := snd (@AuthRoute.registerVerify PlainPlatform CounterOnlyWebAuthn example_env
                   (Present (attestation "cred-9" "nonce1")) "tok-1" 1700000200
                   issued_world) in
  KV_SESSIONS w1 !! ("challenge:" +:+ "nonce1") = None /\
  ApiUtils.kind (fst (@AuthRoute.registerVerify PlainPlatform CounterOnlyWebAuthn example_env
                        (Present (attestation "cred-9" "nonce1")) "tok-2" 1700000201 w1))
    = ApiUtils.ChallengeExpiredOrUnknown.
Proof.
  apply (@registerVerify_single_use PlainPlatform CounterOnlyWebAuthn example_env
           (attestation "cred-9" "nonce1") (attestation "cred-9" "nonce1")
           "nonce1" "true" "tok-1" "tok-2" 1700000200 1700000201 issued_world);
    reflexivity.
Defined.

Lemma loginVerify_single_use_witness :
  let w1 := snd (@AuthRoute.loginVerify PlainPlatform CounterOnlyWebAuthn D1Passkeys
                   example_env (Present (assertion "cred-alice" "nonce1" "123456")) "tok-1"
                   issued_world) in
  KV_SESSIONS w1 !! ("challenge:" +:+ "nonce1") = None /\
  ApiUtils.kind (fst (@AuthRoute.loginVerify PlainPlatform CounterOnlyWebAuthn D1Passkeys
                        example_env (Present (assertion "cred-alice" "nonce1" "1234567"))
                        "tok-2" w1))
    = ApiUtils.ChallengeExpiredOrUnknown.
Proof.
  apply (@loginVerify_single_use PlainPlatform CounterOnlyWebAuthn D1Passkeys example_env
           (assertion "cred-alice" "nonce1" "123456")
           (assertion "cred-alice" "nonce1" "1234567")
           "nonce1" "true" "tok-1" "tok-2" issued_world);
    reflexivity.
Defined.

(** ** The admin login keeps the challenge of a failed attempt *)

Section AdminChallenge.
Context `{Platform} `{WebAuthn} `{PasskeysLib}.
Import ApiUtils.

(** The [try] block of the admin login leaves the challenge in place unless
    it ends in a session. *)
Lemma admin_try_failure_keeps_challenge env response challenge passkey token w nonce :
  kind (fst (AdminRoute.loginVerify_try env response challenge passkey token w)) <> Ok ->
  stored_challenge (snd (AdminRoute.loginVerify_try env response challenge passkey token w)) nonce
  = stored_challenge w nonce.
Proof.
  unfold AdminRoute.loginVerify_try.
  destruct (verifyAuthenticationResponse _ _ _ _ _ _) as [v|msg]; [|reflexivity].
  destruct (auth_verified v); [|reflexivity].
  run. destruct (find _ _) as [u|]; [|reflexivity].
  destruct (AdminRoute.not_admin u); [reflexivity|].
  simpl. intros Hk. exfalso. apply Hk. reflexivity.
Qed.

Lemma admin_try_not_expired env response challenge passkey token w :
  kind (fst (AdminRoute.loginVerify_try env response challenge passkey token w))
    <> ChallengeExpiredOrUnknown.
Proof.
  unfold AdminRoute.loginVerify_try.
  destruct (verifyAuthenticationResponse _ _ _ _ _ _) as [v|msg]; [|discriminate].
  destruct (auth_verified v); [|discriminate].
  run. destruct (find _ _) as [u|]; [|discriminate].
  destruct (AdminRoute.not_admin u); discriminate.
Qed.

(** C1, at the admin login: when a verification finds the challenge live and
    fails (credential unknown, assertion rejected, or not an administrator),
    the challenge record is still there afterwards, and a second
    verification presenting the same nonce is not answered "challenge
    expired or unknown": the nonce can be used again. *)
Theorem admin_login_challenge_survives_failed_attempt
    env (r1 r2 : AuthenticationResponseJSON) nonce value tok1 tok2 (w : World) :
  as_truthy (AdminRoute.extractChallenge r1) = Some nonce ->
  as_truthy (AdminRoute.extractChallenge r2) = Some nonce ->
  as_truthy (stored_challenge w nonce) = Some value ->
  kind (fst (AdminRoute.loginVerify env (Present r1) tok1 w)) <> Ok ->
  let w1 := snd (AdminRoute.loginVerify env (Present r1) tok1 w) in
  stored_challenge w1 nonce = Some value /\
  kind (fst (AdminRoute.loginVerify env (Present r2) tok2 w1))
    <> ChallengeExpiredOrUnknown.
Proof.
  intros E1 E2 Hlive Hfail w1.
  assert (Hkept : stored_challenge w1 nonce = Some value).
  { subst w1. revert Hfail. unfold AdminRoute.loginVerify. rewrite E1.
    unfold bind at 1 3, kv_get. fold (stored_challenge w nonce). rewrite Hlive.
    apply as_truthy_truthy in Hlive as [Hs _].
    unfold bind, call_getPasskeyById. simpl.
    destruct (getPasskeyById _ _) as [pk|]; [|intros _; exact Hs].
    intros Hfail. rewrite admin_try_failure_keeps_challenge by exact Hfail.
    exact Hs. }
  split; [exact Hkept|].
  unfold AdminRoute.loginVerify. rewrite E2.
  unfold bind at 1, kv_get. fold (stored_challenge w1 nonce).
  rewrite Hkept.
  destruct (as_truthy_truthy _ _ Hlive) as [Hs _].
  rewrite Hs in Hlive. rewrite Hlive.
  unfold bind, call_getPasskeyById. simpl.
  destruct (getPasskeyById _ _) as [pk|]; [apply admin_try_not_expired|discriminate].
Qed.

End AdminChallenge.

Lemma admin_login_challenge_survives_failed_attempt_witness :
  let r := assertion "cred-alice" "nonce1" "123456" in
  let w1 := snd (@AdminRoute.loginVerify PlainPlatform CounterOnlyWebAuthn D1Passkeys
                   example_env (Present r) "tok-1" issued_world) in
  stored_challenge w1 "nonce1" = Some "true" /\
  ApiUtils.kind (fst (@AdminRoute.loginVerify PlainPlatform CounterOnlyWebAuthn D1Passkeys
                        example_env (Present r) "tok-2" w1))
    <> ApiUtils.ChallengeExpiredOrUnknown.
Proof.
  apply (@admin_login_challenge_survives_failed_attempt
           PlainPlatform CounterOnlyWebAuthn D1Passkeys example_env
           (assertion "cred-alice" "nonce1" "123456")
           (assertion "cred-alice" "nonce1" "123456")
           "nonce1" "true" "tok-1" "tok-2" issued_world).
  - reflexivity.
  - reflexivity.
  - reflexivity.
  - vm_compute. discriminate.
Defined.

(** Both attempts of that example end in Forbidden: the second one was
    not stopped at the challenge. *)
Example admin_login_replay_after_forbidden :
  let r := assertion "cred-alice" "nonce1" "123456" in
  let run1 := @AdminRoute.loginVerify PlainPlatform CounterOnlyWebAuthn D1Passkeys
                example_env (Present r) "tok-1" issued_world in
  let run2 := @AdminRoute.loginVerify PlainPlatform CounterOnlyWebAuthn D1Passkeys
                example_env (Present r) "tok-2" (snd run1) in
  ApiUtils.kind (fst run1) = ApiUtils.Forbidden /\
  ApiUtils.kind (fst run2) = ApiUtils.Forbidden.
Proof. vm_compute. split; reflexivity. Qed.

(** ** Counter regression *)

Lemma CounterOnlyWebAuthn_enforces_counter :
  enforces_counter CounterOnlyWebAuthn signed_length.
Proof.
  intros response challenge origin rpID device uv [Hle Hnz]. simpl.
  destruct (((signed_length response >? 0) || (counter device >? 0))
            && (signed_length response <=? counter device)) eqn:E; [exact I|].
  exfalso. apply andb_false_iff in E as [E|E].
  - apply orb_false_iff in E as [E1 E2].
    rewrite Z.gtb_ltb in E1, E2. apply Z.ltb_ge in E1, E2.
    apply Hnz. unfold signed_length in *. lia.
  - apply Z.leb_gt in E. lia.
Qed.

Section CounterRegression.
Context `{Platform} `{L : WebAuthn} `{PasskeysLib}.
Variable reported : AuthenticationResponseJSON -> Z.
Hypothesis library_contract : enforces_counter L reported.
Import ApiUtils.

Lemma login_try_regressed env response challenge passkey token w :
  counter_regressed (reported response) (sign_counter passkey) ->
  exists message,
    AuthRoute.loginVerify_try env response challenge passkey token w =
      (errorResponse message AUTH_UNAUTHORIZED HTTP_STATUS.BAD_REQUEST None, w).
Proof.
  intros Hreg. unfold AuthRoute.loginVerify_try.
  pose proof (library_contract response challenge (AuthRoute.getOrigin env)
                (AuthRoute.getRpID env)
                (mkAuthenticatorDevice (passkey_id passkey) (pubkey_blob passkey)
                   (sign_counter passkey)) false Hreg) as Hlib.
  destruct (verifyAuthenticationResponse _ _ _ _ _ _) as [v|msg].
  - rewrite Hlib. simpl. eexists. reflexivity.
  - eexists. reflexivity.
Qed.

Lemma admin_try_regressed env response challenge passkey token w :
  counter_regressed (reported response) (sign_counter passkey) ->
  exists message,
    AdminRoute.loginVerify_try env response challenge passkey token w =
      (errorResponse message AUTH_UNAUTHORIZED HTTP_STATUS.BAD_REQUEST None, w).
Proof.
  intros Hreg. unfold AdminRoute.loginVerify_try.
  pose proof (library_contract response challenge (AdminRoute.getOrigin env)
                (AdminRoute.getRpID env)
                (mkAuthenticatorDevice (passkey_id passkey) (pubkey_blob passkey)
                   (sign_counter passkey)) false Hreg) as Hlib.
  destruct (verifyAuthenticationResponse _ _ _ _ _ _) as [v|msg].
  - rewrite Hlib. simpl. eexists. reflexivity.
  - eexists. reflexivity.
Qed.

(** C3: an authentication verification that reaches the assertion check (the
    challenge is live, the credential is known) with a reported counter
    that is not strictly greater than the stored one, outside the zero/zero
    exception, is answered "verification failed" on both login routes; the
    database is the one it started with, and the operations performed are
    the challenge lookup (and its deletion, on the ordinary route) and the
    credential lookup: no [UPDATE] of the [Passkeys] row and no session. *)
Theorem counter_regression_rejected
    env (response : AuthenticationResponseJSON) token nonce value passkey (w : World) :
  as_truthy (AuthRoute.extractChallengeFromClientData response) = Some nonce ->
  as_truthy (stored_challenge w nonce) = Some value ->
  getPasskeyById (DB w) (id response) = Some passkey ->
  counter_regressed (reported response) (sign_counter passkey) ->
  let user_login := AuthRoute.loginVerify env (Present response) token w in
  let admin_login := AdminRoute.loginVerify env (Present response) token w in
  (kind (fst user_login) = CryptographicVerificationFailed /\
   DB (snd user_login) = DB w /\
   log (snd user_login) =
     (log w ++ [KvGet ("challenge:" +:+ nonce); KvDelete ("challenge:" +:+ nonce);
                CallGetPasskeyById (id response)])%list) /\
  (kind (fst admin_login) = CryptographicVerificationFailed /\
   DB (snd admin_login) = DB w /\
   log (snd admin_login) =
     (log w ++ [KvGet ("challenge:" +:+ nonce); CallGetPasskeyById (id response)])%list).
Proof.
  intros Hextract Hlive Hpasskey Hreg user_login admin_login.
  destruct (as_truthy_truthy _ _ Hlive) as [Hs _].
  assert (Hvalue : as_truthy (Some value) = Some value)
    by (rewrite Hs in Hlive; exact Hlive).
  split.
  - assert (Hrun : exists message, user_login =
              (errorResponse message AUTH_UNAUTHORIZED HTTP_STATUS.BAD_REQUEST None,
               record (CallGetPasskeyById (id response))
                 (record (KvDelete ("challenge:" +:+ nonce))
                    (with_kv (delete ("challenge:" +:+ nonce))
                       (record (KvGet ("challenge:" +:+ nonce)) w))))).
    { subst user_login. unfold AuthRoute.loginVerify. rewrite Hextract.
      unfold bind. rewrite (getAndDeleteChallenge_live _ _ _ Hlive), Hvalue.
      unfold call_getPasskeyById. simpl. rewrite Hpasskey.
      apply login_try_regressed. exact Hreg. }
    destruct Hrun as [message ->]. simpl.
    rewrite <- !app_assoc. repeat split; reflexivity.
  - assert (Hrun : exists message, admin_login =
              (errorResponse message AUTH_UNAUTHORIZED HTTP_STATUS.BAD_REQUEST None,
               record (CallGetPasskeyById (id response))
                 (record (KvGet ("challenge:" +:+ nonce)) w))).
    { subst admin_login. unfold AdminRoute.loginVerify.
      change (AdminRoute.extractChallenge response)
        with (AuthRoute.extractChallengeFromClientData response).
      rewrite Hextract. unfold bind, kv_get.
      fold (stored_challenge w nonce). rewrite Hlive.
      unfold call_getPasskeyById. simpl. rewrite Hpasskey.
      apply admin_try_regressed. exact Hreg. }
    destruct Hrun as [message ->]. simpl.
    rewrite <- !app_assoc. repeat split; reflexivity.
Qed.

End CounterRegression.

(** Scenario B of the specification: the stored counter is 5 and the
    assertion reports 4. *)
Lemma counter_regression_rejected_witness :
  let response := assertion "cred-alice" "nonce1" "1234" in
  let user_login := @AuthRoute.loginVerify PlainPlatform CounterOnlyWebAuthn D1Passkeys
                      example_env (Present response) "tok-1" issued_world in
  let admin_login := @AdminRoute.loginVerify PlainPlatform CounterOnlyWebAuthn D1Passkeys
                       example_env (Present response) "tok-1" issued_world in
  (ApiUtils.kind (fst user_login) = ApiUtils.CryptographicVerificationFailed /\
   DB (snd user_login) = DB issued_world /\
   log (snd user_login) =
     (log issued_world ++ [KvGet "challenge:nonce1"; KvDelete "challenge:nonce1";
                           CallGetPasskeyById "cred-alice"])%list) /\
  (ApiUtils.kind (fst admin_login) = ApiUtils.CryptographicVerificationFailed /\
   DB (snd admin_login) = DB issued_world /\
   log (snd admin_login) =
     (log issued_world ++ [KvGet "challenge:nonce1"; CallGetPasskeyById "cred-alice"])%list).
Proof.
  apply (@counter_regression_rejected PlainPlatform CounterOnlyWebAuthn D1Passkeys
           signed_length CounterOnlyWebAuthn_enforces_counter example_env
           (assertion "cred-alice" "nonce1" "1234") "tok-1" "nonce1" "true" alice_key
           issued_world).
  - reflexivity.
  - reflexivity.
  - reflexivity.
  - unfold counter_regressed, signed_length. cbn. lia.
Defined.

(** In that scenario the stored counter is still 5 afterwards. *)
Example scenario_B_counter_kept :
  let response := assertion "cred-alice" "nonce1" "1234" in
  let w1 := snd (@AuthRoute.loginVerify PlainPlatform CounterOnlyWebAuthn D1Passkeys
                   example_env (Present response) "tok-1" issued_world) in
  sign_counter <$> d1_getPasskeyById (DB w1) "cred-alice" = Some 5.
Proof. reflexivity. Qed.

(** ** Authorization headers *)

Lemma split_space_plain (token : string) :
  includes_char " " token = false -> split_space token = [token].
Proof.
  induction token as [|c rest IH]; simpl; [reflexivity|].
  intros Hno. apply orb_false_iff in Hno as [Hc Hrest].
  rewrite Hc, (IH Hrest). reflexivity.
Qed.

Lemma split_space_bearer (token : string) :
  includes_char " " token = false ->
  split_space ("Bearer " +:+ token) = ["Bearer"; token].
Proof.
  intros Hno. unfold String.append. simpl.
  rewrite (split_space_plain _ Hno). reflexivity.
Qed.

Lemma bearer_token_plain (token : string) :
  includes_char " " token = false -> bearer_token ("Bearer " +:+ token) = token.
Proof. intros Hno. unfold bearer_token. rewrite (split_space_bearer _ Hno). reflexivity. Qed.

Lemma startsWith_bearer (token : string) : startsWith "Bearer " ("Bearer " +:+ token) = true.
Proof. unfold startsWith, String.append. simpl. destruct token; reflexivity. Qed.

Lemma as_truthy_nonempty (s : string) : s <> "" -> as_truthy (Some s) = Some s.
Proof.
  intros Hs. simpl. destruct (String.eqb_spec s ""); [contradiction|reflexivity].
Qed.

(** ** Logout *)

Section Sessions.
Context `{Platform} `{WebAuthn} `{PasskeysLib}.
Import ApiUtils.

Lemma logout_run (token : string) (w : World) :
  AuthRoute.logout (Some ("Bearer " +:+ token)) w =
    (successResponse Null (Some "退出登录成功") HTTP_STATUS.OK,
     record (KvDelete ("session:" +:+ bearer_token ("Bearer " +:+ token)))
       (with_kv (delete ("session:" +:+ bearer_token ("Bearer " +:+ token))) w)).
Proof. unfold AuthRoute.logout. rewrite startsWith_bearer. reflexivity. Qed.

(** C8: logging out twice in a row with the same token succeeds both
    times, whether or not the token had a session.  After the first call
    the session of the token the handler read from the header is absent
    (it is the token itself when it has no space in it), and the second
    call, which finds nothing to delete, answers as the first and leaves the
    key-value store and the database as they are. *)
Theorem logout_idempotent (token : string) (w : World) :
  let header := Some ("Bearer " +:+ token) in
  let first := AuthRoute.logout header w in
  let second := AuthRoute.logout header (snd first) in
  fst first = successResponse Null (Some "退出登录成功") HTTP_STATUS.OK /\
  fst second = successResponse Null (Some "退出登录成功") HTTP_STATUS.OK /\
  kind (fst first) = Ok /\ kind (fst second) = Ok /\
  stored_session (snd first) (bearer_token ("Bearer " +:+ token)) = None /\
  KV_SESSIONS (snd second) = KV_SESSIONS (snd first) /\
  DB (snd second) = DB w /\
  (includes_char " " token = false -> stored_session (snd first) token = None).
Proof.
  intros header first second. subst second first header.
  rewrite !logout_run. cbn [fst snd].
  set (key := "session:" +:+ bearer_token ("Bearer " +:+ token)).
  assert (Hgone : stored_session (record (KvDelete key) (with_kv (delete key) w))
                    (bearer_token ("Bearer " +:+ token)) = None).
  { unfold stored_session. cbn [KV_SESSIONS record with_kv]. fold key.
    rewrite lookup_delete_eq. reflexivity. }
  do 4 (split; [reflexivity|]). split; [exact Hgone|]. split; [|split].
  - cbn [KV_SESSIONS record with_kv]. apply delete_id, lookup_delete_eq.
  - reflexivity.
  - intros Hno. rewrite (bearer_token_plain _ Hno) in Hgone. exact Hgone.
Qed.

(** ** Registration switch *)

(** C9: with the registration flag unset or false, issuing a registration
    challenge is answered Forbidden and the world is returned as it was:
    neither store changed and no operation was logged, so no user was
    looked up or created and no nonce was stored. *)
Theorem registration_disabled_touches_nothing env name mail nonce fresh now (w : World) :
  REGISTER_ENABLED env = EnvUnset \/ REGISTER_ENABLED env = EnvBool false ->
  AuthRoute.registerChallenge env name mail nonce fresh now w =
    (errors.forbidden "注册功能已禁用", w) /\
  kind (fst (AuthRoute.registerChallenge env name mail nonce fresh now w)) = Forbidden.
Proof.
  intros Hflag. unfold AuthRoute.registerChallenge.
  destruct Hflag as [-> | ->]; simpl; split; reflexivity.
Qed.

End Sessions.

Lemma logout_idempotent_witness :
  stored_session (snd (AuthRoute.logout (Some "Bearer tok-alice") logged_in_world))
    "tok-alice" = None.
Proof.
  apply (logout_idempotent "tok-alice" logged_in_world). reflexivity.
Defined.

Lemma registration_disabled_touches_nothing_witness :
  let env := mkEnv None None "Forum" EnvUnset "forum.example" "https://forum.example" in
  @AuthRoute.registerChallenge D1Passkeys env "carol" "carol@example.com" "nonce2" "u-carol"
     1700000100 issued_world =
    (ApiUtils.errors.forbidden "注册功能已禁用", issued_world) /\
  ApiUtils.kind (fst (@AuthRoute.registerChallenge D1Passkeys env "carol" "carol@example.com"
                        "nonce2" "u-carol" 1700000100 issued_world)) = ApiUtils.Forbidden.
Proof.
  apply (@registration_disabled_touches_nothing D1Passkeys
           (mkEnv None None "Forum" EnvUnset "forum.example" "https://forum.example")).
  left. reflexivity.
Defined.

(** ** Session resolution *)

Section Resolution.
Context `{Platform} `{WebAuthn} `{PasskeysLib}.
Import ApiUtils.

Lemma stored_session_deleted (token : string) (w : World) (op : Op) :
  stored_session (record op (with_kv (delete ("session:" +:+ token)) w)) token = None.
Proof. unfold stored_session. simpl. rewrite lookup_delete_eq. reflexivity. Qed.

Lemma stored_session_record (token : string) (w : World) (op : Op) :
  stored_session (record op w) token = stored_session w token.
Proof. reflexivity. Qed.

(** The three ways [GET /session] ends for a well-formed bearer header. *)
Lemma session_absent (token : string) (w : World) :
  includes_char " " token = false ->
  as_truthy (stored_session w token) = None ->
  AuthRoute.session (Some ("Bearer " +:+ token)) w =
    (invalid_session, record (KvGet ("session:" +:+ token)) w).
Proof.
  intros Hno Habsent. unfold AuthRoute.session.
  rewrite startsWith_bearer, (bearer_token_plain _ Hno). cbn [negb]. cbv beta iota.
  unfold bind, kv_get. cbv beta iota.
  fold (stored_session w token). rewrite Habsent. reflexivity.
Qed.

Lemma session_dangling (token userId : string) (w : World) :
  includes_char " " token = false ->
  as_truthy (stored_session w token) = Some userId ->
  user_row w userId = None ->
  AuthRoute.session (Some ("Bearer " +:+ token)) w =
    (invalid_session,
     record (KvDelete ("session:" +:+ token))
       (with_kv (delete ("session:" +:+ token))
          (record (SelectUserById userId) (record (KvGet ("session:" +:+ token)) w)))).
Proof.
  intros Hno Hbound Hgone. unfold AuthRoute.session.
  rewrite startsWith_bearer, (bearer_token_plain _ Hno). cbn [negb]. cbv beta iota.
  unfold bind, kv_get. cbv beta iota.
  fold (stored_session w token). rewrite Hbound.
  unfold select_user_by_id. cbv beta iota.
  change (find _ (Users (DB (record (KvGet ("session:" +:+ token)) w))))
    with (user_row w userId). rewrite Hgone. reflexivity.
Qed.

Lemma session_resolved (token userId : string) (user : User) (w : World) :
  includes_char " " token = false ->
  as_truthy (stored_session w token) = Some userId ->
  user_row w userId = Some user ->
  AuthRoute.session (Some ("Bearer " +:+ token)) w =
    (successResponse (SessionData true (Some (session_user user))) None HTTP_STATUS.OK,
     record (SelectUserById userId) (record (KvGet ("session:" +:+ token)) w)).
Proof.
  intros Hno Hbound Hrow. unfold AuthRoute.session.
  rewrite startsWith_bearer, (bearer_token_plain _ Hno). cbn [negb]. cbv beta iota.
  unfold bind, kv_get. cbv beta iota.
  fold (stored_session w token). rewrite Hbound.
  unfold select_user_by_id. cbv beta iota.
  change (find _ (Users (DB (record (KvGet ("session:" +:+ token)) w))))
    with (user_row w userId). rewrite Hrow. reflexivity.
Qed.

(** The same for the admin middleware, which also looks at the role. *)
Lemma admin_header (token : string) (w : World) :
  includes_char " " token = false ->
  token <> "" ->
  AdminRoute.adminAuthMiddleware (Some ("Bearer " +:+ token)) w =
    (let* userId := kv_get ("session:" +:+ token) in
     match as_truthy userId with
     | None => ret (AdminRoute.Rejected (errors.unauthorized "会话已过期或无效"))
     | Some userId =>
         let* user := select_user_by_id userId in
         match user with
         | None =>
             let* _ := kv_delete ("session:" +:+ token) in
             ret (AdminRoute.Rejected (errors.unauthorized "用户不存在"))
         | Some user =>
             if AdminRoute.not_admin user
             then ret (AdminRoute.Rejected (errors.forbidden "需要管理员权限"))
             else ret (AdminRoute.Next user)
         end
     end) w.
Proof.
  intros Hno Hne. unfold AdminRoute.adminAuthMiddleware.
  replace (as_truthy (Some ("Bearer " +:+ token))) with (Some ("Bearer " +:+ token))
    by (unfold String.append; reflexivity).
  rewrite (split_space_bearer _ Hno). simpl.
  destruct (String.eqb_spec token ""); [contradiction|reflexivity].
Qed.

Lemma admin_absent (token : string) (w : World) :
  includes_char " " token = false ->
  token <> "" ->
  as_truthy (stored_session w token) = None ->
  AdminRoute.adminAuthMiddleware (Some ("Bearer " +:+ token)) w =
    (AdminRoute.Rejected (errors.unauthorized "会话已过期或无效"),
     record (KvGet ("session:" +:+ token)) w).
Proof.
  intros Hno Hne Habsent. rewrite (admin_header _ _ Hno Hne).
  unfold bind, kv_get. cbv beta iota.
  fold (stored_session w token). rewrite Habsent. reflexivity.
Qed.

Lemma admin_dangling (token userId : string) (w : World) :
  includes_char " " token = false ->
  token <> "" ->
  as_truthy (stored_session w token) = Some userId ->
  user_row w userId = None ->
  AdminRoute.adminAuthMiddleware (Some ("Bearer " +:+ token)) w =
    (AdminRoute.Rejected (errors.unauthorized "用户不存在"),
     record (KvDelete ("session:" +:+ token))
       (with_kv (delete ("session:" +:+ token))
          (record (SelectUserById userId) (record (KvGet ("session:" +:+ token)) w)))).
Proof.
  intros Hno Hne Hbound Hgone. rewrite (admin_header _ _ Hno Hne).
  unfold bind, kv_get. cbv beta iota.
  fold (stored_session w token). rewrite Hbound.
  unfold select_user_by_id. cbv beta iota.
  change (find _ (Users (DB (record (KvGet ("session:" +:+ token)) w))))
    with (user_row w userId). rewrite Hgone. reflexivity.
Qed.

Lemma admin_resolved (token userId : string) (user : User) (w : World) :
  includes_char " " token = false ->
  token <> "" ->
  as_truthy (stored_session w token) = Some userId ->
  user_row w userId = Some user ->
  AdminRoute.adminAuthMiddleware (Some ("Bearer " +:+ token)) w =
    (if AdminRoute.not_admin user
     then AdminRoute.Rejected (errors.forbidden "需要管理员权限")
     else AdminRoute.Next user,
     record (SelectUserById userId) (record (KvGet ("session:" +:+ token)) w)).
Proof.
  intros Hno Hne Hbound Hrow. rewrite (admin_header _ _ Hno Hne).
  unfold bind, kv_get. cbv beta iota.
  fold (stored_session w token). rewrite Hbound.
  unfold select_user_by_id. cbv beta iota.
  change (find _ (Users (DB (record (KvGet ("session:" +:+ token)) w))))
    with (user_row w userId). rewrite Hrow.
  destruct (AdminRoute.not_admin user); reflexivity.
Qed.

(** C6: a token bound to the id of a user that has no row in [Users]
    resolves to "invalid" on both paths ([valid: false] from [GET /session],
    Unauthorized from the admin middleware); the session mapping is deleted
    by that resolution; and resolving the same token again gives "invalid"
    again, now from the absence of the mapping, with nothing left to
    delete.  The database is never written. *)
Theorem dangling_session_cleanup (token userId : string) (w : World) :
  includes_char " " token = false ->
  token <> "" ->
  as_truthy (stored_session w token) = Some userId ->
  user_row w userId = None ->
  let header := Some ("Bearer " +:+ token) in
  let first := AuthRoute.session header w in
  let second := AuthRoute.session header (snd first) in
  let admin_first := AdminRoute.adminAuthMiddleware header w in
  let admin_second := AdminRoute.adminAuthMiddleware header (snd admin_first) in
  (fst first = invalid_session /\
   KV_SESSIONS (snd first) = delete ("session:" +:+ token) (KV_SESSIONS w) /\
   fst second = invalid_session /\
   KV_SESSIONS (snd second) = KV_SESSIONS (snd first) /\
   DB (snd second) = DB w) /\
  (fst admin_first = AdminRoute.Rejected (errors.unauthorized "用户不存在") /\
   KV_SESSIONS (snd admin_first) = delete ("session:" +:+ token) (KV_SESSIONS w) /\
   fst admin_second = AdminRoute.Rejected (errors.unauthorized "会话已过期或无效") /\
   KV_SESSIONS (snd admin_second) = KV_SESSIONS (snd admin_first) /\
   DB (snd admin_second) = DB w).
Proof.
  intros Hno Hne Hbound Hgone header first second admin_first admin_second.
  subst second first admin_second admin_first header.
  rewrite (session_dangling _ _ _ Hno Hbound Hgone).
  rewrite (admin_dangling _ _ _ Hno Hne Hbound Hgone).
  cbn [fst snd].
  rewrite session_absent, admin_absent; try assumption.
  2, 3: rewrite stored_session_deleted; reflexivity.
  simpl. repeat split; reflexivity.
Qed.


End Resolution.

Lemma dangling_session_cleanup_witness :
  let header := Some "Bearer tok-ghost" in
  let first := AuthRoute.session header dangling_world in
  let second := AuthRoute.session header (snd first) in
  let admin_first := AdminRoute.adminAuthMiddleware header dangling_world in
  let admin_second := AdminRoute.adminAuthMiddleware header (snd admin_first) in
  (fst first = invalid_session /\
   KV_SESSIONS (snd first) = delete "session:tok-ghost" (KV_SESSIONS dangling_world) /\
   fst second = invalid_session /\
   KV_SESSIONS (snd second) = KV_SESSIONS (snd first) /\
   DB (snd second) = DB dangling_world) /\
  (fst admin_first = AdminRoute.Rejected (ApiUtils.errors.unauthorized "用户不存在") /\
   KV_SESSIONS (snd admin_first) = delete "session:tok-ghost" (KV_SESSIONS dangling_world) /\
   fst admin_second = AdminRoute.Rejected (ApiUtils.errors.unauthorized "会话已过期或无效") /\
   KV_SESSIONS (snd admin_second) = KV_SESSIONS (snd admin_first) /\
   DB (snd admin_second) = DB dangling_world).
Proof.
  apply (dangling_session_cleanup "tok-ghost" "u-ghost" dangling_world).
  - reflexivity.
  - discriminate.
  - reflexivity.
  - reflexivity.
Defined.



(** ** Administrators *)

Section AdminOnly.
Context `{Platform} `{WebAuthn} `{PasskeysLib}.
Import ApiUtils.

Lemma not_admin_true (user : User) :
  role user <> "admin" -> username user <> "admin" -> AdminRoute.not_admin user = true.
Proof.
  intros Hrole Hname. unfold AdminRoute.not_admin.
  destruct (String.eqb_spec (role user) "admin"); [contradiction|].
  destruct (String.eqb_spec (username user) "admin"); [contradiction|reflexivity].
Qed.

(** The admin login, up to its [try] block. *)
Lemma admin_login_reaches_try env (response : AuthenticationResponseJSON) token nonce value
    passkey (w : World) :
  as_truthy (AdminRoute.extractChallenge response) = Some nonce ->
  as_truthy (stored_challenge w nonce) = Some value ->
  getPasskeyById (DB w) (id response) = Some passkey ->
  AdminRoute.loginVerify env (Present response) token w =
    AdminRoute.loginVerify_try env response nonce passkey token
      (record (CallGetPasskeyById (id response))
         (record (KvGet ("challenge:" +:+ nonce)) w)).
Proof.
  intros Hextract Hlive Hpasskey. unfold AdminRoute.loginVerify. rewrite Hextract.
  unfold bind, kv_get. cbv beta iota.
  fold (stored_challenge w nonce). rewrite Hlive.
  unfold call_getPasskeyById. cbv beta iota.
  change (DB (record (KvGet ("challenge:" +:+ nonce)) w)) with (DB w).
  rewrite Hpasskey. reflexivity.
Qed.

(** C4, as the code has it, in two parts that stand each on its own.
    The login: in any world, an admin login whose assertion the library
    verifies, for a credential whose owner has a role other than "admin"
    and a name other than "admin", is answered Forbidden; the key-value
    store and the database are left as they were, so no session exists that
    did not exist before, and the counter is not updated.  The middleware:
    in any world, the admin middleware answers Forbidden for every token
    bound to such a user, and changes nothing. *)
Theorem admin_surfaces_forbid_ordinary_users env (w : World) :
  (forall (response : AuthenticationResponseJSON) token nonce value passkey verification
          (owner : User),
     as_truthy (AdminRoute.extractChallenge response) = Some nonce ->
     as_truthy (stored_challenge w nonce) = Some value ->
     getPasskeyById (DB w) (id response) = Some passkey ->
     verifyAuthenticationResponse response nonce (AdminRoute.getOrigin env)
       (AdminRoute.getRpID env)
       (mkAuthenticatorDevice (passkey_id passkey) (pubkey_blob passkey)
          (sign_counter passkey))
       false = Returned verification ->
     auth_verified verification = true ->
     user_row w (passkey_user_id passkey) = Some owner ->
     role owner <> "admin" -> username owner <> "admin" ->
     kind (fst (AdminRoute.loginVerify env (Present response) token w)) = Forbidden /\
     KV_SESSIONS (snd (AdminRoute.loginVerify env (Present response) token w))
       = KV_SESSIONS w /\
     DB (snd (AdminRoute.loginVerify env (Present response) token w)) = DB w) /\
  (forall (sessionToken principalId : string) (principal : User),
     includes_char " " sessionToken = false -> sessionToken <> "" ->
     as_truthy (stored_session w sessionToken) = Some principalId ->
     user_row w principalId = Some principal ->
     role principal <> "admin" -> username principal <> "admin" ->
     fst (AdminRoute.adminAuthMiddleware (Some ("Bearer " +:+ sessionToken)) w)
       = AdminRoute.Rejected (errors.forbidden "需要管理员权限") /\
     kind (errors.forbidden (T := Payload) "需要管理员权限") = Forbidden /\
     KV_SESSIONS (snd (AdminRoute.adminAuthMiddleware (Some ("Bearer " +:+ sessionToken)) w))
       = KV_SESSIONS w /\
     DB (snd (AdminRoute.adminAuthMiddleware (Some ("Bearer " +:+ sessionToken)) w))
       = DB w).
Proof.
  split.
  - intros response token nonce value passkey verification owner
           Hextract Hlive Hpasskey Hlib Hverified Howner Hrole Hname.
    rewrite (admin_login_reaches_try _ _ _ _ _ _ _ Hextract Hlive Hpasskey).
    unfold AdminRoute.loginVerify_try. rewrite Hlib, Hverified.
    cbn [negb]. cbv beta iota.
    unfold bind, select_user_by_id. cbv beta iota.
    change (find _ (Users (DB (record (CallGetPasskeyById (id response))
                                 (record (KvGet ("challenge:" +:+ nonce)) w)))))
      with (user_row w (passkey_user_id passkey)).
    rewrite Howner, (not_admin_true _ Hrole Hname).
    repeat split; reflexivity.
  - intros sessionToken principalId principal Hno Hne Hbound Hprincipal Hprole Hpname.
    rewrite (admin_resolved _ _ _ _ Hno Hne Hbound Hprincipal).
    rewrite (not_admin_true _ Hprole Hpname).
    repeat split; reflexivity.
Qed.

End AdminOnly.

(** The login part in a world where nobody is logged in, the middleware
    part in a world with sessions. *)
Lemma admin_surfaces_forbid_ordinary_users_witness :
  (ApiUtils.kind
     (fst (@AdminRoute.loginVerify PlainPlatform CounterOnlyWebAuthn D1Passkeys
             example_env (Present (assertion "cred-alice" "nonce1" "123456")) "tok-1"
             issued_world)) = ApiUtils.Forbidden /\
   KV_SESSIONS
     (snd (@AdminRoute.loginVerify PlainPlatform CounterOnlyWebAuthn D1Passkeys
             example_env (Present (assertion "cred-alice" "nonce1" "123456")) "tok-1"
             issued_world)) = KV_SESSIONS issued_world /\
   DB (snd (@AdminRoute.loginVerify PlainPlatform CounterOnlyWebAuthn D1Passkeys
              example_env (Present (assertion "cred-alice" "nonce1" "123456")) "tok-1"
              issued_world)) = DB issued_world) /\
  (fst (AdminRoute.adminAuthMiddleware (Some "Bearer tok-alice") logged_in_world)
     = AdminRoute.Rejected (ApiUtils.errors.forbidden "需要管理员权限") /\
   ApiUtils.kind (ApiUtils.errors.forbidden (T := Payload) "需要管理员权限")
     = ApiUtils.Forbidden /\
   KV_SESSIONS (snd (AdminRoute.adminAuthMiddleware (Some "Bearer tok-alice") logged_in_world))
     = KV_SESSIONS logged_in_world /\
   DB (snd (AdminRoute.adminAuthMiddleware (Some "Bearer tok-alice") logged_in_world))
     = DB logged_in_world).
Proof.
  split.
  - apply (proj1 (@admin_surfaces_forbid_ordinary_users PlainPlatform CounterOnlyWebAuthn
                    D1Passkeys example_env issued_world)
             (assertion "cred-alice" "nonce1" "123456") "tok-1" "nonce1" "true"
             alice_key (mkVerifiedAuthentication true 6) alice);
      try reflexivity; discriminate.
  - apply (proj2 (@admin_surfaces_forbid_ordinary_users PlainPlatform CounterOnlyWebAuthn
                    D1Passkeys example_env logged_in_world)
             "tok-alice" "u-alice" alice);
      try reflexivity; discriminate.
Defined.

(** C4 as stated fails for a user whose role is "user" and whose name is
    "admin": the admin login gives her a session, and the admin middleware
    lets the session through. *)
Lemma user_named_admin_passes_as_administrator :
  let login := @AdminRoute.loginVerify PlainPlatform CounterOnlyWebAuthn D1Passkeys
                 example_env (Present (assertion "cred-mallory" "nonce1" "1")) "tok-1"
                 logged_in_world in
  let guarded := AdminRoute.adminAuthMiddleware (Some "Bearer tok-mallory") logged_in_world in
  role mallory = "user" /\
  fst login = ApiUtils.successResponse (VerifiedData "tok-1") None ApiUtils.HTTP_STATUS.OK /\
  ApiUtils.kind (fst login) <> ApiUtils.Forbidden /\
  stored_session (snd login) "tok-1" = Some "u-mallory" /\
  fst guarded = AdminRoute.Next mallory.
Proof. vm_compute. repeat split; try reflexivity. discriminate. Qed.

(** ** Where the user record comes from *)

Section UserRecords.
Context `{Platform} `{WebAuthn} `{PasskeysLib}.
Import ApiUtils.





End UserRecords.



(** With the helpers of [lib/passkeys] as modelled, the row of a new user
    is in [Users] right after the challenge is issued, and for a name that
    is already registered no challenge is issued at all. *)
Example challenge_issuance_creates_the_user :
  let issue := @AuthRoute.registerChallenge D1Passkeys example_env "carol"
                 "carol@example.com" "nonce2" "u-carol" 1700000100 empty_world in
  let again := @AuthRoute.registerChallenge D1Passkeys example_env "alice"
                 "alice@example.com" "nonce3" "u-alice2" 1700000100 issued_world in
  Users (DB empty_world) = [] /\
  ApiUtils.kind (fst issue) = ApiUtils.Ok /\
  stored_challenge (snd issue) "nonce2" = Some "u-carol" /\
  Users (DB (snd issue)) = [carol] /\
  ApiUtils.kind (fst again) = ApiUtils.Conflict /\
  stored_challenge (snd again) "nonce3" = None.
Proof. vm_compute. repeat split; reflexivity. Qed.

(** Scenario A of the specification, run on the example collaborators:
    issuance creates carol, verification adds her credential and a session,
    and the session resolves to her row. *)
Example scenario_A :
  let issue := @AuthRoute.registerChallenge D1Passkeys example_env "carol"
                 "carol@example.com" "nonce2" "u-carol" 1700000100 empty_world in
  let verify := @AuthRoute.registerVerify PlainPlatform CounterOnlyWebAuthn example_env
                  (Present (attestation "cred-carol" "nonce2")) "tok-1" 1700000200
                  (snd issue) in
  let resolve := AuthRoute.session (Some "Bearer tok-1") (snd verify) in
  fst verify = ApiUtils.successResponse (VerifiedData "tok-1") None ApiUtils.HTTP_STATUS.OK /\
  Passkeys (DB (snd verify)) = [mkPasskey "cred-carol" "u-carol" "pk-new" 0 1700000200] /\
  fst resolve = ApiUtils.successResponse (SessionData true (Some (session_user carol))) None
                  ApiUtils.HTTP_STATUS.OK.
Proof. vm_compute. repeat split; reflexivity. Qed.

(** ** Consumption of a challenge under interleaving *)

Section Consumption.
Context `{Platform} `{WebAuthn} `{PasskeysLib}.
Import ApiUtils.

Lemma step_get_live env request value (w : World) :
  as_truthy (stored_challenge w (presented request)) = Some value ->
  thread_step env request (Consuming AtGet) w =
    (Consuming (AtDelete (Some value)),
     record (KvGet ("challenge:" +:+ presented request)) w).
Proof.
  intros Hlive. destruct (as_truthy_truthy _ _ Hlive) as [Hs Ht].
  unfold thread_step, consumer_step, bind, kv_get. cbv beta iota.
  fold (stored_challenge w (presented request)). rewrite Ht, Hs. reflexivity.
Qed.

Lemma step_get_dead env request (w : World) :
  as_truthy (stored_challenge w (presented request)) = None ->
  thread_step env request (Consuming AtGet) w =
    (Consuming (Consumed (stored_challenge w (presented request))),
     record (KvGet ("challenge:" +:+ presented request)) w).
Proof.
  intros Hdead. apply as_truthy_None_falsy in Hdead.
  unfold thread_step, consumer_step, bind, kv_get. cbv beta iota.
  fold (stored_challenge w (presented request)). rewrite Hdead. reflexivity.
Qed.

Lemma step_delete env request value (w : World) :
  thread_step env request (Consuming (AtDelete value)) w =
    (Consuming (Consumed value),
     record (KvDelete ("challenge:" +:+ presented request))
       (with_kv (delete ("challenge:" +:+ presented request)) w)).
Proof. reflexivity. Qed.

Lemma step_finish_dead env request stored (w : World) :
  as_truthy stored = None ->
  thread_step env request (Consuming (Consumed stored)) w = (Finished challenge_expired, w).
Proof. intros Hdead. unfold thread_step. rewrite Hdead. reflexivity. Qed.

Lemma step_finish_live env request stored userId (w : World) :
  as_truthy stored = Some userId ->
  thread_step env request (Consuming (Consumed stored)) w =
    (Finished (fst (AuthRoute.registerVerify_try env (attested request) (presented request)
                      userId (drawn_token request) (arrival request) w)),
     snd (AuthRoute.registerVerify_try env (attested request) (presented request)
            userId (drawn_token request) (arrival request) w)).
Proof.
  intros Hlive. unfold thread_step. rewrite Hlive. unfold bind.
  destruct (AuthRoute.registerVerify_try _ _ _ _ _ _ w). reflexivity.
Qed.

(** [POST /register/verify] on a body whose response carries [nonce]. *)
Lemma registerVerify_run env response nonce token now (w : World) :
  as_truthy (AuthRoute.extractChallengeFromClientData response) = Some nonce ->
  AuthRoute.registerVerify env (Present response) token now w =
    match as_truthy (stored_challenge w nonce) with
    | Some userId =>
        AuthRoute.registerVerify_try env response nonce userId token now
          (record (KvDelete ("challenge:" +:+ nonce))
             (with_kv (delete ("challenge:" +:+ nonce))
                (record (KvGet ("challenge:" +:+ nonce)) w)))
    | None => (challenge_expired, record (KvGet ("challenge:" +:+ nonce)) w)
    end.
Proof.
  intros Hextract. unfold AuthRoute.registerVerify. rewrite Hextract. unfold bind.
  destruct (as_truthy (stored_challenge w nonce)) as [value|] eqn:Hlive.
  - rewrite (getAndDeleteChallenge_live _ _ _ Hlive).
    destruct (as_truthy_truthy _ _ Hlive) as [Hs _]. rewrite Hs in Hlive.
    rewrite Hlive. reflexivity.
  - rewrite (getAndDeleteChallenge_dead _ _ Hlive), Hlive. reflexivity.
Qed.

(** The step machine run alone is the handler. *)
Lemma alone_is_registerVerify env request (w : World) :
  as_truthy (AuthRoute.extractChallengeFromClientData (attested request))
    = Some (presented request) ->
  alone env request w =
    (Finished (fst (AuthRoute.registerVerify env (Present (attested request))
                      (drawn_token request) (arrival request) w)),
     snd (AuthRoute.registerVerify env (Present (attested request))
            (drawn_token request) (arrival request) w)).
Proof.
  intros Hextract. rewrite (registerVerify_run _ _ _ _ _ _ Hextract).
  unfold alone, bind.
  destruct (as_truthy (stored_challenge w (presented request))) as [value|] eqn:Hlive.
  - rewrite (step_get_live _ _ _ _ Hlive), step_delete.
    destruct (as_truthy_truthy _ _ Hlive) as [Hs _]. rewrite Hs in Hlive.
    rewrite (step_finish_live _ _ _ _ _ Hlive). reflexivity.
  - rewrite (step_get_dead _ _ _ Hlive).
    rewrite (step_finish_dead _ _ _ _ Hlive).
    reflexivity.
Qed.

(** C2, as the code has it.  Consuming a challenge is a read followed by a
    separate delete.  When two verifications presenting the same live nonce
    run one after the other, the first observes the stored value and the
    second finds nothing and is answered "challenge expired or unknown";
    when the second reads before the first deletes, both observe the
    stored value and both go on to verify their responses. *)
Theorem challenge_consumption_read_then_delete env first second value (w : World) :
  presented second = presented first ->
  as_truthy (stored_challenge w (presented first)) = Some value ->
  (exists outcome w',
     interleave env first second [true; true; true; false; false; false]
       (Consuming AtGet) (Consuming AtGet) w
     = ((Finished outcome, Finished challenge_expired), w') /\
     outcome = fst (AuthRoute.registerVerify_try env (attested first) (presented first)
                      value (drawn_token first) (arrival first)
                      (record (KvDelete ("challenge:" +:+ presented first))
                         (with_kv (delete ("challenge:" +:+ presented first))
                            (record (KvGet ("challenge:" +:+ presented first)) w))))) /\
  kind challenge_expired = ChallengeExpiredOrUnknown /\
  fst (interleave env first second [true; false; true; false]
         (Consuming AtGet) (Consuming AtGet) w)
  = (Consuming (Consumed (Some value)), Consuming (Consumed (Some value))).
Proof.
  intros Hsame Hlive.
  destruct (as_truthy_truthy _ _ Hlive) as [Hs _].
  assert (Hvalue : as_truthy (Some value) = Some value)
    by (rewrite Hs in Hlive; exact Hlive).
  split; [|split; [reflexivity|]].
  - cbn [interleave]. unfold bind.
    rewrite (step_get_live _ _ _ _ Hlive), step_delete.
    rewrite (step_finish_live _ _ _ _ _ Hvalue).
    set (w3 := snd (AuthRoute.registerVerify_try _ _ _ _ _ _ _)).
    assert (Hdead : stored_challenge w3 (presented second) = None).
    { subst w3. rewrite Hsame, registerVerify_try_challenges.
      apply stored_challenge_deleted. }
    assert (Hdead' : as_truthy (stored_challenge w3 (presented second)) = None)
      by (rewrite Hdead; reflexivity).
    rewrite (step_get_dead _ _ _ Hdead'), Hdead.
    rewrite (step_finish_dead env second None _ eq_refl).
    cbn [thread_step]. unfold ret.
    eexists _, _. split; reflexivity.
  - cbn [interleave]. unfold bind.
    rewrite (step_get_live _ _ _ _ Hlive).
    assert (Hlive2 : as_truthy (stored_challenge
                                  (record (KvGet ("challenge:" +:+ presented first)) w)
                                  (presented second)) = Some value)
      by (rewrite Hsame; exact Hlive).
    rewrite (step_get_live _ _ _ _ Hlive2), !step_delete. reflexivity.
Qed.

End Consumption.

Lemma challenge_consumption_read_then_delete_witness :
  (exists outcome w',
     @interleave CounterOnlyWebAuthn example_env first_request second_request
       [true; true; true; false; false; false] (Consuming AtGet) (Consuming AtGet)
       carol_issued
     = ((Finished outcome, Finished challenge_expired), w') /\
     outcome = fst (@AuthRoute.registerVerify_try CounterOnlyWebAuthn example_env
                      (attested first_request) (presented first_request)
                      "u-carol" (drawn_token first_request) (arrival first_request)
                      (record (KvDelete ("challenge:" +:+ presented first_request))
                         (with_kv (delete ("challenge:" +:+ presented first_request))
                            (record (KvGet ("challenge:" +:+ presented first_request))
                               carol_issued))))) /\
  ApiUtils.kind challenge_expired = ApiUtils.ChallengeExpiredOrUnknown /\
  fst (@interleave CounterOnlyWebAuthn example_env first_request second_request
         [true; false; true; false] (Consuming AtGet) (Consuming AtGet) carol_issued)
  = (Consuming (Consumed (Some "u-carol")), Consuming (Consumed (Some "u-carol"))).
Proof.
  apply (@challenge_consumption_read_then_delete CounterOnlyWebAuthn example_env
           first_request second_request "u-carol" carol_issued).
  - reflexivity.
  - reflexivity.
Defined.

(** C2 as stated fails: with both reads scheduled before the deletes, two
    registrations over the one nonce are both Verified, each with its own
    credential row and session, and neither is answered "challenge expired
    or unknown". *)
Lemma both_concurrent_verifications_succeed :
  let run := @interleave CounterOnlyWebAuthn example_env first_request second_request
               [true; false; true; false; true; false]
               (Consuming AtGet) (Consuming AtGet) carol_issued in
  stored_challenge carol_issued "nonce2" = Some "u-carol" /\
  fst run =
    (Finished (ApiUtils.successResponse (VerifiedData "tok-1") None ApiUtils.HTTP_STATUS.OK),
     Finished (ApiUtils.successResponse (VerifiedData "tok-2") None ApiUtils.HTTP_STATUS.OK)) /\
  map passkey_id (Passkeys (DB (snd run))) = ["cred-1"; "cred-2"] /\
  stored_session (snd run) "tok-1" = Some "u-carol" /\
  stored_session (snd run) "tok-2" = Some "u-carol".
Proof. vm_compute. repeat split; reflexivity. Qed.

(** ** The UTF-8 encoder and decoder *)

Section Codec.
Import MessagesRoute.
Local Open Scope N_scope.
Local Open Scope list_scope.

Ltac nlia := zify; Z.to_euclidean_division_equations; lia.





Lemma land_1023 (x : N) : N.land x 1023 = x mod 1024.
Proof. change 1023 with (N.ones 10). rewrite N.land_ones. reflexivity. Qed.






Ltac split_tests :=
  repeat (match goal with
          | |- context [N.leb ?a ?b] => destruct (N.leb_spec a b)
          | |- context [N.ltb ?a ?b] => destruct (N.ltb_spec a b)
          | |- context [N.eqb ?a ?b] => destruct (N.eqb_spec a b)
          end; cbn [andb orb negb]).










Lemma list_ind_pairs {A} (P : list A -> Prop) :
  P [] -> (forall x, P [x]) -> (forall x y l, P l -> P (y :: l) -> P (x :: y :: l)) ->
  forall l, P l.
Proof.
  intros Hnil Hone Hstep l.
  assert (Hboth : P l /\ forall x, P (x :: l)).
  { induction l as [|y l [IH1 IH2]].
    - split; [exact Hnil|exact Hone].
    - split; [apply IH2|]. intros x. apply Hstep; [exact IH1|apply IH2]. }
  exact (proj1 Hboth).
Qed.

Lemma utf16_pair (u l : N) :
  is_leading u = true -> is_trailing l = true ->
  utf16 (65536 + (u - 55296) * 1024 + (l - 56320)) = [u; l] /\
  is_scalar (65536 + (u - 55296) * 1024 + (l - 56320)) = true.
Proof.
  unfold is_leading, is_trailing, utf16, is_scalar. intros Hu Hl.
  apply andb_true_iff in Hu as [Hu1 Hu2]. apply andb_true_iff in Hl as [Hl1 Hl2].
  apply N.leb_le in Hu1, Hu2, Hl1, Hl2.
  rewrite land_1023, N.shiftr_div_pow2. change (2 ^ 10) with 1024.
  split.
  - destruct (N.leb_spec (65536 + (u - 55296) * 1024 + (l - 56320)) 65535); [lia|].
    f_equal; [nlia|f_equal; nlia].
  - split_tests; try reflexivity; nlia.
Qed.

Lemma utf16_plain (u : N) :
  is_leading u = false -> is_trailing u = false -> u <= 65535 ->
  utf16 u = [u] /\ is_scalar u = true.
Proof.
  unfold is_leading, is_trailing, utf16, is_scalar. intros Hu Hl Hmax.
  destruct (N.leb_spec u 65535); [|lia]. split; [reflexivity|].
  revert Hu Hl. split_tests; intros; try discriminate; try reflexivity; lia.
Qed.

Lemma plain_unit (u : N) (rest : JsString) :
  is_leading u = false -> is_trailing u = false ->
  code_points (u :: rest) = u :: code_points rest /\
  to_well_formed (u :: rest) = u :: to_well_formed rest /\
  well_formed (u :: rest) = (u <=? 65535) && well_formed rest.
Proof.
  intros Hlead Htrail.
  change (code_points (u :: rest))
    with (if is_leading u
          then match rest with
               | l :: rest' =>
                   if is_trailing l
                   then (65536 + (u - 55296) * 1024 + (l - 56320)) :: code_points rest'
                   else 65533 :: code_points rest
               | [] => [65533]
               end
          else if is_trailing u then 65533 :: code_points rest
          else u :: code_points rest).
  change (to_well_formed (u :: rest))
    with (if is_leading u
          then match rest with
               | l :: rest' =>
                   if is_trailing l then u :: l :: to_well_formed rest'
                   else 65533 :: to_well_formed rest
               | [] => [65533]
               end
          else if is_trailing u then 65533 :: to_well_formed rest
          else u :: to_well_formed rest).
  change (well_formed (u :: rest))
    with (if is_leading u
          then match rest with
               | l :: rest' => is_trailing l && well_formed rest'
               | [] => false
               end
          else negb (is_trailing u) && (u <=? 65535) && well_formed rest).
  rewrite Hlead, Htrail. repeat split.
Qed.

Lemma well_formed_code_points (text : JsString) :
  well_formed text = true ->
  flat_map utf16 (code_points text) = text /\
  forallb is_scalar (code_points text) = true /\
  to_well_formed text = text.
Proof.
  induction text as [| u | u l rest IHrest IHtail] using list_ind_pairs.
  - intros _. repeat split.
  - cbn [well_formed code_points to_well_formed].
    destruct (is_leading u) eqn:Hlead; [discriminate|].
    destruct (is_trailing u) eqn:Htrail; [discriminate|]. cbn [negb andb].
    intros Hmax. rewrite andb_true_r in Hmax. apply N.leb_le in Hmax.
    destruct (utf16_plain u Hlead Htrail Hmax) as [H16 Hsc].
    cbn [flat_map forallb]. rewrite H16, Hsc. repeat split.
  - destruct (is_leading u) eqn:Hlead.
    + cbn [well_formed code_points to_well_formed]. rewrite Hlead.
      destruct (is_trailing l) eqn:Htrail; [|discriminate]. cbn [andb].
      intros Hrest. destruct (IHrest Hrest) as (H1 & H2 & H3).
      destruct (utf16_pair u l Hlead Htrail) as [H16 Hsc].
      cbn [flat_map forallb]. rewrite H16, Hsc, H1, H2, H3. repeat split.
    + destruct (is_trailing u) eqn:Htrail.
      { cbn [well_formed]. rewrite Hlead, Htrail. discriminate. }
      destruct (plain_unit u (l :: rest) Hlead Htrail) as (-> & -> & ->).
      intros Hrest. apply andb_true_iff in Hrest as [Hmax Hrest].
      apply N.leb_le in Hmax.
      destruct (IHtail Hrest) as (H1 & H2 & H3).
      destruct (utf16_plain u Hlead Htrail Hmax) as [H16 Hsc].
      cbn [flat_map forallb]. rewrite H16, Hsc.
      cbn [app andb]. rewrite H1, H2, H3. repeat split.
Qed.







Lemma to_well_formed_cons (u : N) (rest : JsString) :
  to_well_formed (u :: rest) =
    if is_leading u
    then match rest with
         | l :: rest' =>
             if is_trailing l then u :: l :: to_well_formed rest'
             else 65533 :: to_well_formed rest
         | [] => [65533]
         end
    else if is_trailing u then 65533 :: to_well_formed rest
    else u :: to_well_formed rest.
Proof. destruct rest; reflexivity. Qed.

(** [toWellFormed] changes no length, and every unit of its result is a
    unit of the text or U+FFFD. *)
Lemma to_well_formed_length (text : JsString) :
  List.length (to_well_formed text) = List.length text.
Proof.
  induction text as [|u|u l rest IH1 IH2] using list_ind_pairs; [reflexivity| |].
  - rewrite to_well_formed_cons. destruct (is_leading u); [reflexivity|].
    destruct (is_trailing u); reflexivity.
  - rewrite to_well_formed_cons.
    destruct (is_leading u).
    + destruct (is_trailing l); cbn [List.length]; [rewrite IH1|rewrite IH2]; reflexivity.
    + destruct (is_trailing u); cbn [List.length]; rewrite IH2; reflexivity.
Qed.

Lemma to_well_formed_units (text : JsString) (c : N) :
  In c (to_well_formed text) -> In c text \/ c = 65533.
Proof.
  induction text as [|u|u l rest IH1 IH2] using list_ind_pairs.
  - intros [].
  - rewrite to_well_formed_cons.
    destruct (is_leading u); [intros [<- | []]; right; reflexivity|].
    destruct (is_trailing u); intros [<- | []]; [right|left; left]; reflexivity.
  - rewrite to_well_formed_cons.
    destruct (is_leading u).
    + destruct (is_trailing l).
      * intros [<- | [<- | Hin]]; [left; left; reflexivity|left; right; left; reflexivity|].
        destruct (IH1 Hin) as [Hrest | ->]; [left; right; right; exact Hrest|right; reflexivity].
      * intros [<- | Hin]; [right; reflexivity|].
        destruct (IH2 Hin) as [Hrest | ->]; [left; right; exact Hrest|right; reflexivity].
    + destruct (is_trailing u).
      * intros [<- | Hin]; [right; reflexivity|].
        destruct (IH2 Hin) as [Hrest | ->]; [left; right; exact Hrest|right; reflexivity].
      * intros [<- | Hin]; [left; left; reflexivity|].
        destruct (IH2 Hin) as [Hrest | ->]; [left; right; exact Hrest|right; reflexivity].
Qed.

Lemma to_well_formed_fixed (text : JsString) :
  well_formed text = true -> to_well_formed text = text.
Proof. intros Hwf. apply (well_formed_code_points text Hwf). Qed.

End Codec.

(** ** Private-message bodies *)

Section Bodies.
Import MessagesRoute.
Local Open Scope list_scope.

Lemma total_length_from (chunks : list Bytes) (n : nat) :
  fold_left (fun acc chunk => (acc + List.length chunk)%nat) chunks n
  = (n + total_length chunks)%nat.
Proof.
  unfold total_length. revert n.
  induction chunks as [|chunk rest IH]; intros n; simpl; [lia|].
  rewrite (IH (n + List.length chunk)%nat), (IH (List.length chunk)). lia.
Qed.

Lemma total_length_cons (chunk : Bytes) (rest : list Bytes) :
  total_length (chunk :: rest) = (List.length chunk + total_length rest)%nat.
Proof. unfold total_length at 1. simpl. apply total_length_from. Qed.

Lemma array_set_at_end (done chunk : Bytes) (n : nat) :
  array_set (done ++ repeat Byte.x00 (List.length chunk + n)) chunk (List.length done)
  = Returned ((done ++ chunk) ++ repeat Byte.x00 n)%list.
Proof.
  unfold array_set.
  assert (Hfits : (List.length done + List.length chunk
                   <=? List.length (done ++ repeat Byte.x00 (List.length chunk + n)))%nat
                  = true).
  { apply Nat.leb_le. rewrite length_app, repeat_length. lia. }
  rewrite Hfits. f_equal.
  rewrite firstn_app, firstn_all, Nat.sub_diag, firstn_O, app_nil_r.
  rewrite skipn_app, skipn_all2 by lia.
  replace (List.length done + List.length chunk - List.length done)%nat
    with (List.length chunk) by lia.
  rewrite repeat_app, skipn_app, skipn_all2 by (rewrite repeat_length; lia).
  rewrite repeat_length, Nat.sub_diag, skipn_O.
  simpl. rewrite <- app_assoc. reflexivity.
Qed.

(** A write that fits leaves the length of the array as it was. *)
Lemma array_set_length (target chunk written : Bytes) (offset : nat) :
  array_set target chunk offset = Returned written ->
  (offset + List.length chunk <= List.length target)%nat /\
  List.length written = List.length target.
Proof.
  unfold array_set.
  destruct (Nat.leb_spec (offset + List.length chunk) (List.length target)) as [Hfits|];
    [|discriminate].
  intros [= <-]. split; [exact Hfits|].
  rewrite !length_app, length_firstn, length_skipn. lia.
Qed.

(** The copy loop, started after the bytes already in place. *)
Lemma copy_chunks_fills (chunks : list Bytes) (done : Bytes) (n : nat) :
  copy_chunks chunks (done ++ repeat Byte.x00 (total_length chunks + n)) (List.length done)
  = Returned (done ++ concat chunks ++ repeat Byte.x00 n)%list.
Proof.
  revert done. induction chunks as [|chunk rest IH]; intros done; simpl.
  - reflexivity.
  - rewrite total_length_cons, <- Nat.add_assoc, array_set_at_end.
    replace (List.length done + List.length chunk)%nat with (List.length (done ++ chunk))
      by (rewrite length_app; reflexivity).
    rewrite IH, <- !app_assoc. reflexivity.
Qed.

(** The copy loop into an array that is too short throws. *)
Lemma copy_chunks_short (chunks : list Bytes) (result : Bytes) (offset : nat) :
  (offset <= List.length result)%nat ->
  (List.length result < offset + total_length chunks)%nat ->
  exists message, copy_chunks chunks result offset = Threw message.
Proof.
  revert result offset. induction chunks as [|chunk rest IH]; intros result offset Hin Hshort.
  - unfold total_length in Hshort. simpl in Hshort. lia.
  - rewrite total_length_cons in Hshort. cbn [copy_chunks].
    destruct (array_set result chunk offset) as [written|message] eqn:Hset;
      [|exists message; reflexivity].
    apply array_set_length in Hset as [Hfits Hlen].
    apply IH; lia.
Qed.

(** Reading a stream to its end gives the chunks joined in order. *)
Lemma read_all_concat (chunks : list Bytes) : read_all chunks = Returned (concat chunks).
Proof.
  unfold read_all.
  pose proof (copy_chunks_fills chunks [] 0) as Hfill.
  simpl in Hfill. rewrite Nat.add_0_r, app_nil_r in Hfill. exact Hfill.
Qed.

(** The loop that reads the body stream of a fetched object returns the
    chunks joined in the order they arrived, and these are exactly as many
    bytes as the array allocated for them.  The copy fills the front of a
    longer array and leaves the rest zero; into a shorter array it throws. *)
Theorem stream_read_joins_chunks (chunks : list Bytes) :
  read_all chunks = Returned (concat chunks) /\
  List.length (concat chunks) = total_length chunks /\
  (forall k, copy_chunks chunks (repeat Byte.x00 (total_length chunks + k)) 0
             = Returned (concat chunks ++ repeat Byte.x00 k)) /\
  (forall n, (n < total_length chunks)%nat ->
             exists message, copy_chunks chunks (repeat Byte.x00 n) 0 = Threw message).
Proof.
  split; [apply read_all_concat|]. split; [|split].
  - induction chunks as [|chunk rest IH]; [reflexivity|].
    rewrite total_length_cons. simpl. rewrite length_app, IH. reflexivity.
  - intros k. exact (copy_chunks_fills chunks [] k).
  - intros n Hshort. apply copy_chunks_short; [lia|].
    rewrite repeat_length. lia.
Qed.




(** ** Tables *)

Lemma next_id_fresh (ids : list Z) (z : Z) : In z ids -> z < next_id ids.
Proof.
  unfold next_id. induction ids as [|i rest IH]; simpl; [contradiction|].
  intros [-> | Hin]; [lia|]. specialize (IH Hin). lia.
Qed.

Lemma find_map_stable {A} (p : A -> bool) (f : A -> A) (l : list A) :
  (forall x, p (f x) = p x) -> find p (map f l) = f <$> find p l.
Proof.
  intros Hp. induction l as [|x rest IH]; simpl; [reflexivity|].
  rewrite Hp. destruct (p x); [reflexivity|exact IH].
Qed.

Lemma find_app_last {A} (p : A -> bool) (l : list A) (y : A) :
  (forall x, In x l -> p x = false) -> p y = true -> find p (l ++ [y]) = Some y.
Proof.
  intros Hnone Hy. induction l as [|x rest IH]; simpl.
  - rewrite Hy. reflexivity.
  - rewrite (Hnone x (or_introl eq_refl)). apply IH.
    intros z Hz. apply Hnone. right. exact Hz.
Qed.

Lemma find_unique_key {A} (key : A -> Z) (l : list A) (c : A) :
  List.NoDup (map key l) -> In c l -> find (fun x => key x =? key c) l = Some c.
Proof.
  induction l as [|x rest IH]; simpl; [contradiction|].
  intros Hnodup Hin. inversion Hnodup as [|k ks Hfresh Hrest]; subst.
  destruct Hin as [-> | Hin].
  - rewrite Z.eqb_refl. reflexivity.
  - destruct (Z.eqb_spec (key x) (key c)) as [Heq|_].
    + exfalso. apply Hfresh. rewrite Heq. apply in_map. exact Hin.
    + apply IH; assumption.
Qed.

Lemma existsb_find_some {A} (p : A -> bool) (l : list A) :
  existsb p l = true -> exists x, find p l = Some x /\ p x = true.
Proof.
  induction l as [|x rest IH]; simpl; [discriminate|].
  destruct (p x) eqn:Hp; [intros _; exists x; split; [reflexivity|exact Hp]|exact IH].
Qed.

End Bodies.

Section Send.
Context `{MessagesRoute.MessagePlatform}.
Import MessagesRoute ApiUtils.
Local Open Scope list_scope.

Lemma touch_keeps_id conversation now excerpt flag (c : Conversation) :
  conv_id (touch_conversation conversation now excerpt flag c) = conv_id c.
Proof. unfold touch_conversation. destruct (conv_id c =? conversation); reflexivity. Qed.

Lemma touch_keeps_users conversation now excerpt flag (c : Conversation) :
  user1_id (touch_conversation conversation now excerpt flag c) = user1_id c /\
  user2_id (touch_conversation conversation now excerpt flag c) = user2_id c.
Proof. unfold touch_conversation. destruct (conv_id c =? conversation); split; reflexivity. Qed.



(** ** Listing a conversation *)

Lemma in_firstn_in {A} (n : nat) (l : list A) (x : A) : In x (firstn n l) -> In x l.
Proof.
  revert l. induction n as [|n IH]; intros [|y l]; simpl; try contradiction.
  intros [-> | Hin]; [left; reflexivity|right; apply IH; exact Hin].
Qed.

Lemma in_skipn_in {A} (n : nat) (l : list A) (x : A) : In x (skipn n l) -> In x l.
Proof.
  revert l. induction n as [|n IH]; intros [|y l]; simpl; try contradiction.
  - intros Hin; exact Hin.
  - intros Hin. right. apply IH. exact Hin.
Qed.

Lemma insert_by_time_In (x m : MessageView) (sorted : list MessageView) :
  In x (insert_by_time m sorted) <-> x = m \/ In x sorted.
Proof.
  induction sorted as [|y rest IH]; simpl.
  - intuition congruence.
  - destruct (view_created_at y <? view_created_at m); simpl; rewrite ?IH;
      intuition congruence.
Qed.

Lemma order_by_created_at_In (x : MessageView) (rows : list MessageView) :
  In x (order_by_created_at rows) <-> In x rows.
Proof.
  unfold order_by_created_at. induction rows as [|y rest IH]; simpl; [reflexivity|].
  rewrite insert_by_time_In, IH. intuition congruence.
Qed.





Lemma listed_from_rows viewer conversationId page pageSize (m : Mail) entry :
  In entry (listed (fst (list_messages viewer conversationId page pageSize m))) ->
  exists row, In row (joined_rows conversationId m) /\ entry = load_body m row.
Proof.
  unfold list_messages.
  destruct (find _ (conversations m)) as [conversation|]; [|contradiction].
  destruct (negb _ && negb _); [contradiction|].
  unfold listed. cbn [fst body successResponse listing_data].
  intros Hin. apply in_map_iff in Hin as (row & <- & Hrow).
  exists row. split; [|reflexivity].
  apply in_firstn_in, in_skipn_in in Hrow.
  apply (proj1 (order_by_created_at_In _ _)) in Hrow. exact Hrow.
Qed.

(** ** What later calls preserve *)


Lemma clear_keeps conversation flag (c : Conversation) :
  conv_id (clear_unread conversation flag c) = conv_id c /\
  user1_id (clear_unread conversation flag c) = user1_id c /\
  user2_id (clear_unread conversation flag c) = user2_id c.
Proof. unfold clear_unread. destruct (conv_id c =? conversation); repeat split. Qed.


Section Kept.
Variable users : list User.
Variable row : PrivateMessage.
Variable content : Bytes.
Variable partner : string.







End Kept.



End Send.



(** The example, run: the row holds the key, the listing shows the text,
    to the recipient and to the sender. *)
Example sent_then_listed :
  map MessagesRoute.pm_body
    (MessagesRoute.messages
       (snd (MessagesRoute.send alice "root" example_text example_uuid 1700000300
               example_mail)))
  = [body_key example_uuid] /\
  listed (fst (@MessagesRoute.list_messages ChunkedPlatform root 1 1 20
                 (snd (MessagesRoute.send alice "root" example_text example_uuid 1700000300
                         example_mail))))
  = [MessagesRoute.mkMessageView 1 example_text 1700000300 "alice"] /\
  listed (fst (@MessagesRoute.list_messages ChunkedPlatform alice 1 1 20 example_later))
  = [MessagesRoute.mkMessageView 1 example_text 1700000300 "alice"].
Proof. vm_compute. repeat split; reflexivity. Qed.


(** A stored text that is not a key is shown as it is: a row written
    before the keys were introduced. *)
Example legacy_text_is_shown :
  @MessagesRoute.load_body ChunkedPlatform example_mail
    (MessagesRoute.mkMessageView 7 (MessagesRoute.units "hello") 1600000000 "alice")
  = MessagesRoute.mkMessageView 7 (MessagesRoute.units "hello") 1600000000 "alice".
Proof. reflexivity. Qed.

(** ** Malformed requests *)

Section MoreAuth.
Context `{Platform} `{WebAuthn} `{PasskeysLib}.
Import ApiUtils.

(** A verify request whose body does not parse, carries no response, or
    carries a response from which no challenge can be extracted is answered
    with a validation error (422) by each of the three verify handlers, and
    the world is returned as it was: the stores are not read, no challenge
    is consumed. *)
Theorem malformed_verify_touches_nothing env (body : Body CredentialJSON) token now
    (w : World) :
  body = InvalidJson \/ body = Missing \/
  (exists response, body = Present response /\
     as_truthy (AuthRoute.extractChallengeFromClientData response) = None) ->
  (kind (fst (AuthRoute.registerVerify env body token now w)) = MalformedInput /\
   status (fst (AuthRoute.registerVerify env body token now w))
     = HTTP_STATUS.UNPROCESSABLE_ENTITY /\
   snd (AuthRoute.registerVerify env body token now w) = w) /\
  (kind (fst (AuthRoute.loginVerify env body token w)) = MalformedInput /\
   snd (AuthRoute.loginVerify env body token w) = w) /\
  (kind (fst (AdminRoute.loginVerify env body token w)) = MalformedInput /\
   snd (AdminRoute.loginVerify env body token w) = w).
Proof.
  intros [-> | [-> | (response & -> & Hnone)]].
  - repeat split.
  - repeat split.
  - unfold AuthRoute.registerVerify, AuthRoute.loginVerify, AdminRoute.loginVerify.
    change (AdminRoute.extractChallenge response)
      with (AuthRoute.extractChallengeFromClientData response).
    rewrite Hnone. repeat split.
Qed.

End MoreAuth.

Lemma malformed_verify_touches_nothing_witness :
  ApiUtils.kind (fst (@AuthRoute.registerVerify PlainPlatform CounterOnlyWebAuthn example_env
                        (Present (attestation "cred-9" "")) "tok-1" 1700000200 issued_world))
    = ApiUtils.MalformedInput /\
  snd (@AuthRoute.loginVerify PlainPlatform CounterOnlyWebAuthn D1Passkeys example_env
         InvalidJson "tok-1" issued_world) = issued_world.
Proof.
  split.
  - apply (@malformed_verify_touches_nothing PlainPlatform CounterOnlyWebAuthn D1Passkeys
             example_env (Present (attestation "cred-9" "")) "tok-1" 1700000200
             issued_world).
    right. right. exists (attestation "cred-9" ""). split; reflexivity.
  - apply (@malformed_verify_touches_nothing PlainPlatform CounterOnlyWebAuthn D1Passkeys
             example_env InvalidJson "tok-1" 1700000200 issued_world).
    left. reflexivity.
Defined.

(** ** A successful login *)

Section LoginSuccess.
Context `{Platform} `{WebAuthn} `{PasskeysLib}.
Import ApiUtils.

(** [POST /login/verify] on a body whose response carries [nonce]. *)
Lemma loginVerify_run env (response : AuthenticationResponseJSON) nonce token (w : World) :
  as_truthy (AuthRoute.extractChallengeFromClientData response) = Some nonce ->
  AuthRoute.loginVerify env (Present response) token w =
    match as_truthy (stored_challenge w nonce) with
    | Some _ =>
        let consumed :=
          record (CallGetPasskeyById (id response))
            (record (KvDelete ("challenge:" +:+ nonce))
               (with_kv (delete ("challenge:" +:+ nonce))
                  (record (KvGet ("challenge:" +:+ nonce)) w))) in
        match getPasskeyById (DB w) (id response) with
        | Some passkey => AuthRoute.loginVerify_try env response nonce passkey token consumed
        | None => (errors.notFound "凭证", consumed)
        end
    | None =>
        (errorResponse "挑战已过期或不存在" AUTH_SESSION_EXPIRED HTTP_STATUS.BAD_REQUEST None,
         record (KvGet ("challenge:" +:+ nonce)) w)
    end.
Proof.
  intros Hextract. unfold AuthRoute.loginVerify. rewrite Hextract. unfold bind.
  destruct (as_truthy (stored_challenge w nonce)) as [value|] eqn:Hlive.
  - rewrite (getAndDeleteChallenge_live _ _ _ Hlive).
    destruct (as_truthy_truthy _ _ Hlive) as [Hs _]. rewrite Hs in Hlive.
    rewrite Hlive. unfold call_getPasskeyById. cbv beta iota zeta.
    change (DB (record _ (with_kv _ (record _ w)))) with (DB w).
    destruct (getPasskeyById (DB w) (id response)); reflexivity.
  - rewrite (getAndDeleteChallenge_dead _ _ Hlive), Hlive. reflexivity.
Qed.

(** The run of a login whose assertion the library verifies. *)
Lemma loginVerify_success_run env (response : AuthenticationResponseJSON) nonce value token
    passkey verification (w : World) :
  as_truthy (AuthRoute.extractChallengeFromClientData response) = Some nonce ->
  as_truthy (stored_challenge w nonce) = Some value ->
  getPasskeyById (DB w) (id response) = Some passkey ->
  verifyAuthenticationResponse response nonce (AuthRoute.getOrigin env)
    (AuthRoute.getRpID env)
    (mkAuthenticatorDevice (passkey_id passkey) (pubkey_blob passkey) (sign_counter passkey))
    false = Returned verification ->
  auth_verified verification = true ->
  AuthRoute.loginVerify env (Present response) token w =
    (successResponse (VerifiedData token) None HTTP_STATUS.OK,
     mkWorld
       (<["session:" +:+ token := mkKvEntry (passkey_user_id passkey) AuthRoute.SESSION_TTL]>
          (delete ("challenge:" +:+ nonce) (KV_SESSIONS w)))
       (mkDatabase (Users (DB w))
          (map (set_counter (passkey_id passkey) (newCounter verification))
             (Passkeys (DB w))))
       (log w ++ [KvGet ("challenge:" +:+ nonce); KvDelete ("challenge:" +:+ nonce);
                  CallGetPasskeyById (id response);
                  UpdateSignCounter (passkey_id passkey) (newCounter verification);
                  KvPut ("session:" +:+ token) (passkey_user_id passkey)
                    AuthRoute.SESSION_TTL])%list).
Proof.
  intros Hextract Hlive Hpasskey Hlib Hverified.
  rewrite (loginVerify_run _ _ _ _ _ Hextract), Hlive, Hpasskey. cbv zeta.
  unfold AuthRoute.loginVerify_try. rewrite Hlib, Hverified.
  cbn [negb]. cbv beta iota.
  unfold AuthRoute.createSession, bind, ret, update_sign_counter, kv_put, record, with_kv,
    with_db.
  cbn [KV_SESSIONS DB log]. rewrite <- !app_assoc. reflexivity.
Qed.

(** A login whose assertion the library verifies changes exactly three
    things: the challenge record is gone, the credential that was used
    carries the counter the library reported, and a session for the
    credential's owner is stored under the new token for 24 hours.  Every
    other key of the key-value store, the users and the other credentials
    are as before. *)
Theorem successful_login_postcondition env (response : AuthenticationResponseJSON) nonce
    value token passkey verification (w : World) :
  as_truthy (AuthRoute.extractChallengeFromClientData response) = Some nonce ->
  as_truthy (stored_challenge w nonce) = Some value ->
  getPasskeyById (DB w) (id response) = Some passkey ->
  verifyAuthenticationResponse response nonce (AuthRoute.getOrigin env)
    (AuthRoute.getRpID env)
    (mkAuthenticatorDevice (passkey_id passkey) (pubkey_blob passkey) (sign_counter passkey))
    false = Returned verification ->
  auth_verified verification = true ->
  let done := AuthRoute.loginVerify env (Present response) token w in
  fst done = successResponse (VerifiedData token) None HTTP_STATUS.OK /\
  stored_challenge (snd done) nonce = None /\
  KV_SESSIONS (snd done) !! ("session:" +:+ token)
    = Some (mkKvEntry (passkey_user_id passkey) 86400) /\
  (forall key, key <> "challenge:" +:+ nonce -> key <> "session:" +:+ token ->
     KV_SESSIONS (snd done) !! key = KV_SESSIONS w !! key) /\
  Users (DB (snd done)) = Users (DB w) /\
  List.length (Passkeys (DB (snd done))) = List.length (Passkeys (DB w)) /\
  (forall i row, nth_error (Passkeys (DB w)) i = Some row ->
     nth_error (Passkeys (DB (snd done))) i =
       Some (if String.eqb (passkey_id row) (passkey_id passkey)
             then mkPasskey (passkey_id row) (passkey_user_id row) (pubkey_blob row)
                    (newCounter verification) (passkey_created_at row)
             else row)).
Proof.
  intros Hextract Hlive Hpasskey Hlib Hverified done. subst done.
  rewrite (loginVerify_success_run _ _ _ _ _ _ _ _ Hextract Hlive Hpasskey Hlib Hverified).
  cbn [fst snd KV_SESSIONS DB Users Passkeys].
  split; [reflexivity|]. split.
  - unfold stored_challenge. cbn [KV_SESSIONS].
    rewrite lookup_insert_ne by apply session_key_not_challenge_key.
    rewrite lookup_delete_eq. reflexivity.
  - split; [apply lookup_insert_eq|]. split.
    + intros key Hc Hs. rewrite lookup_insert_ne by congruence.
      rewrite lookup_delete_ne by congruence. reflexivity.
    + split; [reflexivity|]. split; [apply length_map|].
      intros i row Hrow. rewrite nth_error_map, Hrow. reflexivity.
Qed.

(** The token a successful login returns resolves, through [GET /session],
    to the columns of the credential's owner, when the owner has a row. *)
Theorem login_token_resolves_to_owner env (response : AuthenticationResponseJSON) nonce
    value token passkey verification owner (w : World) :
  as_truthy (AuthRoute.extractChallengeFromClientData response) = Some nonce ->
  as_truthy (stored_challenge w nonce) = Some value ->
  getPasskeyById (DB w) (id response) = Some passkey ->
  verifyAuthenticationResponse response nonce (AuthRoute.getOrigin env)
    (AuthRoute.getRpID env)
    (mkAuthenticatorDevice (passkey_id passkey) (pubkey_blob passkey) (sign_counter passkey))
    false = Returned verification ->
  auth_verified verification = true ->
  includes_char " " token = false ->
  passkey_user_id passkey <> "" ->
  user_row w (passkey_user_id passkey) = Some owner ->
  let done := AuthRoute.loginVerify env (Present response) token w in
  fst done = successResponse (VerifiedData token) None HTTP_STATUS.OK /\
  fst (AuthRoute.session (Some ("Bearer " +:+ token)) (snd done))
  = successResponse (SessionData true (Some (session_user owner))) None HTTP_STATUS.OK.
Proof.
  intros Hextract Hlive Hpasskey Hlib Hverified Hno Hid Howner done. subst done.
  rewrite (loginVerify_success_run _ _ _ _ _ _ _ _ Hextract Hlive Hpasskey Hlib Hverified).
  cbn [fst snd]. split; [reflexivity|].
  erewrite session_resolved; [reflexivity|exact Hno| |exact Howner].
  unfold stored_session. cbn [KV_SESSIONS]. rewrite lookup_insert_eq.
  cbn [fmap option_fmap option_map kv_value]. apply as_truthy_nonempty. exact Hid.
Qed.

End LoginSuccess.

Lemma successful_login_postcondition_witness :
  let done := @AuthRoute.loginVerify PlainPlatform CounterOnlyWebAuthn D1Passkeys example_env
                (Present (assertion "cred-alice" "nonce1" "123456")) "tok-1" issued_world in
  stored_challenge (snd done) "nonce1" = None /\
  sign_counter <$> d1_getPasskeyById (DB (snd done)) "cred-alice" = Some 6.
Proof.
  intros done.
  destruct (@successful_login_postcondition PlainPlatform CounterOnlyWebAuthn D1Passkeys
              example_env (assertion "cred-alice" "nonce1" "123456") "nonce1" "true" "tok-1"
              alice_key (mkVerifiedAuthentication true 6) issued_world
              eq_refl eq_refl eq_refl eq_refl eq_refl)
    as (_ & Hgone & _ & _ & _ & _ & _).
  split; [exact Hgone|reflexivity].
Defined.

Lemma login_token_resolves_to_owner_witness :
  let done := @AuthRoute.loginVerify PlainPlatform CounterOnlyWebAuthn D1Passkeys example_env
                (Present (assertion "cred-alice" "nonce1" "123456")) "tok-1" issued_world in
  fst done = ApiUtils.successResponse (VerifiedData "tok-1") None ApiUtils.HTTP_STATUS.OK /\
  fst (AuthRoute.session (Some ("Bearer " +:+ "tok-1")) (snd done))
  = ApiUtils.successResponse (SessionData true (Some (session_user alice))) None
      ApiUtils.HTTP_STATUS.OK.
Proof.
  apply (@login_token_resolves_to_owner PlainPlatform CounterOnlyWebAuthn D1Passkeys
           example_env (assertion "cred-alice" "nonce1" "123456") "nonce1" "true" "tok-1"
           alice_key (mkVerifiedAuthentication true 6) alice issued_world);
    try reflexivity.
  discriminate.
Defined.

(** ** Logging out, then resolving *)

Section AfterLogout.
Context `{Platform} `{WebAuthn} `{PasskeysLib}.
Import ApiUtils.

(** After [POST /logout] with a token, the token no longer resolves: the
    next [GET /session] answers [valid: false] and the admin middleware
    answers Unauthorized, whatever the token was bound to before. *)
Theorem logout_ends_the_session (token : string) (w : World) :
  includes_char " " token = false ->
  token <> "" ->
  let header := Some ("Bearer " +:+ token) in
  let after := snd (AuthRoute.logout header w) in
  fst (AuthRoute.session header after) = invalid_session /\
  fst (AdminRoute.adminAuthMiddleware header after)
  = AdminRoute.Rejected (errors.unauthorized "会话已过期或无效") /\
  DB after = DB w /\
  (forall key, key <> "session:" +:+ token ->
     KV_SESSIONS after !! key = KV_SESSIONS w !! key).
Proof.
  intros Hno Hne header after. subst after header.
  rewrite logout_run, (bearer_token_plain _ Hno). cbn [snd].
  rewrite session_absent, admin_absent; try assumption.
  2, 3: rewrite stored_session_deleted; reflexivity.
  repeat split.
  intros key Hkey. cbn [KV_SESSIONS record with_kv].
  rewrite lookup_delete_ne by congruence. reflexivity.
Qed.

End AfterLogout.

Lemma logout_ends_the_session_witness :
  fst (AuthRoute.session (Some ("Bearer " +:+ "tok-alice"))
         (snd (AuthRoute.logout (Some ("Bearer " +:+ "tok-alice")) logged_in_world)))
  = invalid_session.
Proof.
  apply (logout_ends_the_session "tok-alice" logged_in_world).
  - reflexivity.
  - discriminate.
Defined.

(** ** The gate in front of the admin routes *)

Section AdminGate.
Context `{Platform} `{WebAuthn} `{PasskeysLib}.
Import ApiUtils.

(** The admin middleware calls the next handler only for a header of
    exactly two space-separated parts, [Bearer] and a non-empty token, whose
    token is bound to a stored session of a user that has a row and whose
    role or name is "admin"; it then attaches that row and leaves both
    stores as they are.  A missing or empty header, a header of another
    shape, or an empty token is answered Unauthorized without any store
    access. *)
Theorem admin_middleware_gate (header : option string) (w : World) :
  (forall user,
     fst (AdminRoute.adminAuthMiddleware header w) = AdminRoute.Next user ->
     exists text token userId,
       header = Some text /\
       split_space text = ["Bearer"; token] /\
       token <> "" /\
       as_truthy (stored_session w token) = Some userId /\
       user_row w userId = Some user /\
       (role user = "admin" \/ username user = "admin") /\
       KV_SESSIONS (snd (AdminRoute.adminAuthMiddleware header w)) = KV_SESSIONS w /\
       DB (snd (AdminRoute.adminAuthMiddleware header w)) = DB w) /\
  (as_truthy header = None \/
   (exists text, header = Some text /\
      (List.length (split_space text) <> 2%nat \/
       nth 0 (split_space text) "" <> "Bearer" \/
       nth 1 (split_space text) "" = "")) ->
   exists answer,
     AdminRoute.adminAuthMiddleware header w = (AdminRoute.Rejected answer, w) /\
     kind answer = Unauthorized).
Proof.
  split.
  - intros user. unfold AdminRoute.adminAuthMiddleware.
    destruct (as_truthy header) as [text|] eqn:Hheader; [|discriminate].
    apply as_truthy_truthy in Hheader as [-> _].
    destruct (Nat.eqb_spec (List.length (split_space text)) 2) as [Hlen|];
      [|discriminate].
    destruct (String.eqb_spec (nth 0 (split_space text) "") "Bearer") as [Hfirst|];
      [|discriminate].
    cbn [negb orb]. cbv beta iota zeta.
    destruct (String.eqb_spec (nth 1 (split_space text) "") "") as [|Htoken];
      [discriminate|].
    unfold bind, kv_get. cbv beta iota.
    fold (stored_session w (nth 1 (split_space text) "")).
    destruct (as_truthy (stored_session w (nth 1 (split_space text) ""))) as [userId|]
      eqn:Hbound; [|discriminate].
    unfold select_user_by_id. cbv beta iota.
    change (find _ (Users (DB (record _ w)))) with (user_row w userId).
    destruct (user_row w userId) as [row|] eqn:Hrow; [|discriminate].
    destruct (AdminRoute.not_admin row) eqn:Hadmin; [discriminate|].
    cbn [fst snd ret]. intros [= <-].
    exists text, (nth 1 (split_space text) ""), userId.
    split; [reflexivity|]. split.
    { destruct (split_space text) as [|a [|b [|c rest]]]; try discriminate.
      cbn [nth] in Hfirst. rewrite Hfirst. reflexivity. }
    split; [exact Htoken|]. split; [exact Hbound|]. split; [exact Hrow|].
    split; [|split; reflexivity].
    unfold AdminRoute.not_admin in Hadmin.
    apply andb_false_iff in Hadmin as [Hr | Hn];
      apply negb_false_iff, String.eqb_eq in Hr || apply negb_false_iff, String.eqb_eq in Hn;
      [left; exact Hr|right; exact Hn].
  - unfold AdminRoute.adminAuthMiddleware.
    intros [-> | (text & -> & Hshape)].
    + eexists. split; reflexivity.
    + destruct (as_truthy (Some text)) as [text'|] eqn:Hheader;
        [|eexists; split; reflexivity].
      apply as_truthy_truthy in Hheader as [[= <-] _].
      destruct (Nat.eqb_spec (List.length (split_space text)) 2) as [Hlen|];
        [|eexists; split; reflexivity].
      destruct (String.eqb_spec (nth 0 (split_space text) "") "Bearer") as [Hfirst|];
        [|eexists; split; reflexivity].
      cbn [negb orb]. cbv beta iota zeta.
      destruct (String.eqb_spec (nth 1 (split_space text) "") "") as [|Htoken];
        [eexists; split; reflexivity|].
      destruct Hshape as [Hs | [Hs | Hs]]; contradiction.
Qed.

End AdminGate.

Lemma admin_middleware_gate_witness :
  exists answer,
    AdminRoute.adminAuthMiddleware (Some "Bearer tok-alice extra") logged_in_world
    = (AdminRoute.Rejected answer, logged_in_world) /\
    ApiUtils.kind answer = ApiUtils.Unauthorized.
Proof.
  apply (proj2 (admin_middleware_gate (Some "Bearer tok-alice extra") logged_in_world)).
  right. exists "Bearer tok-alice extra". split; [reflexivity|].
  left. vm_compute. discriminate.
Defined.

(** ** A successful admin login *)

Section AdminSuccess.
Context `{Platform} `{WebAuthn} `{PasskeysLib}.
Import ApiUtils.

Lemma admin_loginVerify_run env (response : AuthenticationResponseJSON) nonce token
    (w : World) :
  as_truthy (AdminRoute.extractChallenge response) = Some nonce ->
  AdminRoute.loginVerify env (Present response) token w =
    match as_truthy (stored_challenge w nonce) with
    | Some _ =>
        let looked :=
          record (CallGetPasskeyById (id response))
            (record (KvGet ("challenge:" +:+ nonce)) w) in
        match getPasskeyById (DB w) (id response) with
        | Some passkey => AdminRoute.loginVerify_try env response nonce passkey token looked
        | None => (errors.notFound "凭证", looked)
        end
    | None =>
        (errorResponse "挑战已过期或不存在" AUTH_SESSION_EXPIRED HTTP_STATUS.BAD_REQUEST None,
         record (KvGet ("challenge:" +:+ nonce)) w)
    end.
Proof.
  intros Hextract. unfold AdminRoute.loginVerify. rewrite Hextract.
  unfold bind, kv_get. cbv beta iota. fold (stored_challenge w nonce).
  destruct (as_truthy (stored_challenge w nonce)); [|reflexivity].
  unfold call_getPasskeyById. cbv beta iota zeta.
  change (DB (record _ w)) with (DB w).
  destruct (getPasskeyById (DB w) (id response)); reflexivity.
Qed.

(** An admin login whose assertion the library verifies, for a credential
    whose owner has a row with role or name "admin", stores a session bound
    to the owner for 24 hours, sets the counter of the credential to the
    reported one and deletes the challenge: the next admin login that
    presents the same nonce is answered "challenge expired or unknown". *)
Theorem successful_admin_login_consumes_challenge env
    (response replay : AuthenticationResponseJSON) nonce value token token' passkey
    verification owner (w : World) :
  as_truthy (AdminRoute.extractChallenge response) = Some nonce ->
  as_truthy (AdminRoute.extractChallenge replay) = Some nonce ->
  as_truthy (stored_challenge w nonce) = Some value ->
  getPasskeyById (DB w) (id response) = Some passkey ->
  verifyAuthenticationResponse response nonce (AdminRoute.getOrigin env)
    (AdminRoute.getRpID env)
    (mkAuthenticatorDevice (passkey_id passkey) (pubkey_blob passkey) (sign_counter passkey))
    false = Returned verification ->
  auth_verified verification = true ->
  user_row w (passkey_user_id passkey) = Some owner ->
  role owner = "admin" \/ username owner = "admin" ->
  let done := AdminRoute.loginVerify env (Present response) token w in
  fst done = successResponse (VerifiedData token) None HTTP_STATUS.OK /\
  KV_SESSIONS (snd done) !! ("session:" +:+ token)
    = Some (mkKvEntry (passkey_user_id passkey) 86400) /\
  stored_challenge (snd done) nonce = None /\
  Passkeys (DB (snd done))
    = map (set_counter (passkey_id passkey) (newCounter verification)) (Passkeys (DB w)) /\
  kind (fst (AdminRoute.loginVerify env (Present replay) token' (snd done)))
    = ChallengeExpiredOrUnknown.
Proof.
  intros Hextract Hreplay Hlive Hpasskey Hlib Hverified Howner Hadmin done.
  assert (Hid : user_id owner = passkey_user_id passkey).
  { unfold user_row in Howner. apply find_some in Howner as [_ Heq].
    apply String.eqb_eq in Heq. exact Heq. }
  assert (Hnot : AdminRoute.not_admin owner = false).
  { unfold AdminRoute.not_admin. destruct Hadmin as [-> | ->]; simpl;
      [reflexivity|apply andb_false_r]. }
  assert (Hrun : done =
            (successResponse (VerifiedData token) None HTTP_STATUS.OK,
             mkWorld
               (<["session:" +:+ token
                  := mkKvEntry (passkey_user_id passkey) AdminRoute.ADMIN_SESSION_TTL]>
                  (delete ("challenge:" +:+ nonce) (KV_SESSIONS w)))
               (mkDatabase (Users (DB w))
                  (map (set_counter (passkey_id passkey) (newCounter verification))
                     (Passkeys (DB w))))
               (log w ++ [KvGet ("challenge:" +:+ nonce); CallGetPasskeyById (id response);
                          SelectUserById (passkey_user_id passkey);
                          UpdateSignCounter (passkey_id passkey) (newCounter verification);
                          KvDelete ("challenge:" +:+ nonce);
                          KvPut ("session:" +:+ token) (passkey_user_id passkey)
                            AdminRoute.ADMIN_SESSION_TTL])%list)).
  { subst done.
    rewrite (admin_loginVerify_run _ _ _ _ _ Hextract), Hlive, Hpasskey. cbv zeta.
    unfold AdminRoute.loginVerify_try. rewrite Hlib, Hverified.
    cbn [negb]. cbv beta iota.
    unfold bind, select_user_by_id. cbv beta iota.
    change (find _ (Users (DB (record _ (record _ w)))))
      with (user_row w (passkey_user_id passkey)).
    rewrite Howner, Hnot, Hid.
    unfold ret, update_sign_counter, kv_put, kv_delete, record, with_kv, with_db.
    cbn [KV_SESSIONS DB log]. rewrite <- !app_assoc. reflexivity. }
  rewrite Hrun. cbn [fst snd KV_SESSIONS DB Passkeys].
  split; [reflexivity|]. split; [apply lookup_insert_eq|].
  assert (Hgone : forall ops db,
             stored_challenge
               (mkWorld (<["session:" +:+ token
                           := mkKvEntry (passkey_user_id passkey)
                                AdminRoute.ADMIN_SESSION_TTL]>
                           (delete ("challenge:" +:+ nonce) (KV_SESSIONS w))) db ops)
               nonce = None).
  { intros ops db. unfold stored_challenge. cbn [KV_SESSIONS].
    rewrite lookup_insert_ne by apply session_key_not_challenge_key.
    rewrite lookup_delete_eq. reflexivity. }
  split; [apply Hgone|]. split; [reflexivity|].
  rewrite (admin_loginVerify_run _ _ _ _ _ Hreplay), Hgone. reflexivity.
Qed.

End AdminSuccess.

Lemma successful_admin_login_consumes_challenge_witness :
  let done := @AdminRoute.loginVerify PlainPlatform CounterOnlyWebAuthn D1Passkeys
                example_env (Present (assertion "cred-root" "nonce1" "1")) "tok-1"
                issued_world in
  fst done = ApiUtils.successResponse (VerifiedData "tok-1") None ApiUtils.HTTP_STATUS.OK /\
  KV_SESSIONS (snd done) !! ("session:" +:+ "tok-1") = Some (mkKvEntry "u-root" 86400) /\
  stored_challenge (snd done) "nonce1" = None /\
  Passkeys (DB (snd done)) = map (set_counter "cred-root" 1) (Passkeys (DB issued_world)) /\
  ApiUtils.kind (fst (@AdminRoute.loginVerify PlainPlatform CounterOnlyWebAuthn D1Passkeys
                        example_env (Present (assertion "cred-root" "nonce1" "12")) "tok-2"
                        (snd done)))
    = ApiUtils.ChallengeExpiredOrUnknown.
Proof.
  apply (@successful_admin_login_consumes_challenge PlainPlatform CounterOnlyWebAuthn
           D1Passkeys example_env (assertion "cred-root" "nonce1" "1")
           (assertion "cred-root" "nonce1" "12") "nonce1" "true" "tok-1" "tok-2" root_key
           (mkVerifiedAuthentication true 1) root issued_world);
    try reflexivity.
  left. reflexivity.
Defined.

(** ** Registration when the INSERT fails; challenges from issue to verify *)

Section RegisterFailure.
Context `{Platform} `{WebAuthn} `{PasskeysLib}.
Import ApiUtils.

Lemma user_row_None_existsb (w : World) (userId : string) :
  user_row w userId = None ->
  existsb (fun u => String.eqb (user_id u) userId) (Users (DB w)) = false.
Proof.
  unfold user_row. induction (Users (DB w)) as [|u rest IH]; [reflexivity|].
  simpl. destruct (String.eqb (user_id u) userId); [discriminate|]. exact IH.
Qed.

(** A registration the library verified, whose credential id is already a
    row of [Passkeys] or whose challenge was stored with a user id that has
    no row of [Users]: the INSERT throws, the answer is the 400 of the
    [catch] block, the database is what it was, no session is stored, and
    the challenge has been consumed all the same. *)
Theorem registration_insert_failure env (response : RegistrationResponseJSON) nonce userId
    verification info token now (w : World) :
  as_truthy (AuthRoute.extractChallengeFromClientData response) = Some nonce ->
  as_truthy (stored_challenge w nonce) = Some userId ->
  verifyRegistrationResponse response nonce (AuthRoute.getOrigin env)
    (AuthRoute.getRpID env) false = Returned verification ->
  reg_verified verification = true ->
  registrationInfo verification = Some info ->
  (exists held, In held (Passkeys (DB w)) /\ passkey_id held = reg_credentialID info) \/
  user_row w userId = None ->
  let done := AuthRoute.registerVerify env (Present response) token now w in
  kind (fst done) = CryptographicVerificationFailed /\
  status (fst done) = 400 /\
  DB (snd done) = DB w /\
  KV_SESSIONS (snd done) = delete ("challenge:" +:+ nonce) (KV_SESSIONS w).
Proof.
  intros Hextract Hlive Hlib Hverified Hinfo Hfail done. subst done.
  rewrite (registerVerify_run _ _ _ _ _ _ Hextract), Hlive.
  unfold AuthRoute.registerVerify_try. rewrite Hlib, Hverified, Hinfo.
  unfold bind, insert_passkey. cbv beta iota zeta.
  cbn [passkey_id passkey_user_id].
  change (DB (record _ (with_kv _ (record _ w)))) with (DB w).
  destruct (existsb (fun p => String.eqb (passkey_id p) (reg_credentialID info))
              (Passkeys (DB w))) eqn:Htaken.
  - repeat split; reflexivity.
  - destruct Hfail as [(held & Hin & Hid) | Hrow].
    + exfalso. rewrite <- Bool.not_true_iff_false in Htaken. apply Htaken.
      apply existsb_exists. exists held. split; [exact Hin|].
      rewrite Hid. apply String.eqb_refl.
    + rewrite (user_row_None_existsb _ _ Hrow). cbn [negb].
      repeat split; reflexivity.
Qed.

End RegisterFailure.

Lemma registration_insert_failure_witness :
  let done := @AuthRoute.registerVerify PlainPlatform CounterOnlyWebAuthn example_env
                (Present (attestation "cred-alice" "nonce1")) "tok-1" 1700000200
                issued_world in
  ApiUtils.kind (fst done) = ApiUtils.CryptographicVerificationFailed /\
  ApiUtils.status (fst done) = 400 /\
  DB (snd done) = DB issued_world /\
  KV_SESSIONS (snd done) = delete ("challenge:" +:+ "nonce1") (KV_SESSIONS issued_world).
Proof.
  apply (@registration_insert_failure PlainPlatform CounterOnlyWebAuthn example_env
           (attestation "cred-alice" "nonce1") "nonce1" "true"
           (mkVerifiedRegistration true
              (Some (mkRegistrationInfo "pk-new" "cred-alice" 0)))
           (mkRegistrationInfo "pk-new" "cred-alice" 0) "tok-1" 1700000200 issued_world);
    try reflexivity.
  left. exists alice_key. split; [left; reflexivity|reflexivity].
Defined.

Section IssueThenVerify.
Context `{Platform} `{WebAuthn} `{PasskeysLib}.
Import ApiUtils.

Lemma login_try_not_expired env response challenge passkey token w :
  kind (fst (AuthRoute.loginVerify_try env response challenge passkey token w))
    <> ChallengeExpiredOrUnknown.
Proof.
  unfold AuthRoute.loginVerify_try.
  destruct (verifyAuthenticationResponse _ _ _ _ _ _) as [v|msg]; [|discriminate].
  destruct (auth_verified v); discriminate.
Qed.

(** The login route and the admin login route issue challenges alike: the
    nonce is stored under [challenge:<nonce>] with the value "true" for 300
    seconds, nothing else in the stores changes, and the answer carries the
    nonce.  A verification that presents the nonce next, at either route,
    finds the challenge: it is not answered "challenge expired or
    unknown".  So a challenge issued by the ordinary login is accepted by
    the admin login, and the other way round. *)
Theorem issued_login_challenge_is_accepted env (response : AuthenticationResponseJSON)
    nonce token (w : World) :
  as_truthy (AuthRoute.extractChallengeFromClientData response) = Some nonce ->
  let issued := AuthRoute.loginChallenge env nonce w in
  AdminRoute.loginChallenge env nonce w = issued /\
  fst issued
    = successResponse
        (AuthenticationOptionsData (mkAuthenticationOptions nonce (AuthRoute.getRpID env)))
        None HTTP_STATUS.OK /\
  KV_SESSIONS (snd issued)
    = <["challenge:" +:+ nonce := mkKvEntry "true" 300]> (KV_SESSIONS w) /\
  DB (snd issued) = DB w /\
  kind (fst (AuthRoute.loginVerify env (Present response) token (snd issued)))
    <> ChallengeExpiredOrUnknown /\
  kind (fst (AdminRoute.loginVerify env (Present response) token (snd issued)))
    <> ChallengeExpiredOrUnknown.
Proof.
  intros Hextract issued.
  assert (Hrun : issued =
            (successResponse
               (AuthenticationOptionsData
                  (mkAuthenticationOptions nonce (AuthRoute.getRpID env)))
               None HTTP_STATUS.OK,
             record (KvPut ("challenge:" +:+ nonce) "true" 300)
               (with_kv (insert ("challenge:" +:+ nonce) (mkKvEntry "true" 300)) w)))
    by reflexivity.
  assert (Hlive : as_truthy (stored_challenge (snd issued) nonce) = Some "true").
  { rewrite Hrun. unfold stored_challenge. cbn [snd record with_kv KV_SESSIONS].
    rewrite lookup_insert_eq. reflexivity. }
  split; [reflexivity|]. split; [rewrite Hrun; reflexivity|].
  split; [rewrite Hrun; reflexivity|]. split; [rewrite Hrun; reflexivity|].
  split.
  - rewrite (loginVerify_run _ _ _ _ _ Hextract), Hlive.
    cbv zeta. destruct (getPasskeyById _ _) as [passkey|]; [|discriminate].
    apply login_try_not_expired.
  - assert (Hadmin : as_truthy (AdminRoute.extractChallenge response) = Some nonce)
      by exact Hextract.
    rewrite (admin_loginVerify_run _ _ _ _ _ Hadmin), Hlive.
    cbv zeta. destruct (getPasskeyById _ _) as [passkey|]; [|discriminate].
    apply admin_try_not_expired.
Qed.

End IssueThenVerify.

Lemma issued_login_challenge_is_accepted_witness :
  let issued := @AuthRoute.loginChallenge example_env "nonce2" empty_world in
  @AdminRoute.loginChallenge example_env "nonce2" empty_world = issued /\
  fst issued
    = ApiUtils.successResponse
        (AuthenticationOptionsData (mkAuthenticationOptions "nonce2" "forum.example"))
        None ApiUtils.HTTP_STATUS.OK /\
  KV_SESSIONS (snd issued)
    = <["challenge:" +:+ "nonce2" := mkKvEntry "true" 300]> (KV_SESSIONS empty_world) /\
  DB (snd issued) = DB empty_world /\
  ApiUtils.kind (fst (@AuthRoute.loginVerify PlainPlatform CounterOnlyWebAuthn D1Passkeys
                        example_env (Present (assertion "cred-alice" "nonce2" "123456"))
                        "tok-1" (snd issued)))
    <> ApiUtils.ChallengeExpiredOrUnknown /\
  ApiUtils.kind (fst (@AdminRoute.loginVerify PlainPlatform CounterOnlyWebAuthn D1Passkeys
                        example_env (Present (assertion "cred-alice" "nonce2" "123456"))
                        "tok-1" (snd issued)))
    <> ApiUtils.ChallengeExpiredOrUnknown.
Proof.
  apply (@issued_login_challenge_is_accepted PlainPlatform CounterOnlyWebAuthn D1Passkeys
           example_env (assertion "cred-alice" "nonce2" "123456") "nonce2" "tok-1"
           empty_world).
  reflexivity.
Defined.

(** ** More on private messages: the excerpt, the conversation of a pair,
    the unread counters, who may read *)

Section Excerpt.
Import MessagesRoute.
Local Open Scope list_scope.

Lemma strip_tags_inside_unclosed (rest : JsString) :
  ~ In 62%N rest -> strip_tags true rest = [].
Proof.
  induction rest as [|c rest IH]; [reflexivity|].
  intros Hnone. simpl.
  destruct (N.eqb_spec c 62) as [->|_].
  - exfalso. apply Hnone. left. reflexivity.
  - simpl. apply IH. intros Hin. apply Hnone. right. exact Hin.
Qed.

Lemma strip_tags_no_open (inside : bool) (text : JsString) :
  ~ In 60%N (strip_tags inside text).
Proof.
  revert inside. induction text as [|c rest IH]; intros inside; simpl; [intros []|].
  destruct inside; [apply IH|].
  destruct (N.eqb_spec c 60) as [->|Hc]; [apply IH|].
  intros [Heq | Hin]; [contradiction|]. exact (IH false Hin).
Qed.

Lemma strip_tags_plain (text : JsString) :
  ~ In 60%N text -> strip_tags false text = text.
Proof.
  induction text as [|c rest IH]; [reflexivity|].
  intros Hnone. simpl.
  destruct (N.eqb_spec c 60) as [->|_].
  - exfalso. apply Hnone. left. reflexivity.
  - f_equal. apply IH. intros Hin. apply Hnone. right. exact Hin.
Qed.

Lemma strip_tags_unclosed (inside : bool) (pre rest : JsString) :
  ~ In 62%N rest ->
  strip_tags inside (pre ++ 60%N :: rest) = strip_tags inside pre.
Proof.
  intros Hnone. revert inside. induction pre as [|c pre IH]; intros inside.
  - simpl. destruct inside; simpl; apply strip_tags_inside_unclosed; exact Hnone.
  - simpl. destruct inside; [apply IH|].
    destruct (N.eqb c 60); [apply IH|]. f_equal. apply IH.
Qed.

End Excerpt.

Section SendOutcome.
Context `{MessagesRoute.MessagePlatform}.
Import MessagesRoute ApiUtils.
Local Open Scope list_scope.

(** The pair predicate of the conversation lookup in [send]. *)
Lemma find_pair_touch (a b : string) conversation now excerpt flag
    (rows : list Conversation) :
  find (fun c => String.eqb (user1_id c) a && String.eqb (user2_id c) b)
    (map (touch_conversation conversation now excerpt flag) rows)
  = touch_conversation conversation now excerpt flag
      <$> find (fun c => String.eqb (user1_id c) a && String.eqb (user2_id c) b) rows.
Proof.
  apply (find_map_stable
           (fun c => String.eqb (user1_id c) a && String.eqb (user2_id c) b)).
  intros x.
  destruct (touch_keeps_users conversation now excerpt flag x) as [-> ->]. reflexivity.
Qed.

(** An accepted [send], written out: [before] is the row of the pair as
    the handler found or inserted it, [rows] the table it then updated. *)
Lemma send_outcome user recipientUsername body uuid now (m : Mail) :
  List.NoDup (map conv_id (conversations m)) ->
  kind (fst (send user recipientUsername body uuid now m)) = Ok ->
  exists recipient before rows,
    find (fun u => String.eqb (username u) recipientUsername) (mail_users m)
      = Some recipient /\
    user_id recipient <> user_id user /\
    (user1_id before, user2_id before) = sort_pair (user_id user) (user_id recipient) /\
    (rows = conversations m \/
     rows = conversations m ++ [before] /\
     user1_unread_count before = 0 /\ user2_unread_count before = 0 /\
     find (fun c => conv_id c =? conv_id before) (conversations m) = None) /\
    find (fun c => String.eqb (user1_id c) (user1_id before)
                   && String.eqb (user2_id c) (user2_id before)) rows = Some before /\
    find (fun c => conv_id c =? conv_id before) rows = Some before /\
    user_exists m (user_id user) = true /\
    send user recipientUsername body uuid now m =
      (successResponse (mkSent "消息已发送" (conv_id before)) None HTTP_STATUS.CREATED,
       mkMail (mail_users m)
         (map (touch_conversation (conv_id before) now (firstn 50 (strip_tags false body))
                 (String.eqb (user1_id before) (user_id user))) rows)
         (messages m ++
            [mkPrivateMessage (next_id (map pm_id (messages m))) (conv_id before)
               (user_id user) (body_key uuid) now])
         (<[body_key uuid := TextEncoder_encode body]> (bucket m))).
Proof.
  intros Hkeys. unfold send.
  destruct (find _ (mail_users m)) as [recipient|]; [|discriminate].
  destruct (String.eqb_spec (user_id recipient) (user_id user)) as [|Hother];
    [discriminate|].
  destruct (sort_pair (user_id user) (user_id recipient)) as [first_id second_id]
    eqn:Hsort.
  destruct (find _ (conversations m)) as [existing|] eqn:Hfound.
  - unfold insert_message, s3_put. cbn [mail_users conversations messages bucket].
    destruct (user_exists _ (user_id user)) eqn:Hauthor; [|discriminate].
    destruct (existsb _ (conversations m)) eqn:Hconv; [|discriminate].
    cbn [andb fst snd]. intros _.
    pose proof Hfound as Hrow.
    apply find_some in Hrow as [Hin Hpair].
    apply andb_true_iff in Hpair as [H1 H2].
    apply String.eqb_eq in H1, H2.
    exists recipient, existing, (conversations m).
    rewrite H1, H2, Hsort.
    split; [reflexivity|]. split; [exact Hother|]. split; [reflexivity|].
    split; [left; reflexivity|]. split; [exact Hfound|].
    split; [exact (find_unique_key conv_id _ existing Hkeys Hin)|].
    split; reflexivity.
  - unfold insert_conversation.
    destruct (user_exists m first_id && user_exists m second_id); [|discriminate].
    unfold insert_message, s3_put. cbn [mail_users conversations messages bucket].
    destruct (user_exists _ (user_id user)) eqn:Hauthor; [|discriminate].
    destruct (existsb _ (conversations m ++ _)) eqn:Hconv; [|discriminate].
    cbn [andb fst snd]. intros _.
    set (fresh := next_id (map conv_id (conversations m))).
    exists recipient, (mkConversation fresh first_id second_id now now None 0 0),
      (conversations m ++ [mkConversation fresh first_id second_id now now None 0 0]).
    cbn [user1_id user2_id conv_id user1_unread_count user2_unread_count].
    rewrite Hsort.
    split; [reflexivity|]. split; [exact Hother|]. split; [reflexivity|].
    assert (Hfresh : forall x, In x (conversations m) -> (conv_id x =? fresh) = false).
    { intros x Hx. apply Z.eqb_neq.
      pose proof (next_id_fresh (map conv_id (conversations m)) (conv_id x)
                    (in_map conv_id _ _ Hx)).
      subst fresh. lia. }
    split.
    { right. do 3 (split; [reflexivity|]).
      destruct (find (fun c => conv_id c =? fresh) (conversations m)) as [x|] eqn:Hx;
        [|reflexivity].
      apply find_some in Hx as [Hin Hx]. rewrite (Hfresh x Hin) in Hx. discriminate. }
    split.
    { apply find_app_last.
      - intros x Hx. exact (find_none _ _ Hfound x Hx).
      - cbn [user1_id user2_id]. rewrite !String.eqb_refl. reflexivity. }
    split.
    { apply find_app_last; [exact Hfresh|apply Z.eqb_refl]. }
    split; reflexivity.
Qed.

End SendOutcome.

Section MailboxProperties.
Context `{MessagesRoute.MessagePlatform}.
Import MessagesRoute ApiUtils.
Local Open Scope list_scope.

(** The excerpt [POST /] stores with the conversation of an accepted
    message: it is the text with its tags dropped, cut to 50 code units, as
    the TEXT column holds it, that is, with a surrogate that the cut or the
    sender left without its other half replaced by U+FFFD.  It has at most
    50 code units and never contains [<]; a text without [<] is stored as the
    well-formed version of its first 50 code units, and as these units
    themselves when they are well formed; and a [<] that is never closed
    drops all that follows it. *)
Theorem sent_excerpt_is_tag_free user recipientUsername body uuid now (m : Mail) :
  List.NoDup (map conv_id (conversations m)) ->
  kind (fst (send user recipientUsername body uuid now m)) = Ok ->
  exists conversationId conversation excerpt,
    sent_to (fst (send user recipientUsername body uuid now m)) = Some conversationId /\
    find (fun c => conv_id c =? conversationId)
      (conversations (snd (send user recipientUsername body uuid now m)))
      = Some conversation /\
    last_message_at conversation = now /\
    last_message_excerpt conversation = Some excerpt /\
    excerpt = to_well_formed (firstn 50 (strip_tags false body)) /\
    (List.length excerpt <= 50)%nat /\
    ~ In 60%N excerpt /\
    (~ In 60%N body -> excerpt = to_well_formed (firstn 50 body)) /\
    (~ In 60%N body -> well_formed (firstn 50 body) = true -> excerpt = firstn 50 body) /\
    (forall pre rest, body = pre ++ 60%N :: rest -> ~ In 62%N rest ->
       excerpt = to_well_formed (firstn 50 (strip_tags false pre))).
Proof.
  intros Hkeys Hok.
  destruct (send_outcome _ _ _ _ _ _ Hkeys Hok)
    as (recipient & before & rows & _ & _ & _ & _ & _ & Hid & _ & ->).
  exists (conv_id before),
    (touch_conversation (conv_id before) now (firstn 50 (strip_tags false body))
       (String.eqb (user1_id before) (user_id user)) before),
    (to_well_formed (firstn 50 (strip_tags false body))).
  cbn [fst snd conversations].
  split; [reflexivity|]. split.
  { rewrite find_map_stable by (intros x; rewrite touch_keeps_id; reflexivity).
    rewrite Hid. reflexivity. }
  unfold touch_conversation. rewrite Z.eqb_refl.
  cbn [last_message_at last_message_excerpt].
  split; [reflexivity|]. split; [reflexivity|]. split; [reflexivity|].
  split; [rewrite to_well_formed_length; apply firstn_le_length|]. split.
  { intros Hin. apply to_well_formed_units in Hin as [Hin | Hmark]; [|discriminate].
    apply in_firstn_in in Hin. exact (strip_tags_no_open _ _ Hin). }
  split; [|split].
  - intros Hplain. rewrite (strip_tags_plain _ Hplain). reflexivity.
  - intros Hplain Hformed. rewrite (strip_tags_plain _ Hplain).
    apply to_well_formed_fixed. exact Hformed.
  - intros pre rest -> Hopen. rewrite (strip_tags_unclosed _ _ _ Hopen). reflexivity.
Qed.

End MailboxProperties.

Lemma sent_excerpt_is_tag_free_witness :
  exists conversationId conversation excerpt,
    sent_to (fst (MessagesRoute.send alice "root" example_text example_uuid
                    1700000300 example_mail)) = Some conversationId /\
    find (fun c => MessagesRoute.conv_id c =? conversationId)
      (MessagesRoute.conversations
         (snd (MessagesRoute.send alice "root" example_text example_uuid
                 1700000300 example_mail)))
      = Some conversation /\
    MessagesRoute.last_message_at conversation = 1700000300 /\
    MessagesRoute.last_message_excerpt conversation = Some excerpt /\
    excerpt = MessagesRoute.to_well_formed
                (firstn 50 (MessagesRoute.strip_tags false example_text)) /\
    (List.length excerpt <= 50)%nat /\
    ~ In 60%N excerpt /\
    (~ In 60%N example_text ->
     excerpt = MessagesRoute.to_well_formed (firstn 50 example_text)) /\
    (~ In 60%N example_text -> well_formed (firstn 50 example_text) = true ->
     excerpt = firstn 50 example_text) /\
    (forall pre rest, example_text = (pre ++ 60%N :: rest)%list -> ~ In 62%N rest ->
       excerpt = MessagesRoute.to_well_formed
                   (firstn 50 (MessagesRoute.strip_tags false pre))).
Proof.
  apply (sent_excerpt_is_tag_free alice "root" example_text example_uuid
           1700000300 example_mail).
  - constructor.
  - reflexivity.
Defined.

(** The excerpt of a body whose 50th and 51st units are a surrogate pair:
    the cut leaves the leading half alone, and the column holds U+FFFD in
    its place. *)
Example cut_pair_is_replaced :
  MessagesRoute.last_message_excerpt
    <$> find (fun c => MessagesRoute.conv_id c =? 1)
          (MessagesRoute.conversations
             (snd (MessagesRoute.send alice "root"
                     (repeat 97%N 49 ++ [55357; 56832]%N)%list example_uuid 1700000300
                     example_mail)))
  = Some (Some (repeat 97%N 49 ++ [65533%N])%list).
Proof. vm_compute. reflexivity. Qed.

Section Unread.
Context `{MessagesRoute.MessagePlatform}.
Import MessagesRoute ApiUtils.
Local Open Scope list_scope.

Lemma user_exists_find (m : Mail) (id : string) :
  user_exists m id = true ->
  exists u, find (fun u => String.eqb (user_id u) id) (mail_users m) = Some u.
Proof.
  intros Hex. apply existsb_find_some in Hex as (u & Hu & _). exists u. exact Hu.
Qed.

(** The counter the viewer is shown for the first row with a given id. *)
Lemma shown_unread_row (me : string) (m : Mail) (conversationId : Z) (c : Conversation) :
  find (fun c => conv_id c =? conversationId) (conversations m) = Some c ->
  takes_part me c = true ->
  user_exists m (user1_id c) = true ->
  user_exists m (user2_id c) = true ->
  shown_unread me m conversationId =
    Some (if String.eqb (user1_id c) me then user1_unread_count c
          else user2_unread_count c).
Proof.
  intros Hfound Hpart H1 H2.
  apply user_exists_find in H1 as (u1 & Hu1), H2 as (u2 & Hu2).
  unfold shown_unread, joined_conversations.
  induction (conversations m) as [|x rest IH]; [discriminate|].
  simpl in Hfound. simpl.
  destruct (conv_id x =? conversationId) eqn:Hx.
  - injection Hfound as ->. rewrite Hpart, Hu1, Hu2. simpl. rewrite Hx. reflexivity.
  - destruct (takes_part me x); [|exact (IH Hfound)].
    destruct (find (fun u => String.eqb (user_id u) (user1_id x)) (mail_users m));
      [|exact (IH Hfound)].
    destruct (find (fun u => String.eqb (user_id u) (user2_id x)) (mail_users m));
      [|exact (IH Hfound)].
    simpl. rewrite Hx. exact (IH Hfound).
Qed.

Lemma shown_unread_absent (me : string) (m : Mail) (conversationId : Z) :
  find (fun c => conv_id c =? conversationId) (conversations m) = None ->
  shown_unread me m conversationId = None.
Proof.
  intros Hnone. unfold shown_unread, joined_conversations.
  induction (conversations m) as [|x rest IH]; [reflexivity|].
  simpl in Hnone. simpl.
  destruct (conv_id x =? conversationId) eqn:Hx; [discriminate|].
  destruct (takes_part me x); [|exact (IH Hnone)].
  destruct (find (fun u => String.eqb (user_id u) (user1_id x)) (mail_users m));
    [|exact (IH Hnone)].
  destruct (find (fun u => String.eqb (user_id u) (user2_id x)) (mail_users m));
    [|exact (IH Hnone)].
  simpl. rewrite Hx. exact (IH Hnone).
Qed.

(** The two ids of a sorted pair are the two ids given. *)
Lemma sort_pair_cases (a b first_id second_id : string) :
  (first_id, second_id) = sort_pair a b ->
  first_id = a /\ second_id = b \/ first_id = b /\ second_id = a.
Proof.
  unfold sort_pair. destruct (String.ltb b a); intros [= -> ->]; [right|left];
    split; reflexivity.
Qed.

(** A listing the viewer is allowed, written out. *)
Lemma list_messages_run viewer conversationId page pageSize (m : Mail) conversation :
  find (fun c => conv_id c =? conversationId) (conversations m) = Some conversation ->
  user1_id conversation = user_id viewer \/ user2_id conversation = user_id viewer ->
  kind (fst (list_messages viewer conversationId page pageSize m)) = Ok /\
  snd (list_messages viewer conversationId page pageSize m) =
    with_conversations
      (map (clear_unread conversationId
              (String.eqb (user1_id conversation) (user_id viewer)))
         (conversations m)) m.
Proof.
  intros Hfound Hmember. unfold list_messages. rewrite Hfound.
  destruct (String.eqb_spec (user1_id conversation) (user_id viewer)) as [_|Hn1];
    [split; reflexivity|].
  destruct (String.eqb_spec (user2_id conversation) (user_id viewer)) as [_|Hn2];
    [split; reflexivity|].
  destruct Hmember; contradiction.
Qed.

(** The unread counters across a message and its reading.  An accepted
    message raises by one the counter its recipient is shown for the
    conversation (from 0 when the conversation is new) and leaves the
    sender's own counter as it was.  When the recipient then opens the
    conversation, the recipient's counter is 0 and the sender's is still
    unchanged. *)
Theorem unread_counters_follow_send_and_read user recipientUsername body uuid now
    reader page pageSize recipient (m : Mail) :
  List.NoDup (map conv_id (conversations m)) ->
  find (fun u => String.eqb (username u) recipientUsername) (mail_users m)
    = Some recipient ->
  kind (fst (send user recipientUsername body uuid now m)) = Ok ->
  user_id reader = user_id recipient ->
  let sent := send user recipientUsername body uuid now m in
  exists conversationId,
    sent_to (fst sent) = Some conversationId /\
    shown_unread (user_id recipient) (snd sent) conversationId
      = Some (default 0 (shown_unread (user_id recipient) m conversationId) + 1) /\
    shown_unread (user_id user) (snd sent) conversationId
      = Some (default 0 (shown_unread (user_id user) m conversationId)) /\
    kind (fst (list_messages reader conversationId page pageSize (snd sent))) = Ok /\
    shown_unread (user_id recipient)
      (snd (list_messages reader conversationId page pageSize (snd sent))) conversationId
      = Some 0 /\
    shown_unread (user_id user)
      (snd (list_messages reader conversationId page pageSize (snd sent))) conversationId
      = shown_unread (user_id user) (snd sent) conversationId.
Proof.
  intros Hkeys Hrecipient Hok Hreader sent. subst sent.
  destruct (send_outcome _ _ _ _ _ _ Hkeys Hok)
    as (recipient' & before & rows & Hfound & Hother & Hsort & Hrows & _ & Hid
        & Hsender & Hrun).
  rewrite Hrecipient in Hfound. injection Hfound as <-.
  assert (Hto : user_exists m (user_id recipient) = true).
  { apply find_some in Hrecipient as [Hin _]. unfold user_exists.
    apply existsb_exists. exists recipient. split; [exact Hin|apply String.eqb_refl]. }
  rewrite Hrun. cbn [fst snd]. exists (conv_id before).
  set (touched := touch_conversation (conv_id before) now
                    (firstn 50 (strip_tags false body))
                    (String.eqb (user1_id before) (user_id user)) before).
  set (m1 := mkMail (mail_users m) _ _ _).
  assert (Hfind1 : find (fun c => conv_id c =? conv_id before) (conversations m1)
                   = Some touched).
  { subst m1. cbn [conversations].
    rewrite find_map_stable by (intros x; rewrite touch_keeps_id; reflexivity).
    rewrite Hid. reflexivity. }
  assert (Hreaderpart : user1_id touched = user_id reader \/ user2_id touched = user_id reader).
  { subst touched.
    destruct (touch_keeps_users (conv_id before) now (firstn 50 (strip_tags false body))
                (String.eqb (user1_id before) (user_id user)) before) as [-> ->].
    rewrite Hreader.
    destruct (sort_pair_cases _ _ _ _ Hsort) as [[_ ->] | [-> _]]; [right|left];
      reflexivity. }
  destruct (list_messages_run reader (conv_id before) page pageSize m1 touched
              Hfind1 Hreaderpart) as [Hreadok Hread].
  rewrite Hread. clear Hread.
  set (m2 := with_conversations _ m1).
  assert (Hfind2 : find (fun c => conv_id c =? conv_id before) (conversations m2)
                   = Some (clear_unread (conv_id before)
                             (String.eqb (user1_id touched) (user_id reader)) touched)).
  { subst m2. unfold with_conversations. cbn [conversations].
    rewrite find_map_stable
      by (intros x; destruct (clear_keeps (conv_id before)
                                (String.eqb (user1_id touched) (user_id reader)) x)
            as (-> & _); reflexivity).
    rewrite Hfind1. reflexivity. }
  (* the counters before the message *)
  assert (Hbefore : forall me, takes_part me before = true ->
             default 0 (shown_unread me m (conv_id before)) =
             if String.eqb (user1_id before) me then user1_unread_count before
             else user2_unread_count before).
  { intros me Hme.
    destruct Hrows as [-> | (-> & Hz1 & Hz2 & Hnone)].
    - rewrite (shown_unread_row me m (conv_id before) before Hid Hme); [reflexivity| |].
      + destruct (sort_pair_cases _ _ _ _ Hsort) as [[-> _] | [-> _]]; assumption.
      + destruct (sort_pair_cases _ _ _ _ Hsort) as [[_ ->] | [_ ->]]; assumption.
    - rewrite (shown_unread_absent me m _ Hnone), Hz1, Hz2.
      destruct (String.eqb _ me); reflexivity. }
  assert (Hexists1 : forall c, user1_id c = user1_id before ->
             user_exists m1 (user1_id c) = true).
  { intros c ->.
    destruct (sort_pair_cases _ _ _ _ Hsort) as [[-> _] | [-> _]]; assumption. }
  assert (Hexists2 : forall c, user2_id c = user2_id before ->
             user_exists m1 (user2_id c) = true).
  { intros c ->.
    destruct (sort_pair_cases _ _ _ _ Hsort) as [[_ ->] | [_ ->]]; assumption. }
  assert (Hpart : forall me c, user1_id c = user1_id before -> user2_id c = user2_id before ->
             me = user_id user \/ me = user_id recipient -> takes_part me c = true).
  { intros me c H1 H2 Hme. unfold takes_part. rewrite H1, H2.
    destruct (sort_pair_cases _ _ _ _ Hsort) as [[-> ->] | [-> ->]];
      destruct Hme as [-> | ->]; rewrite String.eqb_refl;
      [reflexivity|apply orb_true_r|apply orb_true_r|reflexivity]. }
  destruct (touch_keeps_users (conv_id before) now (firstn 50 (strip_tags false body))
              (String.eqb (user1_id before) (user_id user)) before) as [Ht1 Ht2].
  fold touched in Ht1, Ht2.
  destruct (clear_keeps (conv_id before) (String.eqb (user1_id touched) (user_id reader))
              touched) as (_ & Hc1 & Hc2).
  apply (fun e => eq_trans e Ht1) in Hc1. apply (fun e => eq_trans e Ht2) in Hc2.
  split; [reflexivity|].
  rewrite (shown_unread_row (user_id recipient) m1 _ touched Hfind1
             (Hpart _ _ Ht1 Ht2 (or_intror eq_refl)) (Hexists1 _ Ht1) (Hexists2 _ Ht2)).
  rewrite (shown_unread_row (user_id user) m1 _ touched Hfind1
             (Hpart _ _ Ht1 Ht2 (or_introl eq_refl)) (Hexists1 _ Ht1) (Hexists2 _ Ht2)).
  rewrite (shown_unread_row (user_id recipient) m2 _ _ Hfind2
             (Hpart _ _ Hc1 Hc2 (or_intror eq_refl)) (Hexists1 _ Hc1) (Hexists2 _ Hc2)).
  rewrite (shown_unread_row (user_id user) m2 _ _ Hfind2
             (Hpart _ _ Hc1 Hc2 (or_introl eq_refl)) (Hexists1 _ Hc1) (Hexists2 _ Hc2)).
  rewrite (Hbefore (user_id recipient)) by (apply Hpart; auto).
  rewrite (Hbefore (user_id user)) by (apply Hpart; auto).
  rewrite Hc1, Ht1, Hreader.
  subst touched. unfold clear_unread, touch_conversation. rewrite Z.eqb_refl.
  cbn [conv_id user1_id user2_id user1_unread_count user2_unread_count].
  rewrite Z.eqb_refl.
  cbn [conv_id user1_id user2_id user1_unread_count user2_unread_count].
  assert (Hne : String.eqb (user_id recipient) (user_id user) = false)
    by (apply String.eqb_neq; exact Hother).
  assert (Hne' : String.eqb (user_id user) (user_id recipient) = false)
    by (apply String.eqb_neq; intros Heq; apply Hother; symmetry; exact Heq).
  destruct (sort_pair_cases _ _ _ _ Hsort) as [[E1 E2] | [E1 E2]];
    rewrite ?E1, ?E2, ?String.eqb_refl, ?Hne, ?Hne'; repeat split; try reflexivity;
    try exact Hreadok.
Qed.

End Unread.

Lemma unread_counters_follow_send_and_read_witness :
  let sent := MessagesRoute.send alice "root" example_text example_uuid
                1700000300 example_mail in
  exists conversationId,
    sent_to (fst sent) = Some conversationId /\
    shown_unread "u-root" (snd sent) conversationId
      = Some (default 0 (shown_unread "u-root" example_mail conversationId) + 1) /\
    shown_unread "u-alice" (snd sent) conversationId
      = Some (default 0 (shown_unread "u-alice" example_mail conversationId)) /\
    ApiUtils.kind (fst (@MessagesRoute.list_messages ChunkedPlatform root conversationId 1 20
                          (snd sent))) = ApiUtils.Ok /\
    shown_unread "u-root"
      (snd (@MessagesRoute.list_messages ChunkedPlatform root conversationId 1 20 (snd sent)))
      conversationId = Some 0 /\
    shown_unread "u-alice"
      (snd (@MessagesRoute.list_messages ChunkedPlatform root conversationId 1 20 (snd sent)))
      conversationId = shown_unread "u-alice" (snd sent) conversationId.
Proof.
  apply (@unread_counters_follow_send_and_read ChunkedPlatform alice "root" example_text
           example_uuid 1700000300 root 1 20 root example_mail).
  - constructor.
  - reflexivity.
  - reflexivity.
  - reflexivity.
Defined.

Section SharedConversation.
Context `{MessagesRoute.MessagePlatform}.
Import MessagesRoute ApiUtils.
Local Open Scope list_scope.

(** [[a, b].sort()] and [[b, a].sort()] are the same pair. *)
Lemma sort_pair_symmetric (a b : string) : a <> b -> sort_pair a b = sort_pair b a.
Proof.
  intros Hne. unfold sort_pair, String.ltb.
  rewrite (String.compare_antisym b a).
  destruct (String.compare a b) eqn:Hcmp; simpl; try reflexivity.
  apply String.compare_eq_iff in Hcmp. contradiction.
Qed.

(** Two users share one conversation: when a message from one to the other
    was accepted, the answer that comes back the other way is accepted
    into the same conversation; no second row of [Conversations] is made,
    and the table of messages ends with the two rows, both carrying that
    conversation id. *)
Theorem reply_joins_the_same_conversation user recipientUsername body uuid now
    replier senderUsername body' uuid' now' recipient sender (m : Mail) :
  List.NoDup (map conv_id (conversations m)) ->
  find (fun u => String.eqb (username u) recipientUsername) (mail_users m)
    = Some recipient ->
  find (fun u => String.eqb (username u) senderUsername) (mail_users m) = Some sender ->
  user_id sender = user_id user ->
  user_id replier = user_id recipient ->
  kind (fst (send user recipientUsername body uuid now m)) = Ok ->
  let first := send user recipientUsername body uuid now m in
  let second := send replier senderUsername body' uuid' now' (snd first) in
  exists conversationId first_row second_row,
    sent_to (fst first) = Some conversationId /\
    fst second
      = successResponse (mkSent "消息已发送" conversationId) None HTTP_STATUS.CREATED /\
    map conv_id (conversations (snd second)) = map conv_id (conversations (snd first)) /\
    messages (snd second) = messages m ++ [first_row; second_row] /\
    pm_conversation_id first_row = conversationId /\
    pm_conversation_id second_row = conversationId /\
    pm_author_id first_row = user_id user /\
    pm_author_id second_row = user_id recipient.
Proof.
  intros Hkeys Hrecipient Hsender Hsame Hreplier Hok first second.
  subst second first.
  destruct (send_outcome _ _ _ _ _ _ Hkeys Hok)
    as (recipient' & before & rows & Hfound & Hother & Hsort & _ & Hpair & Hid & _ & Hrun).
  rewrite Hrecipient in Hfound. injection Hfound as <-.
  rewrite Hrun. cbn [fst snd].
  set (touch := touch_conversation (conv_id before) now (firstn 50 (strip_tags false body))
                  (String.eqb (user1_id before) (user_id user))).
  assert (Hto : user_exists m (user_id recipient) = true).
  { apply find_some in Hrecipient as [Hin _]. unfold user_exists.
    apply existsb_exists. exists recipient. split; [exact Hin|apply String.eqb_refl]. }
  assert (Hpair' : sort_pair (user_id replier) (user_id sender)
                   = (user1_id before, user2_id before)).
  { rewrite Hsame, Hreplier, Hsort. apply sort_pair_symmetric. exact Hother. }
  assert (Hids : forall x, conv_id (touch x) = conv_id x)
    by (intros x; apply touch_keeps_id).
  exists (conv_id before),
    (mkPrivateMessage (next_id (map pm_id (messages m))) (conv_id before) (user_id user)
       (body_key uuid) now),
    (mkPrivateMessage
       (next_id (map pm_id
                   (messages m ++
                      [mkPrivateMessage (next_id (map pm_id (messages m))) (conv_id before)
                         (user_id user) (body_key uuid) now])))
       (conv_id before) (user_id replier) (body_key uuid') now').
  split; [reflexivity|].
  unfold send. cbn [mail_users conversations]. rewrite Hsender.
  assert (Hdiff : String.eqb (user_id sender) (user_id replier) = false).
  { apply String.eqb_neq. rewrite Hsame, Hreplier. intros Heq. apply Hother.
    symmetry. exact Heq. }
  rewrite Hdiff, Hpair'. cbv beta iota.
  subst touch.
  rewrite (find_pair_touch (user1_id before) (user2_id before)), Hpair.
  set (touch := touch_conversation (conv_id before) now (firstn 50 (strip_tags false body))
                  (String.eqb (user1_id before) (user_id user))) in *.
  cbn [fmap option_fmap option_map].
  unfold insert_message, s3_put. cbn [mail_users conversations messages bucket].
  change (user_exists _ (user_id replier)) with (user_exists m (user_id replier)).
  rewrite Hreplier, Hto.
  assert (Hthere : existsb (fun c => conv_id c =? conv_id (touch before)) (map touch rows)
                   = true).
  { apply existsb_exists. exists (touch before). split; [|apply Z.eqb_refl].
    apply in_map. apply find_some in Hid as [Hin _]. exact Hin. }
  rewrite Hthere. cbn [andb fst snd conversations messages with_conversations].
  unfold with_conversations. cbn [conversations messages].
  rewrite Hids, <- Hreplier.
  split; [reflexivity|]. split.
  { rewrite map_map. apply map_ext. intros x. apply touch_keeps_id. }
  split; [rewrite <- app_assoc; reflexivity|].
  repeat split; try reflexivity.
Qed.

End SharedConversation.

Lemma reply_joins_the_same_conversation_witness :
  let first := MessagesRoute.send alice "root" example_text example_uuid
                 1700000300 example_mail in
  let second := MessagesRoute.send root "alice" example_text
                  (MessagesRoute.units "223e4567-e89b-42d3-a456-426614174000")
                  1700000400 (snd first) in
  exists conversationId first_row second_row,
    sent_to (fst first) = Some conversationId /\
    fst second
      = ApiUtils.successResponse (MessagesRoute.mkSent "消息已发送" conversationId) None
          ApiUtils.HTTP_STATUS.CREATED /\
    map MessagesRoute.conv_id (MessagesRoute.conversations (snd second))
      = map MessagesRoute.conv_id (MessagesRoute.conversations (snd first)) /\
    MessagesRoute.messages (snd second)
      = (MessagesRoute.messages example_mail ++ [first_row; second_row])%list /\
    MessagesRoute.pm_conversation_id first_row = conversationId /\
    MessagesRoute.pm_conversation_id second_row = conversationId /\
    MessagesRoute.pm_author_id first_row = "u-alice" /\
    MessagesRoute.pm_author_id second_row = "u-root".
Proof.
  apply (reply_joins_the_same_conversation alice "root" example_text
           example_uuid 1700000300 root "alice" example_text
           (MessagesRoute.units "223e4567-e89b-42d3-a456-426614174000") 1700000400
           root alice example_mail).
  - constructor.
  - reflexivity.
  - reflexivity.
  - reflexivity.
  - reflexivity.
  - reflexivity.
Defined.

Section Reading.
Context `{MessagesRoute.MessagePlatform}.
Import MessagesRoute ApiUtils.
Local Open Scope list_scope.

Lemma load_body_keeps_columns (m : Mail) (msg : MessageView) :
  view_id (load_body m msg) = view_id msg /\
  view_created_at (load_body m msg) = view_created_at msg /\
  view_author_username (load_body m msg) = view_author_username msg.
Proof.
  unfold load_body. destruct (_ && _); [|repeat split].
  destruct (s3_get _ m) as [stream|]; [|repeat split].
  destruct (read_all stream); repeat split.
Qed.

Lemma joined_rows_origin (conversationId : Z) (m : Mail) (row : MessageView) :
  In row (joined_rows conversationId m) ->
  exists pm author,
    In pm (messages m) /\ pm_conversation_id pm = conversationId /\
    In author (mail_users m) /\ user_id author = pm_author_id pm /\
    row = mkMessageView (pm_id pm) (pm_body pm) (pm_created_at pm) (username author).
Proof.
  unfold joined_rows. intros Hin. apply in_flat_map in Hin as (pm & Hpm & Hrow).
  destruct (Z.eqb_spec (pm_conversation_id pm) conversationId) as [Hconv|_];
    [|contradiction].
  destruct (find _ (mail_users m)) as [author|] eqn:Hauthor; [|contradiction].
  destruct Hrow as [<- | []].
  apply find_some in Hauthor as [Hin Hid]. apply String.eqb_eq in Hid.
  exists pm, author. repeat split; assumption.
Qed.

Lemma clear_unread_ids conversation flag (rows : list Conversation) :
  map conv_id (map (clear_unread conversation flag) rows) = map conv_id rows.
Proof.
  rewrite map_map. apply map_ext. intros x.
  destruct (clear_keeps conversation flag x) as (-> & _). reflexivity.
Qed.

(** Who may read a conversation, and what reading it does.  [GET
    /:conversationId] answers Ok exactly when the conversation exists and
    the viewer is one of its two users; otherwise it answers Forbidden and
    leaves the mailbox as it was.  In every case the users, the messages,
    the stored bodies and the ids of the conversations are unchanged.  A
    page has at most [pageSize] entries, and each entry is a message of
    that very conversation, with the id, the time and the author's name of
    its row. *)
Theorem conversation_is_read_by_its_users_only viewer conversationId page pageSize
    (m : Mail) :
  let answer := list_messages viewer conversationId page pageSize m in
  (kind (fst answer) = Ok <->
     exists conversation,
       find (fun c => conv_id c =? conversationId) (conversations m) = Some conversation /\
       (user1_id conversation = user_id viewer \/ user2_id conversation = user_id viewer)) /\
  (kind (fst answer) = Ok \/ kind (fst answer) = Forbidden /\ snd answer = m) /\
  mail_users (snd answer) = mail_users m /\
  messages (snd answer) = messages m /\
  bucket (snd answer) = bucket m /\
  map conv_id (conversations (snd answer)) = map conv_id (conversations m) /\
  (List.length (listed (fst answer)) <= Z.to_nat pageSize)%nat /\
  (forall entry, In entry (listed (fst answer)) ->
     exists pm author,
       In pm (messages m) /\ pm_conversation_id pm = conversationId /\
       In author (mail_users m) /\ user_id author = pm_author_id pm /\
       view_id entry = pm_id pm /\
       view_created_at entry = pm_created_at pm /\
       view_author_username entry = username author).
Proof.
  intros answer.
  assert (Hentries : forall entry, In entry (listed (fst answer)) ->
            exists pm author,
              In pm (messages m) /\ pm_conversation_id pm = conversationId /\
              In author (mail_users m) /\ user_id author = pm_author_id pm /\
              view_id entry = pm_id pm /\
              view_created_at entry = pm_created_at pm /\
              view_author_username entry = username author).
  { intros entry Hin. subst answer.
    apply listed_from_rows in Hin as (row & Hrow & ->).
    apply joined_rows_origin in Hrow as (pm & author & Hpm & Hconv & Hauthor & Hid & ->).
    destruct (load_body_keeps_columns m
                (mkMessageView (pm_id pm) (pm_body pm) (pm_created_at pm) (username author)))
      as (-> & -> & ->).
    exists pm, author. repeat split; assumption. }
  revert Hentries. subst answer. unfold list_messages.
  destruct (find _ (conversations m)) as [conversation|] eqn:Hfound.
  - destruct (String.eqb_spec (user1_id conversation) (user_id viewer)) as [H1|H1];
      destruct (String.eqb_spec (user2_id conversation) (user_id viewer)) as [H2|H2];
      cbn [negb andb fst snd]; intros Hentries.
    1-3: split;
      [split; [intros _; exists conversation; split; [reflexivity|auto]|reflexivity]|];
      split; [left; reflexivity|];
      do 3 (split; [reflexivity|]);
      split; [unfold with_conversations; cbn [conversations]; apply clear_unread_ids|];
      split; [|exact Hentries];
      unfold listed; cbn [body successResponse listing_data];
      rewrite length_map; apply firstn_le_length.
    split.
    { split; [discriminate|]. intros (c & [= <-] & [Hc | Hc]); contradiction. }
    split; [right; split; reflexivity|].
    do 4 (split; [reflexivity|]). split; [apply Nat.le_0_l|intros entry []].
  - intros _. split.
    { split; [discriminate|]. intros (c & Hc & _). discriminate. }
    split; [right; split; reflexivity|].
    do 4 (split; [reflexivity|]). split; [apply Nat.le_0_l|intros entry []].
Qed.

Lemma insert_by_last_message_In (x v : ConversationView) (sorted : list ConversationView) :
  In x (insert_by_last_message v sorted) <-> x = v \/ In x sorted.
Proof.
  induction sorted as [|y rest IH]; simpl.
  - intuition congruence.
  - destruct (cv_last_message_at v <? cv_last_message_at y); simpl; rewrite ?IH;
      intuition congruence.
Qed.

Lemma order_by_last_message_In (x : ConversationView) (rows : list ConversationView) :
  In x (order_by_last_message rows) <-> In x rows.
Proof.
  unfold order_by_last_message. induction rows as [|y rest IH]; simpl; [reflexivity|].
  rewrite insert_by_last_message_In, IH. intuition congruence.
Qed.

(** What [GET /] shows: at most [pageSize] rows, each of them a
    conversation the viewer is one of the two users of, never one of other
    people; the partner named is the other user, and the unread counter is
    the viewer's own.  The total counts the viewer's conversations. *)
Theorem conversation_list_is_the_viewers_own user page pageSize (m : Mail) :
  let answer := list_conversations user page pageSize m in
  kind answer = Ok /\
  (List.length (listed_conversations answer) <= Z.to_nat pageSize)%nat /\
  (forall v, In v (listed_conversations answer) ->
     exists c partner,
       In c (conversations m) /\ In partner (mail_users m) /\
       cv_id v = conv_id c /\
       cv_last_message_excerpt v = last_message_excerpt c /\
       partner_username v = username partner /\
       (user1_id c = user_id user /\ user_id partner = user2_id c /\
        unread_count v = user1_unread_count c
        \/
        user1_id c <> user_id user /\ user2_id c = user_id user /\
        user_id partner = user1_id c /\ unread_count v = user2_unread_count c)).
Proof.
  intros answer.
  assert (Hrows : forall v, In v (listed_conversations answer) ->
            exists c u1 u2,
              In c (conversations m) /\ takes_part (user_id user) c = true /\
              find (fun u => String.eqb (user_id u) (user1_id c)) (mail_users m) = Some u1 /\
              find (fun u => String.eqb (user_id u) (user2_id c)) (mail_users m) = Some u2 /\
              v = conversation_view (user_id user) c u1 u2).
  { intros v Hin. subst answer. unfold list_conversations, listed_conversations in Hin.
    cbn [body successResponse conversation_data] in Hin.
    apply in_firstn_in, in_skipn_in in Hin.
    apply (proj1 (order_by_last_message_In _ _)) in Hin.
    unfold joined_conversations in Hin.
    apply in_flat_map in Hin as (c & Hc & Hv).
    destruct (takes_part (user_id user) c) eqn:Hpart; [|contradiction].
    destruct (find (fun u => String.eqb (user_id u) (user1_id c)) (mail_users m))
      as [u1|] eqn:Hu1; [|contradiction].
    destruct (find (fun u => String.eqb (user_id u) (user2_id c)) (mail_users m))
      as [u2|] eqn:Hu2; [|contradiction].
    destruct Hv as [<- | []].
    exists c, u1, u2. repeat split; assumption. }
  split; [reflexivity|]. split.
  { subst answer. unfold list_conversations, listed_conversations.
    cbn [body successResponse conversation_data]. apply firstn_le_length. }
  intros v Hin.
  - destruct (Hrows v Hin) as (c & u1 & u2 & Hc & Hpart & Hu1 & Hu2 & ->).
    apply find_some in Hu1 as [Hin1 Hid1]. apply String.eqb_eq in Hid1.
    apply find_some in Hu2 as [Hin2 Hid2]. apply String.eqb_eq in Hid2.
    unfold conversation_view, takes_part in *.
    destruct (String.eqb_spec (user1_id c) (user_id user)) as [Hme|Hme].
    + exists c, u2. cbn. repeat split; try assumption. left. repeat split; assumption.
    + exists c, u1. cbn. repeat split; try assumption. right.
      cbn [orb] in Hpart. apply String.eqb_eq in Hpart. repeat split; assumption.
Qed.

End Reading.

Section SendFrame.
Context `{MessagesRoute.MessagePlatform}.
Import MessagesRoute ApiUtils.
Local Open Scope list_scope.

Lemma touch_ids conversation now excerpt flag (rows : list Conversation) :
  map conv_id (map (touch_conversation conversation now excerpt flag) rows)
  = map conv_id rows.
Proof. rewrite map_map. apply map_ext. intros x. apply touch_keeps_id. Qed.

(** What [POST /] refuses and what it never touches.  A recipient name no
    user has is answered 404, and the sender's own name 422, the mailbox
    left as it was.  Whatever the answer, the users are unchanged, the rows
    of [PrivateMessages] that were there are still there, in place, with at
    most one row after them, no conversation row is removed or renumbered,
    and no stored object other than the one under the new key is changed. *)
Theorem send_refusals_and_frame user recipientUsername body uuid now (m : Mail) :
  let answer := send user recipientUsername body uuid now m in
  (find (fun u => String.eqb (username u) recipientUsername) (mail_users m) = None ->
   status (fst answer) = 404 /\ snd answer = m) /\
  (forall recipient,
     find (fun u => String.eqb (username u) recipientUsername) (mail_users m)
       = Some recipient ->
     user_id recipient = user_id user ->
     status (fst answer) = 422 /\ kind (fst answer) = MalformedInput /\ snd answer = m) /\
  mail_users (snd answer) = mail_users m /\
  (exists more, messages (snd answer) = messages m ++ more /\ (List.length more <= 1)%nat) /\
  (exists more,
     map conv_id (conversations (snd answer)) = map conv_id (conversations m) ++ more /\
     (List.length more <= 1)%nat) /\
  (forall key, key <> body_key uuid -> bucket (snd answer) !! key = bucket m !! key).
Proof.
  intros answer. subst answer. unfold send.
  destruct (find _ (mail_users m)) as [recipient|].
  2:{ split; [intros _; split; reflexivity|]. split; [discriminate|].
      split; [reflexivity|]. split; [exists []; rewrite app_nil_r; split; [reflexivity|simpl; lia]|].
      split; [exists []; rewrite app_nil_r; split; [reflexivity|simpl; lia]|reflexivity]. }
  split; [discriminate|].
  destruct (String.eqb_spec (user_id recipient) (user_id user)) as [Hself|Hother].
  { split; [intros r _ _; repeat split; reflexivity|].
    split; [reflexivity|]. split; [exists []; rewrite app_nil_r; split; [reflexivity|simpl; lia]|].
    split; [exists []; rewrite app_nil_r; split; [reflexivity|simpl; lia]|reflexivity]. }
  split; [intros r [= <-] Hself; contradiction|].
  destruct (sort_pair (user_id user) (user_id recipient)) as [first_id second_id].
  assert (Hput : forall (base : Mail) key,
             key <> body_key uuid ->
             <[body_key uuid := TextEncoder_encode body]> (bucket base) !! key
             = bucket base !! key).
  { intros base key Hkey. apply lookup_insert_ne. intros Heq. apply Hkey. symmetry.
    exact Heq. }
  destruct (find _ (conversations m)) as [existing|].
  - unfold insert_message, s3_put. cbn [mail_users conversations messages bucket].
    destruct (_ && _); cbn [fst snd mail_users conversations messages bucket
                              with_conversations].
    + split; [reflexivity|]. split; [eexists; split; [reflexivity|simpl; lia]|].
      split; [exists []; rewrite app_nil_r, touch_ids; split; [reflexivity|simpl; lia]|].
      exact (Hput m).
    + split; [reflexivity|]. split; [exists []; rewrite app_nil_r; split; [reflexivity|simpl; lia]|].
      split; [exists []; rewrite app_nil_r; split; [reflexivity|simpl; lia]|].
      exact (Hput m).
  - unfold insert_conversation.
    destruct (user_exists m first_id && user_exists m second_id).
    + unfold insert_message, s3_put. cbn [mail_users conversations messages bucket].
      destruct (_ && _); cbn [fst snd mail_users conversations messages bucket
                                with_conversations].
      * split; [reflexivity|]. split; [eexists; split; [reflexivity|simpl; lia]|].
        split; [|exact (Hput m)].
        rewrite touch_ids, map_app. eexists. split; [reflexivity|simpl; lia].
      * split; [reflexivity|].
        split; [exists []; rewrite app_nil_r; split; [reflexivity|simpl; lia]|].
        split; [|exact (Hput m)].
        rewrite map_app. eexists. split; [reflexivity|simpl; lia].
    + split; [reflexivity|]. split; [exists []; rewrite app_nil_r; split; [reflexivity|simpl; lia]|].
      split; [exists []; rewrite app_nil_r; split; [reflexivity|simpl; lia]|reflexivity].
Qed.

End SendFrame.

(** ** Paging parameters *)

Section Paging.
Context `{MessagesRoute.MessagePlatform}.
Import MessagesRoute ApiUtils.
Local Open Scope list_scope.

Lemma pageSize_transform_bounds (val : JsString) :
  exists size, pageSize_transform val = Int size /\ 1 <= size <= 100.
Proof.
  unfold pageSize_transform, MAX_PAGE_SIZE, DEFAULT_PAGE_SIZE.
  destruct (parseInt val) as [|n|[|]]; cbn [isNaN js_lt js_gt orb negb].
  - exists 20. split; [reflexivity|lia].
  - destruct (Z.ltb_spec n 1); cbn [orb]; [exists 20; split; [reflexivity|lia]|].
    destruct (n >? 100) eqn:Hbig; [exists 20; split; [reflexivity|lia]|].
    exists n. split; [reflexivity|]. rewrite Z.gtb_ltb in Hbig.
    apply Z.ltb_ge in Hbig. lia.
  - exists 20. split; [reflexivity|lia].
  - exists 20. split; [reflexivity|lia].
Qed.

Lemma page_transform_bounds (val : JsString) :
  page_transform val = Beyond false \/ exists page, page_transform val = Int page /\ 1 <= page.
Proof.
  unfold page_transform.
  destruct (parseInt val) as [|n|[|]]; cbn [isNaN js_lt orb].
  - right. exists 1. split; [reflexivity|lia].
  - destruct (Z.ltb_spec n 1); right; [exists 1|exists n]; split; try reflexivity; lia.
  - right. exists 1. split; [reflexivity|lia].
  - left. reflexivity.
Qed.

(** The paging the message routes accept, whatever the query says: the
    page size is a whole number from 1 to 100, the number written in the
    query when that is in range and 20 otherwise (also when the parameter
    is absent); the page is at least 1, or beyond the safe integers.  So a
    page of messages or of conversations never has more than 100 entries. *)
Theorem message_paging_is_bounded (page pageSize : option JsString) :
  listConversationsSchema page pageSize = listMessagesSchema page pageSize /\
  listMessagesSchema None None = (Int 1, Int 20) /\
  (fst (listMessagesSchema page pageSize) = Beyond false \/
   exists p, fst (listMessagesSchema page pageSize) = Int p /\ 1 <= p) /\
  exists size,
    snd (listMessagesSchema page pageSize) = Int size /\
    1 <= size <= 100 /\
    (forall text n, pageSize = Some text -> parseInt text = Int n ->
       size = if (1 <=? n) && (n <=? 100) then n else 20) /\
    (forall viewer conversationId p (m : Mail),
       (List.length (listed (fst (list_messages viewer conversationId p size m))) <= 100)%nat
       /\
       (List.length (listed_conversations (list_conversations viewer p size m)) <= 100)%nat).
Proof.
  split; [reflexivity|]. split; [reflexivity|].
  split; [apply page_transform_bounds|].
  unfold listMessagesSchema. cbn [snd].
  destruct (pageSize_transform_bounds (default (units "20") pageSize)) as (size & Hsize & Hb).
  exists size. split; [exact Hsize|]. split; [exact Hb|]. split.
  - intros text n -> Hparse.
    change (default (units "20") (Some text)) with text in Hsize.
    unfold pageSize_transform, MAX_PAGE_SIZE, DEFAULT_PAGE_SIZE in Hsize.
    cbv zeta in Hsize. rewrite Hparse in Hsize. cbn [isNaN js_lt js_gt orb] in Hsize.
    rewrite Z.gtb_ltb in Hsize.
    destruct (Z.ltb_spec n 1), (Z.ltb_spec 100 n), (Z.leb_spec 1 n), (Z.leb_spec n 100);
      cbn [orb andb] in *; try lia; congruence.
  - intros viewer conversationId p m.
    assert (Hnat : (Z.to_nat size <= 100)%nat) by lia.
    split.
    + unfold list_messages.
      destruct (find _ (conversations m)); [|simpl; lia].
      destruct (_ && _); [simpl; lia|].
      unfold listed. cbn [fst body successResponse listing_data].
      rewrite length_map.
      etransitivity; [apply firstn_le_length|exact Hnat].
    + unfold list_conversations, listed_conversations.
      cbn [body successResponse conversation_data].
      etransitivity; [apply firstn_le_length|exact Hnat].
Qed.

End Paging.

Section AdminPaging.

(** The paging of the admin lists.  The limit is never more than 100 and
    never zero or [NaN], and the page is never zero or [NaN]; an absent
    parameter gives page 1 and limit 20.  Nothing bounds them from below:
    a negative number in the query is taken as it is, for the limit and for
    the page. *)
Theorem admin_paging_is_capped_above_only (page limit : option (list N)) :
  js_gt (AdminRoute.limitNum limit) 100 = false /\
  AdminRoute.limitNum limit <> NaN /\ AdminRoute.limitNum limit <> Int 0 /\
  AdminRoute.pageNum page <> NaN /\ AdminRoute.pageNum page <> Int 0 /\
  AdminRoute.pageNum None = Int 1 /\
  AdminRoute.limitNum None = Int 20 /\
  (forall text n, parseInt text = Int n -> n < 0 ->
     AdminRoute.limitNum (Some text) = Int n /\ AdminRoute.pageNum (Some text) = Int n) /\
  AdminRoute.limitNum (Some [45; 53]%N) = Int (-5).
Proof.
  split.
  { unfold AdminRoute.limitNum.
    destruct (parseInt _) as [|n|[|]]; cbn [number_or Math_min js_gt negb];
      try reflexivity.
    destruct (n =? 0); cbn [Math_min js_gt]; rewrite Z.gtb_ltb; apply Z.ltb_ge; lia. }
  assert (Hlimit : AdminRoute.limitNum limit <> NaN /\ AdminRoute.limitNum limit <> Int 0).
  { unfold AdminRoute.limitNum.
    destruct (parseInt _) as [|n|[|]]; cbn [number_or Math_min];
      try (split; discriminate).
    destruct (Z.eqb_spec n 0) as [->|Hn]; cbn [Math_min]; [split; discriminate|].
    split; [discriminate|]. intros [= Hz]. lia. }
  assert (Hpage : AdminRoute.pageNum page <> NaN /\ AdminRoute.pageNum page <> Int 0).
  { unfold AdminRoute.pageNum.
    destruct (parseInt _) as [|n|[|]]; cbn [number_or]; try (split; discriminate).
    destruct (Z.eqb_spec n 0) as [->|Hn]; [split; discriminate|].
    split; [discriminate|]. intros [= Hz]. contradiction. }
  destruct Hlimit as [Hl1 Hl2], Hpage as [Hp1 Hp2].
  do 4 (split; [assumption|]).
  split; [reflexivity|]. split; [reflexivity|]. split; [|reflexivity].
  intros text n Hparse Hneg. unfold AdminRoute.limitNum, AdminRoute.pageNum.
  change (default [50%N; 48%N] (Some text)) with text.
  change (default [49%N] (Some text)) with text.
  rewrite Hparse. cbn [number_or].
  destruct (Z.eqb_spec n 0); [lia|]. cbn [Math_min].
  split; [f_equal; lia|reflexivity].
Qed.

End AdminPaging.

(** ** Moving, deleting and pinning threads: the counters of the nodes *)

Section ForumCounters.
Import AdminThreads ApiUtils.
Local Open Scope list_scope.

Lemma Map_get_set (m : StatsMap) (key key' : Z) (value : SourceStats) :
  Map_get (Map_set m key value) key' =
    if key =? key' then Some value else Map_get m key'.
Proof.
  induction m as [|[k v] rest IH]; simpl.
  - reflexivity.
  - destruct (Z.eqb_spec k key) as [->|Hk]; simpl.
    + destruct (key =? key'); reflexivity.
    + rewrite IH. destruct (Z.eqb_spec k key') as [->|Hk'].
      * destruct (Z.eqb_spec key key'); [congruence|reflexivity].
      * reflexivity.
Qed.

Lemma stats_of_set (m : StatsMap) (key key' : Z) (value : SourceStats) :
  stats_of (Map_set m key value) key' = if key =? key' then value else stats_of m key'.
Proof. unfold stats_of. rewrite Map_get_set. destruct (key =? key'); reflexivity. Qed.

Lemma Map_set_keys (m : StatsMap) (key : Z) (value : SourceStats) (k : Z) :
  In k (map fst (Map_set m key value)) <-> k = key \/ In k (map fst m).
Proof.
  induction m as [|[a b] rest IH]; simpl.
  - intuition congruence.
  - destruct (Z.eqb_spec a key) as [->|Ha]; simpl; [intuition congruence|].
    rewrite IH. intuition congruence.
Qed.

Lemma Map_set_NoDup (m : StatsMap) (key : Z) (value : SourceStats) :
  List.NoDup (map fst m) -> List.NoDup (map fst (Map_set m key value)).
Proof.
  induction m as [|[a b] rest IH]; simpl; intros Hnd.
  - repeat constructor. intros [].
  - inversion Hnd as [|x xs Hfresh Hrest]; subst.
    destruct (Z.eqb_spec a key) as [->|Ha]; simpl.
    + constructor; assumption.
    + constructor; [|apply IH; exact Hrest].
      rewrite Map_set_keys. intros [Heq | Hin]; [congruence|contradiction].
Qed.

Lemma stats_of_absent (m : StatsMap) (key : Z) :
  ~ In key (map fst m) -> stats_of m key = mkSourceStats 0 0.
Proof.
  unfold stats_of. induction m as [|[a b] rest IH]; simpl; [reflexivity|].
  intros Hnot. destruct (Z.eqb_spec a key) as [->|_].
  - exfalso. apply Hnot. left. reflexivity.
  - apply IH. intros Hin. apply Hnot. right. exact Hin.
Qed.

(** *** Tallies *)

Lemma tally_filter (w : Thread -> Z) (p q : Thread -> bool) (l : list Thread) :
  tally w p (List.filter q l) = tally w (fun t => q t && p t) l.
Proof.
  induction l as [|t rest IH]; simpl; [reflexivity|].
  destruct (q t); simpl; rewrite IH; reflexivity.
Qed.

Lemma tally_map (w : Thread -> Z) (p : Thread -> bool) (f : Thread -> Thread)
    (l : list Thread) :
  (forall t, p (f t) = p t) -> (forall t, w (f t) = w t) ->
  tally w p (map f l) = tally w p l.
Proof.
  intros Hp Hw. induction l as [|t rest IH]; simpl; [reflexivity|].
  rewrite Hp, Hw, IH. reflexivity.
Qed.

Lemma tally_count_nonneg (p : Thread -> bool) (l : list Thread) :
  0 <= tally (fun _ => 1) p l.
Proof. induction l as [|t rest IH]; simpl; [lia|]. destruct (p t); lia. Qed.

Lemma tally_none (w : Thread -> Z) (p : Thread -> bool) (l : list Thread) :
  tally (fun _ => 1) p l = 0 -> tally w p l = 0.
Proof.
  induction l as [|t rest IH]; simpl; [reflexivity|].
  pose proof (tally_count_nonneg p rest).
  destruct (p t); intros Hz; [lia|]. rewrite IH; lia.
Qed.

(** The counters of a node after the threads [ids] went to [target]. *)
Lemma tally_moved (w : Thread -> Z) (target : Z) (ids : list Z) (k : Z) (l : list Thread) :
  (forall t, w (moved_to target ids t) = w t) ->
  tally w (in_node k) (map (moved_to target ids) l) =
    tally w (in_node k) l
    - tally w (fun t => id_in ids (thread_id t) && (negb (in_node target t) && in_node k t)) l
    + (if k =? target
       then tally w (fun t => id_in ids (thread_id t) && negb (in_node target t)) l
       else 0).
Proof.
  intros Hw. induction l as [|t rest IH]; simpl.
  - destruct (k =? target); reflexivity.
  - rewrite IH, Hw. clear IH.
    unfold moved_to, in_node.
    destruct (id_in ids (thread_id t)); cbn [thread_node_id andb negb].
    + destruct (Z.eqb_spec target k), (Z.eqb_spec (thread_node_id t) target),
        (Z.eqb_spec (thread_node_id t) k), (Z.eqb_spec k target);
        cbn [andb negb]; lia.
    + destruct (Z.eqb_spec (thread_node_id t) k), (Z.eqb_spec k target); lia.
Qed.

(** The counters of a node after the threads [ids] were deleted. *)
Lemma tally_deleted (w : Thread -> Z) (ids : list Z) (k : Z) (l : list Thread) :
  tally w (in_node k) (List.filter (fun t => negb (id_in ids (thread_id t))) l) =
    tally w (in_node k) l
    - tally w (fun t => id_in ids (thread_id t) && in_node k t) l.
Proof.
  rewrite tally_filter. induction l as [|t rest IH]; simpl; [reflexivity|].
  rewrite IH. destruct (id_in ids (thread_id t)), (in_node k t); cbn [andb negb]; lia.
Qed.

(** *** The loops *)

Lemma move_tally_fold (target : Z) (l : list Thread) (m0 : StatsMap) (t0 r0 : Z) :
  let done := fold_left (move_tally target) l (m0, t0, r0) in
  (forall k,
     thread_decrement (stats_of (fst (fst done)) k) =
       thread_decrement (stats_of m0 k)
       + tally (fun _ => 1) (fun t => negb (in_node target t) && in_node k t) l /\
     reply_decrement (stats_of (fst (fst done)) k) =
       reply_decrement (stats_of m0 k)
       + tally reply_count (fun t => negb (in_node target t) && in_node k t) l) /\
  snd (fst done) = t0 + tally (fun _ => 1) (fun t => negb (in_node target t)) l /\
  snd done = r0 + tally reply_count (fun t => negb (in_node target t)) l /\
  (List.NoDup (map fst m0) -> List.NoDup (map fst (fst (fst done)))).
Proof.
  cbv zeta. unfold in_node.
  revert m0 t0 r0. induction l as [|t rest IH]; intros m0 t0 r0; simpl.
  - split.
    { intros k. split; lia. }
    split; [lia|]. split; [lia|]. intros Hnd. exact Hnd.
  - destruct (move_tally target (m0, t0, r0) t) as [[m1 t1] r1] eqn:Hstep.
    destruct (IH m1 t1 r1) as (Hk & Ht & Hr & Hnd).
    unfold move_tally in Hstep.
    destruct (Z.eqb_spec (thread_node_id t) target) as [Hhere|Hout];
      cbn [negb andb] in *; injection Hstep as <- <- <-.
    + split.
      { intros k. destruct (Hk k) as [H1 H2]. split; lia. }
      split; [lia|]. split; [lia|]. exact Hnd.
    + split.
      { intros k. destruct (Hk k) as [H1 H2]. rewrite H1, H2, !stats_of_set.
        unfold stats_of.
        destruct (Z.eqb_spec (thread_node_id t) k);
          cbn [thread_decrement reply_decrement]; split; try subst k; lia. }
      split; [lia|]. split; [lia|].
      intros Hm0. apply Hnd. apply Map_set_NoDup. exact Hm0.
Qed.

Lemma delete_tally_fold (l : list Thread) (m0 : StatsMap) :
  let done := fold_left delete_tally l m0 in
  (forall k,
     thread_decrement (stats_of done k) =
       thread_decrement (stats_of m0 k) + tally (fun _ => 1) (in_node k) l /\
     reply_decrement (stats_of done k) =
       reply_decrement (stats_of m0 k) + tally reply_count (in_node k) l) /\
  (List.NoDup (map fst m0) -> List.NoDup (map fst done)).
Proof.
  cbv zeta. revert m0. induction l as [|t rest IH]; intros m0; simpl.
  - split; [intros k; split; lia|intros Hnd; exact Hnd].
  - destruct (IH (delete_tally m0 t)) as (Hk & Hnd).
    split.
    + intros k. destruct (Hk k) as [H1 H2]. rewrite H1, H2.
      unfold delete_tally. rewrite !stats_of_set. unfold in_node, stats_of.
      destruct (Z.eqb_spec (thread_node_id t) k); cbn [thread_decrement reply_decrement];
        split; try subst k; lia.
    + intros Hm0. apply Hnd. unfold delete_tally. apply Map_set_NoDup. exact Hm0.
Qed.

(** *** The batch *)

(** The decrements of a map with distinct keys take from every node the
    entry of its id. *)
Lemma batch_decrements (m : StatsMap) (more : list Statement) (db : Forum) :
  List.NoDup (map fst m) ->
  batch (decrements m ++ more) db =
    batch more
      (with_nodes
         (map (fun n =>
                 mkNode (node_id n)
                   (thread_count n - thread_decrement (stats_of m (node_id n)))
                   (node_reply_count n - reply_decrement (stats_of m (node_id n))))
            (Nodes db)) db).
Proof.
  revert db. induction m as [|[k v] rest IH]; intros db Hnd.
  - simpl. f_equal. destruct db as [nodes threads]. unfold with_nodes. cbn. f_equal.
    rewrite <- (map_id nodes) at 1. apply map_ext. intros [i tc rc]. cbn.
    f_equal; lia.
  - inversion Hnd as [|x xs Hfresh Hrest]; subst.
    cbn [decrements map app batch run fst snd]. fold (decrements rest).
    rewrite (IH _ Hrest). f_equal. unfold with_nodes. cbn [Nodes Threads]. f_equal.
    rewrite map_map. apply map_ext. intros [i tc rc].
    unfold add_to_node, stats_of. cbn [node_id thread_count node_reply_count Map_get].
    destruct (Z.eqb_spec i k) as [->|Hi].
    + cbn [node_id thread_count node_reply_count]. rewrite Z.eqb_refl.
      fold (stats_of rest k). rewrite (stats_of_absent rest k Hfresh). cbn.
      f_equal; lia.
    + destruct (Z.eqb_spec k i) as [Heq|_]; [congruence|]. reflexivity.
Qed.

Lemma executeTransaction_batch (first : list Statement) (last : Statement) (db : Forum) :
  executeTransaction (first ++ [last]) db = batch (first ++ [last]) db.
Proof.
  unfold executeTransaction. rewrite length_app. cbn [List.length].
  destruct (Nat.eqb_spec (List.length first + 1) 0); [lia|reflexivity].
Qed.

Lemma existsb_node_map (f : Node -> Node) (key : Z) (nodes : list Node) :
  (forall n, node_id (f n) = node_id n) ->
  existsb (fun n => node_id n =? key) (map f nodes) = existsb (fun n => node_id n =? key) nodes.
Proof.
  intros Hf. induction nodes as [|n rest IH]; simpl; [reflexivity|].
  rewrite Hf, IH. reflexivity.
Qed.

Lemma selected_some (ids : list Z) (db : Forum) :
  selected ids db <> [] ->
  existsb (fun t => id_in ids (thread_id t)) (Threads db) = true.
Proof.
  unfold selected. induction (Threads db) as [|t rest IH]; simpl; [congruence|].
  destruct (id_in ids (thread_id t)); [reflexivity|exact IH].
Qed.

Lemma selected_none (ids : list Z) (db : Forum) :
  selected ids db = [] ->
  forall t, In t (Threads db) -> id_in ids (thread_id t) = false.
Proof.
  unfold selected. intros Hnone t Hin.
  destruct (id_in ids (thread_id t)) eqn:Hid; [|reflexivity].
  assert (Hsel : In t (List.filter (fun t => id_in ids (thread_id t)) (Threads db)))
    by (apply filter_In; split; assumption).
  rewrite Hnone in Hsel. contradiction.
Qed.

(** A move that selects some thread, written out. *)
Lemma moveThreads_run (ids : list Z) (target : Z) (db : Forum) :
  selected ids db <> [] ->
  moveThreads ids target db =
    if existsb (fun n => node_id n =? target) (Nodes db)
    then (successResponse Null
            (Some ("成功移动 " +:+ decimal (List.length ids) +:+ " 个帖子")) HTTP_STATUS.OK,
          mkForum (map (after_move target ids (Threads db)) (Nodes db))
            (map (moved_to target ids) (Threads db)))
    else (errors.internal "移动帖子失败", db).
Proof.
  intros Hsome. unfold moveThreads. cbv zeta.
  destruct (Nat.eqb_spec (List.length (selected ids db)) 0) as [Hlen|_].
  { apply length_zero_iff_nil in Hlen. contradiction. }
  pose proof (move_tally_fold target (selected ids db) [] 0 0) as Hfold.
  cbv zeta in Hfold.
  match goal with
  | |- context [fold_left ?f ?l ?a] =>
      change (fold_left (move_tally target) (selected ids db) ([], 0, 0))
        with (fold_left f l a) in Hfold;
      destruct (fold_left f l a) as [[m1 t1] r1]
  end.
  cbn [fst snd] in Hfold. destruct Hfold as (Hk & Ht & Hr & Hnd).
  specialize (Hnd (List.NoDup_nil _)).
  unfold selected in Hk, Ht, Hr. rewrite tally_filter, Z.add_0_l in Ht, Hr.
  assert (Hk' : forall k,
             thread_decrement (stats_of m1 k) =
               tally (fun _ => 1)
                 (fun t => id_in ids (thread_id t) && (negb (in_node target t) && in_node k t))
                 (Threads db) /\
             reply_decrement (stats_of m1 k) =
               tally reply_count
                 (fun t => id_in ids (thread_id t) && (negb (in_node target t) && in_node k t))
                 (Threads db)).
  { intros k. destruct (Hk k) as [H1 H2]. rewrite tally_filter in H1, H2.
    unfold stats_of in H1 at 2. unfold stats_of in H2 at 2. cbn in H1, H2.
    split; [rewrite H1|rewrite H2]; lia. }
  clear Hk.
  rewrite app_assoc, executeTransaction_batch, <- app_assoc.
  rewrite (batch_decrements _ _ _ Hnd).
  set (taken := map _ (Nodes db)).
  assert (Htaken : forall key,
             existsb (fun n => node_id n =? key) taken
             = existsb (fun n => node_id n =? key) (Nodes db)).
  { intros key. subst taken. apply existsb_node_map. intros n. reflexivity. }
  assert (Hrows : map (add_to_node target t1 r1) taken
                  = map (after_move target ids (Threads db)) (Nodes db)).
  { subst taken. rewrite map_map. apply map_ext. intros n.
    unfold add_to_node, after_move. cbn [node_id thread_count node_reply_count].
    destruct (Hk' (node_id n)) as [-> ->]. rewrite <- Ht, <- Hr.
    destruct (node_id n =? target); f_equal; lia. }
  destruct (t1 >? 0) eqn:Hpositive.
  - cbn [app batch run]. unfold with_nodes. cbn [Nodes Threads].
    rewrite Hrows, (selected_some _ _ Hsome).
    rewrite (existsb_node_map (after_move target ids (Threads db)) target (Nodes db))
      by (intros n; reflexivity).
    cbn [andb]. destruct (existsb _ (Nodes db)); reflexivity.
  - cbn [app batch run]. unfold with_nodes. cbn [Nodes Threads].
    rewrite Htaken, (selected_some _ _ Hsome). cbn [andb].
    destruct (existsb _ (Nodes db)); cbn [negb]; [|reflexivity].
    unfold with_threads. cbn [Nodes Threads]. rewrite <- Hrows.
    assert (Hnone : t1 = 0).
    { rewrite Z.gtb_ltb in Hpositive. apply Z.ltb_ge in Hpositive.
      pose proof (tally_count_nonneg
                    (fun t => id_in ids (thread_id t) && negb (in_node target t))
                    (Threads db)). lia. }
    assert (Hnone' : r1 = 0).
    { rewrite Hr. apply tally_none. rewrite <- Ht, Hnone. reflexivity. }
    rewrite Hnone, Hnone'. f_equal. f_equal.
    rewrite <- (map_id taken) at 1. apply map_ext. intros [i tc rc].
    unfold add_to_node. cbn. destruct (i =? target); [f_equal; lia|reflexivity].
Qed.

(** A delete that selects some thread, written out. *)
Lemma deleteThreads_run (ids : list Z) (db : Forum) :
  selected ids db <> [] ->
  deleteThreads ids db =
    (successResponse Null
       (Some ("成功删除 " +:+ decimal (List.length ids) +:+ " 个帖子及其所有回复"))
       HTTP_STATUS.OK,
     mkForum (map (after_delete ids (Threads db)) (Nodes db))
       (List.filter (fun t => negb (id_in ids (thread_id t))) (Threads db))).
Proof.
  intros Hsome. unfold deleteThreads. cbv zeta.
  destruct (Nat.eqb_spec (List.length (selected ids db)) 0) as [Hlen|_].
  { apply length_zero_iff_nil in Hlen. contradiction. }
  destruct (delete_tally_fold (selected ids db) []) as (Hk & Hnd).
  specialize (Hnd (List.NoDup_nil _)).
  rewrite executeTransaction_batch, (batch_decrements _ _ _ Hnd).
  cbn [batch run]. unfold with_nodes, with_threads. cbn [Nodes Threads].
  f_equal. f_equal. apply map_ext. intros n. unfold after_delete.
  destruct (Hk (node_id n)) as [-> ->]. unfold selected. rewrite !tally_filter.
  unfold stats_of. cbn. f_equal; lia.
Qed.

Lemma moved_to_weights (target : Z) (ids : list Z) (t : Thread) :
  reply_count (moved_to target ids t) = reply_count t.
Proof. unfold moved_to. destruct (id_in ids (thread_id t)); reflexivity. Qed.

(** Moving threads keeps the counters of the nodes true.  On a forum
    whose node counters say what the threads are, [PUT /threads/move]
    leaves one of the same kind, and the foreign key of [Threads.node_id]
    still holds.  It answers 404 when no thread has one of the ids and 500
    when the target is no node, the forum unchanged in both cases;
    otherwise it answers Ok, every selected thread is in the target node,
    the other threads are as they were, and no node is added or removed. *)
Theorem moving_threads_keeps_the_counters (ids : list Z) (target : Z) (db : Forum) :
  counters_consistent db ->
  references_hold db ->
  let answer := moveThreads ids target db in
  counters_consistent (snd answer) /\
  references_hold (snd answer) /\
  (selected ids db = [] -> status (fst answer) = 404 /\ snd answer = db) /\
  (selected ids db <> [] ->
   existsb (fun n => node_id n =? target) (Nodes db) = false ->
   status (fst answer) = 500 /\ snd answer = db) /\
  (selected ids db <> [] ->
   existsb (fun n => node_id n =? target) (Nodes db) = true ->
   kind (fst answer) = Ok /\
   Threads (snd answer) = map (moved_to target ids) (Threads db) /\
   map node_id (Nodes (snd answer)) = map node_id (Nodes db)).
Proof.
  intros Hcons Hrefs answer. subst answer.
  destruct (selected ids db) as [|t0 more] eqn:Hsel.
  { unfold moveThreads. rewrite Hsel. cbn [List.length Nat.eqb fst snd].
    split; [exact Hcons|]. split; [exact Hrefs|].
    split; [intros _; split; reflexivity|]. split; intros Hno; contradiction. }
  assert (Hsome : selected ids db <> []) by (rewrite Hsel; discriminate).
  rewrite <- Hsel. clear Hsel t0 more.
  rewrite (moveThreads_run _ _ _ Hsome).
  destruct (existsb (fun n => node_id n =? target) (Nodes db)) eqn:Htarget;
    cbn [fst snd].
  2:{ split; [exact Hcons|]. split; [exact Hrefs|].
      split; [intros Hno; contradiction|].
      split; [intros _ _; split; reflexivity|intros _ Hno; discriminate]. }
  split.
  { intros n' Hin'. cbn [Nodes Threads] in *.
    apply in_map_iff in Hin' as (n & <- & Hin).
    destruct (Hcons n Hin) as [Hthreads Hreplies].
    unfold after_move. cbn [node_id thread_count node_reply_count].
    rewrite (tally_moved (fun _ => 1)) by reflexivity.
    rewrite (tally_moved reply_count) by (apply moved_to_weights).
    rewrite Hthreads, Hreplies. split; reflexivity. }
  split.
  { intros t' Hin'. cbn [Nodes Threads] in *.
    apply in_map_iff in Hin' as (t & <- & Hin).
    rewrite (existsb_node_map (after_move target ids (Threads db)))
      by (intros n; reflexivity).
    unfold moved_to. destruct (id_in ids (thread_id t)); [exact Htarget|].
    exact (Hrefs t Hin). }
  split; [intros Hno; contradiction|]. split; [intros _ Hno; discriminate|].
  intros _ _. split; [reflexivity|]. split; [reflexivity|].
  cbn [Nodes]. rewrite map_map. apply map_ext. intros n. reflexivity.
Qed.

(** Deleting threads keeps the counters of the nodes true.  On a forum
    whose node counters say what the threads are, [DELETE /threads] leaves
    one of the same kind.  It answers 404, the forum unchanged, when no
    thread has one of the ids; otherwise it answers Ok, the selected
    threads are gone, the others are as they were and in their order, and
    no node is added or removed. *)
Theorem deleting_threads_keeps_the_counters (ids : list Z) (db : Forum) :
  counters_consistent db ->
  references_hold db ->
  let answer := deleteThreads ids db in
  counters_consistent (snd answer) /\
  references_hold (snd answer) /\
  (selected ids db = [] -> status (fst answer) = 404 /\ snd answer = db) /\
  (selected ids db <> [] ->
   kind (fst answer) = Ok /\
   Threads (snd answer)
     = List.filter (fun t => negb (id_in ids (thread_id t))) (Threads db) /\
   map node_id (Nodes (snd answer)) = map node_id (Nodes db)).
Proof.
  intros Hcons Hrefs answer. subst answer.
  destruct (selected ids db) as [|t0 more] eqn:Hsel.
  { unfold deleteThreads. rewrite Hsel. cbn [List.length Nat.eqb fst snd].
    split; [exact Hcons|]. split; [exact Hrefs|].
    split; [intros _; split; reflexivity|intros Hno; contradiction]. }
  assert (Hsome : selected ids db <> []) by (rewrite Hsel; discriminate).
  rewrite <- Hsel. clear Hsel t0 more.
  rewrite (deleteThreads_run _ _ Hsome). cbn [fst snd].
  split.
  { intros n' Hin'. cbn [Nodes Threads] in *.
    apply in_map_iff in Hin' as (n & <- & Hin).
    destruct (Hcons n Hin) as [Hthreads Hreplies].
    unfold after_delete. cbn [node_id thread_count node_reply_count].
    rewrite !tally_deleted, Hthreads, Hreplies. split; reflexivity. }
  split.
  { intros t Hin. cbn [Nodes Threads] in *.
    apply filter_In in Hin as [Hin _].
    rewrite (existsb_node_map (after_delete ids (Threads db)))
      by (intros n; reflexivity).
    exact (Hrefs t Hin). }
  split; [intros Hno; contradiction|].
  intros _. split; [reflexivity|]. split; [reflexivity|].
  cbn [Nodes]. rewrite map_map. apply map_ext. intros n. reflexivity.
Qed.

(** Pinning touches the flag only.  [PUT /threads/pin] always answers Ok,
    with the number of ids it was given in the message, also when no
    thread has one of them; the selected threads get the flag, every other
    column and every other thread stay as they were, and so do the nodes:
    counters that were true stay true. *)
Theorem pinning_touches_the_flag_only (ids : list Z) (isPinned : bool) (db : Forum) :
  let answer := pinThreads ids isPinned db in
  fst answer
    = successResponse Null
        (Some ("成功" +:+ (if isPinned then "置顶" else "取消置顶") +:+ " "
               +:+ decimal (List.length ids) +:+ " 个帖子"))
        HTTP_STATUS.OK /\
  Nodes (snd answer) = Nodes db /\
  map thread_id (Threads (snd answer)) = map thread_id (Threads db) /\
  map thread_node_id (Threads (snd answer)) = map thread_node_id (Threads db) /\
  map reply_count (Threads (snd answer)) = map reply_count (Threads db) /\
  (forall t, In t (Threads (snd answer)) ->
     if id_in ids (thread_id t) then is_pinned t = isPinned else In t (Threads db)) /\
  (counters_consistent db -> counters_consistent (snd answer)).
Proof.
  intros answer. subst answer. unfold pinThreads. cbn [run fst snd].
  unfold with_threads. cbn [Nodes Threads].
  split; [reflexivity|]. split; [reflexivity|].
  do 3 (split; [rewrite map_map; apply map_ext; intros t;
                destruct (id_in ids (thread_id t)); reflexivity|]).
  split.
  - intros t' Hin. apply in_map_iff in Hin as (t & <- & Hin).
    destruct (id_in ids (thread_id t)) eqn:Hid; cbn [thread_id]; rewrite Hid;
      [reflexivity|exact Hin].
  - intros Hcons n Hin. cbn [Nodes Threads] in *.
    rewrite !tally_map
      by (intros t; unfold in_node; destruct (id_in ids (thread_id t)); reflexivity).
    exact (Hcons n Hin).
Qed.

End ForumCounters.

Lemma moving_threads_keeps_the_counters_witness :
  let answer := AdminThreads.moveThreads [10; 12] 2 example_forum in
  counters_consistent (snd answer) /\
  references_hold (snd answer) /\
  (AdminThreads.selected [10; 12] example_forum = [] ->
   ApiUtils.status (fst answer) = 404 /\ snd answer = example_forum) /\
  (AdminThreads.selected [10; 12] example_forum <> [] ->
   existsb (fun n => AdminThreads.node_id n =? 2) (AdminThreads.Nodes example_forum) = false ->
   ApiUtils.status (fst answer) = 500 /\ snd answer = example_forum) /\
  (AdminThreads.selected [10; 12] example_forum <> [] ->
   existsb (fun n => AdminThreads.node_id n =? 2) (AdminThreads.Nodes example_forum) = true ->
   ApiUtils.kind (fst answer) = ApiUtils.Ok /\
   AdminThreads.Threads (snd answer)
     = map (moved_to 2 [10; 12]) (AdminThreads.Threads example_forum) /\
   map AdminThreads.node_id (AdminThreads.Nodes (snd answer))
     = map AdminThreads.node_id (AdminThreads.Nodes example_forum)).
Proof.
  apply (moving_threads_keeps_the_counters [10; 12] 2 example_forum).
  - intros n [<- | [<- | []]]; split; reflexivity.
  - intros t [<- | [<- | [<- | []]]]; reflexivity.
Defined.

Lemma deleting_threads_keeps_the_counters_witness :
  let answer := AdminThreads.deleteThreads [11; 12; 99] example_forum in
  counters_consistent (snd answer) /\
  references_hold (snd answer) /\
  (AdminThreads.selected [11; 12; 99] example_forum = [] ->
   ApiUtils.status (fst answer) = 404 /\ snd answer = example_forum) /\
  (AdminThreads.selected [11; 12; 99] example_forum <> [] ->
   ApiUtils.kind (fst answer) = ApiUtils.Ok /\
   AdminThreads.Threads (snd answer)
     = List.filter (fun t => negb (AdminThreads.id_in [11; 12; 99] (AdminThreads.thread_id t)))
         (AdminThreads.Threads example_forum) /\
   map AdminThreads.node_id (AdminThreads.Nodes (snd answer))
     = map AdminThreads.node_id (AdminThreads.Nodes example_forum)).
Proof.
  apply (deleting_threads_keeps_the_counters [11; 12; 99] example_forum).
  - intros n [<- | [<- | []]]; split; reflexivity.
  - intros t [<- | [<- | [<- | []]]]; reflexivity.
Defined.

(** The example forum after thread 10 went from node 1 to node 2. *)
Example thread_moved_between_nodes :
  snd (AdminThreads.moveThreads [10; 12] 2 example_forum)
  = AdminThreads.mkForum
      [AdminThreads.mkNode 1 1 4; AdminThreads.mkNode 2 2 7]
      [AdminThreads.mkThread 10 2 3 false; AdminThreads.mkThread 11 1 4 false;
       AdminThreads.mkThread 12 2 4 true].
Proof. reflexivity. Qed.

(** ** The text of a digest *)

Section Digest.
Import S3Client.

Lemma hex_byte_shape (b : Byte.byte) :
  exists high low,
    padStart 2 "0"%char (toString16 b) = String high (String low EmptyString) /\
    is_lower_hex high = true /\ is_lower_hex low = true /\
    unhex_digit high = Some (Byte.to_N b / 16)%N /\
    unhex_digit low = Some (Byte.to_N b mod 16)%N.
Proof.
  destruct b; (eexists; eexists; split; [reflexivity|repeat split; reflexivity]).
Qed.

Lemma hex_cons (b : Byte.byte) (bytes : list Byte.byte) :
  hex (b :: bytes) = padStart 2 "0"%char (toString16 b) +:+ hex bytes.
Proof.
  unfold hex. cbn [map String.concat].
  destruct (map _ bytes) as [|x xs] eqn:Hrest.
  - cbn [String.concat]. destruct (hex_byte_shape b) as (h & l & -> & _). reflexivity.
  - reflexivity.
Qed.

Lemma byte_of_nibbles (b : Byte.byte) :
  Byte.of_N (16 * (Byte.to_N b / 16) + Byte.to_N b mod 16) = Some b.
Proof.
  rewrite <- N.div_mod by discriminate. apply Byte.of_to_N.
Qed.

Lemma hex_shape (bytes : list Byte.byte) :
  String.length (hex bytes) = (2 * List.length bytes)%nat /\
  forallb is_lower_hex (list_ascii_of_string (hex bytes)) = true /\
  unhex (hex bytes) = Some bytes.
Proof.
  induction bytes as [|b rest (IHlen & IHhex & IHback)].
  - repeat split.
  - rewrite hex_cons.
    destruct (hex_byte_shape b) as (h & l & -> & Hh & Hl & Hhigh & Hlow).
    change (String h (String l EmptyString) +:+ hex rest)
      with (String h (String l (hex rest))).
    split; [cbn [String.length List.length]; rewrite IHlen; lia|].
    split; [cbn [list_ascii_of_string forallb]; rewrite Hh, Hl, IHhex; reflexivity|].
    cbn [unhex]. rewrite Hhigh, Hlow, IHback, byte_of_nibbles. reflexivity.
Qed.

(** The text [sha256] and [hmacHex] make of a digest: two characters for
    every byte, all of them digits or lower-case letters from a to f, and
    the bytes can be read back from it, so two digests have the same text
    only when they are the same.  A SHA-256 digest of 32 bytes gives 64
    characters. *)
Theorem digest_text_is_fixed_width_hex (bytes : list Byte.byte) :
  String.length (hex bytes) = (2 * List.length bytes)%nat /\
  forallb is_lower_hex (list_ascii_of_string (hex bytes)) = true /\
  unhex (hex bytes) = Some bytes /\
  (forall other, hex other = hex bytes -> other = bytes).
Proof.
  destruct (hex_shape bytes) as (Hlen & Hhex & Hback).
  split; [exact Hlen|]. split; [exact Hhex|]. split; [exact Hback|].
  intros other Hsame.
  destruct (hex_shape other) as (_ & _ & Hother).
  rewrite Hsame, Hback in Hother. injection Hother as <-. reflexivity.
Qed.

End Digest.
